(** * hifi_vcpkg.py: the vcpkg repository manager, embedded in Rocq

    The class [VcpkgRepo] of [hifi_vcpkg.py] decides, from a hash of the ports
    overlay and a format version, whether an installation of vcpkg is current,
    and rebuilds it when it is not.

    The embedding is shallow.  Python strings are [string]; the arguments
    object and the instance are records; the methods are functions in a
    state-and-exception monad over a [World]: a file system, the working
    directory, the removals that the operating system refuses, and the trace
    of the file-system and process calls made so far.

    [os.path] is embedded as [posixpath] (the Linux and Darwin hosts).  The
    Windows branch of [__init__] is kept for the constants it selects.
    [print] calls are not part of the model.  The collaborators that live in
    other modules ([hifi_utils.hashFolder], [hifi_utils.downloadAndExtract],
    [hifi_utils.executeSubprocess], [hifi_android]) are parameters. *)

From Stdlib Require Import String Ascii List Bool Arith ZArith Lia.
From Stdlib Require Import DecimalString.
Import ListNotations.
Local Open Scope string_scope.
Local Open Scope list_scope.

(** ** Python strings *)

Module PyStr.

(** [s[:n]] *)
Definition take (n : nat) (s : string) : string := substring 0 n s.

(** [str(i)] for an [int] *)
Definition str_of_int (i : Z) : string := NilZero.string_of_int (Z.to_int i).

(** [s.replace(a, b)] for single characters [a] and [b] *)
Fixpoint replace_char (a b : ascii) (s : string) : string :=
  match s with
  | EmptyString => EmptyString
  | String c r =>
      String (if Ascii.eqb c a then b else c) (replace_char a b r)
  end.

(** [c in s] for a single character *)
Fixpoint mem_char (c : ascii) (s : string) : bool :=
  match s with
  | EmptyString => false
  | String d r => Ascii.eqb d c || mem_char c r
  end.

(** [s.startswith(c)] and [s.endswith(c)] for a single character *)
Definition starts_with_char (c : ascii) (s : string) : bool :=
  match s with
  | String d _ => Ascii.eqb d c
  | EmptyString => false
  end.

(** [s.endswith(t)] *)
Definition ends_with (t s : string) : bool :=
  let n := String.length s in
  let m := String.length t in
  Nat.leb m n && String.eqb (substring (n - m) m s) t.

Fixpoint ends_with_char (c : ascii) (s : string) : bool :=
  match s with
  | EmptyString => false
  | String d EmptyString => Ascii.eqb d c
  | String _ r => ends_with_char c r
  end.

(** [s.rstrip(c)] for a single character: [rstrip_char] drops the trailing
    run of [c]. *)
Fixpoint rstrip_char (c : ascii) (s : string) : string :=
  match s with
  | EmptyString => EmptyString
  | String d r =>
      match rstrip_char c r with
      | EmptyString => if Ascii.eqb d c then EmptyString else String d EmptyString
      | r' => String d r'
      end
  end.

End PyStr.

(** ** Exceptions and results *)

Inductive exn : Type :=
| FileNotFoundError
| FileExistsError
| IsADirectoryError
| NotADirectoryError
| PermissionError
| OSError
| ShutilError          (* shutil.Error, raised by copytree *)
| RuntimeError
| FormatError          (* IndexError, KeyError or ValueError of str.format *)
| UnboundLocalError
| AttributeError
| Unsupported.         (* a construct outside the embedded fragment *)

Inductive Res (A : Type) : Type :=
| Ok : A -> Res A
| Raise : exn -> Res A.
Arguments Ok {A} _.
Arguments Raise {A} _.

(** ** [str.format] with automatic field numbering

    The templates of this module use only the field [{}].  [{{] and [}}] are
    the escapes of a brace.  Once the arguments are used up every further
    replacement field raises (an automatic field has no argument left, a
    numbered one switches numbering, a named one has no keyword); a lone
    brace raises as well.  A field other than [{}] met while arguments remain
    is outside the fragment: the templates here never reach it, since their
    first fields are the constant [{}]s. *)

Definition prepend (a : string) (r : Res string) : Res string :=
  match r with
  | Ok s => Ok (a ++ s)%string
  | Raise e => Raise e
  end.

Definition field_error (args : list string) : Res string :=
  match args with
  | [] => Raise FormatError
  | _ :: _ => Raise Unsupported
  end.

Fixpoint py_format (t : string) (args : list string) : Res string :=
  match t with
  | EmptyString => Ok EmptyString
  | String c r =>
      if Ascii.eqb c "{" then
        match r with
        | String d r' =>
            if Ascii.eqb d "}" then
              match args with
              | a :: args' => prepend a (py_format r' args')
              | [] => Raise FormatError
              end
            else if Ascii.eqb d "{" then prepend "{" (py_format r' args)
            else field_error args
        | EmptyString => Raise FormatError
        end
      else if Ascii.eqb c "}" then
        match r with
        | String d r' =>
            if Ascii.eqb d "}" then prepend "}" (py_format r' args)
            else Raise FormatError
        | EmptyString => Raise FormatError
        end
      else prepend (String c EmptyString) (py_format r args)
  end.

(** ** [posixpath] *)

Module PosixPath.

Definition sep : ascii := "/"%char.

(** [posixpath.join(a, b)] *)
Definition join (a b : string) : string :=
  if PyStr.starts_with_char sep b then b
  else if String.eqb a "" || PyStr.ends_with_char sep a then (a ++ b)%string
  else (a ++ "/" ++ b)%string.

(** [posixpath.join(a, b, c, ...)] *)
Definition joins (a : string) (bs : list string) : string :=
  fold_left join bs a.

(** [p[:i], p[i:]] for [i = p.rfind('/') + 1] *)
Fixpoint rsplit (p : string) : string * string :=
  match p with
  | EmptyString => (EmptyString, EmptyString)
  | String c r =>
      let (h, t) := rsplit r in
      if String.eqb h "" then
        if Ascii.eqb c sep then (String c EmptyString, t)
        else (EmptyString, String c t)
      else (String c h, t)
  end.

(** [posixpath.split(p)]: the head loses its trailing slashes unless it is
    made of slashes only. *)
Definition split (p : string) : string * string :=
  let (h, t) := rsplit p in
  let h' := PyStr.rstrip_char sep h in
  (if String.eqb h' "" then h else h', t).

(** [posixpath.isabs(p)] *)
Definition isabs (p : string) : bool := PyStr.starts_with_char sep p.

(** The components between the slashes of [p]. *)
Fixpoint segments (p : string) : list string :=
  match p with
  | EmptyString => [EmptyString]
  | String c r =>
      if Ascii.eqb c sep then EmptyString :: segments r
      else match segments r with
           | x :: xs => String c x :: xs
           | [] => [String c EmptyString]
           end
  end.

End PosixPath.

(** ** The file system

    A location is the list of the names from the root directory down.  The
    file system is a finite table from locations to nodes; the first entry of
    a location is the one in force.  The root directory is always there.  A
    file holds the text that reading it in text mode returns. *)

Definition loc := list string.

Inductive node : Type :=
| File (content : string)
| Dir
| Link (target : string).

Definition FS := list (loc * node).

Definition loc_eqb (a b : loc) : bool :=
  if list_eq_dec string_dec a b then true else false.

(** [is_prefix a b]: [b] is [a] or lies below [a]. *)
Fixpoint is_prefix (a b : loc) : bool :=
  match a, b with
  | [], _ => true
  | x :: a', y :: b' => String.eqb x y && is_prefix a' b'
  | _ :: _, [] => false
  end.

Definition strictly_below (a b : loc) : bool :=
  is_prefix a b && negb (loc_eqb a b).

Fixpoint alookup (q : loc) (fs : FS) : option node :=
  match fs with
  | [] => None
  | (k, n) :: fs' => if loc_eqb k q then Some n else alookup q fs'
  end.

Definition node_at (fs : FS) (q : loc) : option node :=
  match q with
  | [] => Some Dir
  | _ => alookup q fs
  end.

Definition drop_loc (q : loc) (fs : FS) : FS :=
  filter (fun e => negb (loc_eqb (fst e) q)) fs.

Definition put (q : loc) (n : node) (fs : FS) : FS :=
  (q, n) :: drop_loc q fs.

(** One step of path resolution: an empty name or [.] stays, [..] goes up
    (lexically), a name goes down. *)
Definition walk (at_ : loc) (name : string) : loc :=
  if String.eqb name "" || String.eqb name "." then at_
  else if String.eqb name ".." then removelast at_
  else at_ ++ [name].

(** The location a path string names, for a relative path from [base].
    Symbolic links in the directory part of a path are not followed: paths
    are taken with their directory part already resolved. *)
Definition locate (base : loc) (p : string) : loc :=
  fold_left walk (PosixPath.segments p)
            (if PosixPath.isabs p then [] else base).

(** Following the symbolic links at a location, at most [fuel] of them (the
    kernel gives up after 40: ELOOP).  The result is the location reached,
    which holds a file, a directory or nothing. *)
Fixpoint chase (fuel : nat) (fs : FS) (q : loc) : option loc :=
  match node_at fs q with
  | Some (Link t) =>
      match fuel with
      | O => None
      | S fuel' =>
          if String.eqb t "" then None
          else chase fuel' fs (locate (removelast q) t)
      end
  | _ => Some q
  end.

Definition MAXSYMLINKS : nat := 40.

Arguments chase : simpl never.
Arguments locate : simpl never.

(** The node a location leads to once links are followed ([os.stat]). *)
Definition stat_at (fs : FS) (q : loc) : option node :=
  match chase MAXSYMLINKS fs q with
  | Some q' => node_at fs q'
  | None => None
  end.

(** ** The world and the monad of the methods *)

(** The calls that touch the file system or start a process, as the methods
    make them, with the path strings they pass. *)
(** The arguments of a call of [hifi_utils.downloadAndExtract]. *)
Record fetch : Type := mkFetch {
  fetch_url : string;
  fetch_dest : string;
  fetch_hash : option string;
  fetch_isZip : bool;
  fetch_md5 : bool
}.

Inductive call : Type :=
| CMakedirs (p : string)
| CRmtree (p : string)
| CUnlink (p : string)
| CCopytree (src dst : string)
| COpenRead (p : string)
| COpenWrite (p : string)
| CDownload (f : fetch)
| CRun (cmd : list string) (folder : string).

(** [stuck q]: the operating system refuses to remove the entry at [q] (a
    file in use, a directory without permission).  [trace] holds the calls
    made so far, the latest first. *)
Record World : Type := mkWorld {
  files : FS;
  cwd : loc;
  stuck : loc -> bool;
  trace : list call
}.

Definition with_files (w : World) (fs : FS) : World :=
  mkWorld fs (cwd w) (stuck w) (trace w).

Definition M (A : Type) : Type := World -> Res A * World.

Definition ret {A} (a : A) : M A := fun w => (Ok a, w).

Definition bind {A B} (m : M A) (k : A -> M B) : M B :=
  fun w =>
    match m w with
    | (Ok a, w') => k a w'
    | (Raise e, w') => (Raise e, w')
    end.

Definition raise {A} (e : exn) : M A := fun w => (Raise e, w).

Definition record (c : call) : M unit :=
  fun w => (Ok tt, mkWorld (files w) (cwd w) (stuck w) (c :: trace w)).

(** A query of the world that changes nothing. *)
Definition ask {A} (f : World -> A) : M A := fun w => (Ok (f w), w).

Declare Scope monad_scope.
Delimit Scope monad_scope with monad.
Notation "x <- m ;; k" := (bind m (fun x => k))
  (at level 61, m at next level, right associativity) : monad_scope.
Notation "m ;; k" := (bind m (fun _ => k))
  (at level 61, right associativity) : monad_scope.
Local Open Scope monad_scope.

(** [when b m]: [if b: m] *)
Definition when (b : bool) (m : M unit) : M unit :=
  if b then m else ret tt.

(** ** [os.path] queries *)

Module Os.

(** [os.stat] fails on the empty path. *)
Definition lstat (w : World) (p : string) : option node :=
  if String.eqb p "" then None else node_at (files w) (locate (cwd w) p).

Definition stat (w : World) (p : string) : option node :=
  if String.eqb p "" then None else stat_at (files w) (locate (cwd w) p).

Definition isfile (p : string) (w : World) : bool :=
  match stat w p with Some (File _) => true | _ => false end.

Definition isdir (p : string) (w : World) : bool :=
  match stat w p with Some Dir => true | _ => false end.

Definition islink (p : string) (w : World) : bool :=
  match lstat w p with Some (Link _) => true | _ => false end.

(** [os.unlink(p)] *)
Definition unlink (p : string) : M unit :=
  record (CUnlink p) ;;
  fun w =>
    let q := locate (cwd w) p in
    match lstat w p with
    | None => (Raise FileNotFoundError, w)
    | Some Dir => (Raise IsADirectoryError, w)
    | Some _ =>
        if stuck w q then (Raise PermissionError, w)
        else (Ok tt, with_files w (drop_loc q (files w)))
    end.

(** [os.makedirs(p)]: the missing directories are made from the top down; an
    entry already at [p] is an error. *)
Fixpoint mkdirs_from (done : loc) (rest : list string) (fs : FS) : Res unit * FS :=
  match rest with
  | [] => (Ok tt, fs)
  | n :: rest' =>
      let a := done ++ [n] in
      match node_at fs a, rest' with
      | None, _ => mkdirs_from a rest' (put a Dir fs)
      | Some _, [] => (Raise FileExistsError, fs)
      | Some Dir, _ => mkdirs_from a rest' fs
      | Some (File _), _ => (Raise NotADirectoryError, fs)
      | Some (Link _), _ => (Raise Unsupported, fs)
      end
  end.

Definition do_makedirs (p : string) : M unit :=
  fun w =>
    if String.eqb p "" then (Raise FileNotFoundError, w)
    else
      match locate (cwd w) p with
      | [] => (Raise FileExistsError, w)
      | q => let (r, fs) := mkdirs_from [] q (files w) in (r, with_files w fs)
      end.

Definition makedirs (p : string) : M unit :=
  record (CMakedirs p) ;; do_makedirs p.

(** The path string of a location, and [os.path.realpath]. *)
Definition render (q : loc) : string :=
  match q with
  | [] => "/"
  | _ => fold_left (fun acc n => (acc ++ "/" ++ n)%string) q ""
  end.

Definition realpath (p : string) (w : World) : string :=
  let q := locate (cwd w) p in
  match chase MAXSYMLINKS (files w) q with
  | Some q' => render q'
  | None => render q
  end.

(** [open(p, 'r')] with [f.read()] *)
Definition read_text (p : string) : M string :=
  record (COpenRead p) ;;
  fun w =>
    match stat w p with
    | Some (File c) => (Ok c, w)
    | Some _ => (Raise IsADirectoryError, w)
    | None => (Raise FileNotFoundError, w)
    end.

(** [open(p, 'w')] with [f.write(c)]: the file is made or truncated where
    the links at [p] lead, in a directory that is there. *)
Definition write_text (p c : string) : M unit :=
  record (COpenWrite p) ;;
  fun w =>
    if String.eqb p "" then (Raise FileNotFoundError, w)
    else
      match chase MAXSYMLINKS (files w) (locate (cwd w) p) with
      | None => (Raise OSError, w)
      | Some q =>
          match node_at (files w) q with
          | Some Dir => (Raise IsADirectoryError, w)
          | _ =>
              match node_at (files w) (removelast q) with
              | Some Dir => (Ok tt, with_files w (put q (File c) (files w)))
              | Some _ => (Raise NotADirectoryError, w)
              | None => (Raise FileNotFoundError, w)
              end
          end
      end.

End Os.

(** ** [shutil] *)

Module Shutil.

(** An entry outlives a removal of the tree around it when it is stuck or
    something below it is: a directory that is not empty cannot be removed. *)
Definition survives (w : World) (k : loc) : bool :=
  existsb (fun e => is_prefix k (fst e) && stuck w (fst e)) (files w).

Definition after_rmtree (w : World) (q : loc) : FS :=
  filter (fun e => negb (is_prefix q (fst e)) || survives w (fst e)) (files w).

(** [shutil.rmtree(p, ignore_errors=True)]: a real directory loses all that
    can be removed; on a symbolic link or on anything else the error is
    swallowed and nothing happens. *)
Definition rmtree_ignore_errors (p : string) : M unit :=
  record (CRmtree p) ;;
  fun w =>
    match Os.lstat w p with
    | Some Dir => (Ok tt, with_files w (after_rmtree w (locate (cwd w) p)))
    | _ => (Ok tt, w)
    end.

Definition COPY_DEPTH : nat := 64.

(** What [copytree] (with [symlinks=False]) copies from the directory at
    [sq]: every entry below it, at its location relative to [sq]; a link is
    replaced by what it leads to, a directory behind a link is copied in
    turn.  The flag tells whether an entry could not be copied (a dangling
    link, or links nested deeper than [COPY_DEPTH]). *)
Fixpoint snapshot (fuel : nat) (fs : FS) (sq : loc) : list (loc * node) * bool :=
  match fuel with
  | O => ([], true)
  | S fuel' =>
      fold_right
        (fun e acc =>
           if strictly_below sq (fst e) then
             let rel := skipn (length sq) (fst e) in
             match snd e with
             | Link _ =>
                 match chase MAXSYMLINKS fs (fst e) with
                 | Some q' =>
                     match node_at fs q' with
                     | Some (File c) => ((rel, File c) :: fst acc, snd acc)
                     | Some Dir =>
                         let (sub, err) := snapshot fuel' fs q' in
                         ((rel, Dir)
                            :: map (fun e' => (rel ++ fst e', snd e')) sub
                            ++ fst acc,
                          err || snd acc)
                     | _ => (fst acc, true)
                     end
                 | None => (fst acc, true)
                 end
             | n => ((rel, n) :: fst acc, snd acc)
             end
           else acc)
        ([], false) fs
  end.

Arguments snapshot : simpl never.

Definition graft (dq : loc) (es : list (loc * node)) (fs : FS) : FS :=
  map (fun e => (dq ++ fst e, snd e)) es ++ fs.

(** [shutil.copytree(src, dst)]: [src] must lead to a directory, [dst] must
    not exist and is made with its parents; what could be copied is copied
    even when an error is raised at the end.  A destination inside the source
    is outside the fragment. *)
Definition copytree (src dst : string) : M unit :=
  record (CCopytree src dst) ;;
  fun w =>
    match Os.stat w src with
    | None => (Raise FileNotFoundError, w)
    | Some (File _) | Some (Link _) => (Raise NotADirectoryError, w)
    | Some Dir =>
        match chase MAXSYMLINKS (files w) (locate (cwd w) src) with
        | None => (Raise OSError, w)
        | Some sq =>
            if is_prefix sq (locate (cwd w) dst) then (Raise Unsupported, w)
            else
              let (copied, err) := snapshot COPY_DEPTH (files w) sq in
              match Os.do_makedirs dst w with
              | (Raise e, w') => (Raise e, w')
              | (Ok _, w') =>
                  let w'' := with_files w' (graft (locate (cwd w) dst) copied (files w')) in
                  if err then (Raise ShutilError, w'') else (Ok tt, w'')
              end
        end
    end.

End Shutil.

(** ** The host: [platform], the environment and the other modules *)

Inductive System : Type := Windows | Darwin | Linux | OtherSystem.

Definition System_eqb (a b : System) : bool :=
  match a, b with
  | Windows, Windows | Darwin, Darwin | Linux, Linux
  | OtherSystem, OtherSystem => true
  | _, _ => false
  end.

(** An entry of [hifi_android.getPlatformPackages()]. *)
Record package : Type := mkPackage {
  pkg_file : string;
  pkg_checksum : string
}.

Record Host : Type := mkHost {
  system : System;                         (* platform.system() *)
  getenv : string -> option string;        (* os.getenv *)
  gettempdir : string;                     (* tempfile.gettempdir() *)
  expanduser : string -> string;           (* os.path.expanduser *)
  hashFolder : string -> World -> string;  (* hifi_utils.hashFolder *)
  (* hifi_utils.downloadAndExtract, on the working directory and the files *)
  downloadAndExtract : fetch -> loc -> FS -> Res unit * FS;
  (* hifi_utils.executeSubprocess *)
  executeSubprocess : list string -> string -> loc -> FS -> Res unit * FS;
  getPlatformPackages : list (string * package);
  getPackageUrl : package -> string
}.

(** [os.getenv(name, default)] *)
Definition getenv_default (h : Host) (name default : string) : string :=
  match getenv h name with
  | Some v => v
  | None => default
  end.

(** ** The class [VcpkgRepo] *)

Record Args : Type := mkArgs {
  ports_path : string;
  build_root : string;
  vcpkg_root : option string;
  android : bool;
  force_build : bool;
  force_bootstrap : bool
}.

Definition LF : string := String "010" EmptyString.
Definition DQ : string := String "034" EmptyString.

Definition CMAKE_TEMPLATE : string :=
  (LF ++ "get_filename_component(CMAKE_TOOLCHAIN_FILE " ++ DQ ++ "{}" ++ DQ
      ++ " ABSOLUTE CACHE)" ++ LF
      ++ "get_filename_component(CMAKE_TOOLCHAIN_FILE_UNCACHED " ++ DQ ++ "{}"
      ++ DQ ++ " ABSOLUTE)" ++ LF
      ++ "set(VCPKG_INSTALL_ROOT " ++ DQ ++ "{}" ++ DQ ++ ")" ++ LF
      ++ "set(VCPKG_TOOLS_DIR " ++ DQ ++ "{}" ++ DQ ++ ")" ++ LF)%string.

Definition CMAKE_TEMPLATE_NON_ANDROID : string :=
  (LF ++ "# If the cached cmake toolchain path is different from the computed one, exit"
      ++ LF
      ++ "if(NOT (CMAKE_TOOLCHAIN_FILE_UNCACHED STREQUAL CMAKE_TOOLCHAIN_FILE))"
      ++ LF
      ++ "    message(FATAL_ERROR " ++ DQ
      ++ "CMAKE_TOOLCHAIN_FILE has changed, please wipe the build directory and rerun cmake"
      ++ DQ ++ ")" ++ LF
      ++ "endif()" ++ LF)%string.

(** The attributes of an instance.  [basePath] is set only when no root was
    given, [androidPackagePath] only for an android build. *)
Record VcpkgRepo : Type := mkVcpkgRepo {
  args : Args;
  sourcePortsPath : string;
  id : string;
  configFilePath : string;
  basePath : option string;
  path : string;
  lockFile : string;
  tagFile : string;
  version : Z;
  tagContents : string;
  exe : string;
  vcpkgUrl : string;
  vcpkgHash : string;
  hostTriplet : string;
  triplet : string;
  androidPackagePath : option string
}.

(** A value of [str.format] in the monad. *)
Definition format (t : string) (xs : list string) : M string :=
  fun w => (py_format t xs, w).

(** ["{}_{}".format(id, version)] *)
Definition make_tag (id : string) (version : Z) : Res string :=
  py_format "{}_{}" [id; PyStr.str_of_int version].

Definition WIN_URL : string :=
  "https://hifi-public.s3.amazonaws.com/dependencies/vcpkg/vcpkg-win32.tar.gz?versionId=YZYkDejDRk7L_hrK_WVFthWvisAhbDzZ".
Definition WIN_HASH : string :=
  "3e0ff829a74956491d57666109b3e6b5ce4ed0735c24093884317102387b2cb1b2cd1ff38af9ed9173501f6e32ffa05cc6fe6d470b77a71ca1ffc3e0aa46ab9e".
Definition OSX_URL : string :=
  "https://hifi-public.s3.amazonaws.com/dependencies/vcpkg/vcpkg-osx.tar.gz?versionId=_fhqSxjfrtDJBvEsQ8L_ODcdUjlpX9cc".
Definition OSX_HASH : string :=
  "519d666d02ef22b87c793f016ca412e70f92e1d55953c8f9bd4ee40f6d9f78c1df01a6ee293907718f3bbf24075cc35492fb216326dfc50712a95858e9cbcb4d".
Definition LINUX_URL : string :=
  "https://hifi-public.s3.amazonaws.com/dependencies/vcpkg/vcpkg-linux.tar.gz?versionId=97Nazh24etEVKWz33XwgLY0bvxEfZgMU".
Definition LINUX_HASH : string :=
  "6a1ce47ef6621e699a4627e8821ad32528c82fce62a6939d35b205da2d299aaa405b5f392df4a9e5343dd6a296516e341105fbb2dd8b48864781d129d7fba10d".

Section Repo.

Variable host : Host.

(** [VcpkgRepo.__init__] *)
Definition init (a : Args) : M VcpkgRepo :=
  let sourcePortsPath := ports_path a in
  hash <- ask (hashFolder host sourcePortsPath) ;;
  let id := PyStr.take 8 hash in
  let configFilePath := PosixPath.join (build_root a) "vcpkg.cmake" in
  let sys := system host in
  bp <- match vcpkg_root a with
        | Some root => ret (None, root)
        | None =>
            let defaultBasePath :=
              if System_eqb Darwin sys then expanduser host "~/hifi/vcpkg"
              else PosixPath.joins (gettempdir host) ["hifi"; "vcpkg"] in
            let basePath := getenv_default host "HIFI_VCPKG_BASE" defaultBasePath in
            let basePath :=
              if android a then PosixPath.join basePath "android" else basePath in
            isd <- ask (Os.isdir basePath) ;;
            when (negb isd) (Os.makedirs basePath) ;;
            ret (Some basePath, PosixPath.join basePath id)
        end ;;
  let path := snd bp in
  let (lockDir, lockName) := PosixPath.split path in
  let lockName := (lockName ++ ".lock")%string in
  isd <- ask (Os.isdir lockDir) ;;
  when (negb isd) (Os.makedirs lockDir) ;;
  let lockFile := PosixPath.join lockDir lockName in
  let tagFile := PosixPath.join path ".id" in
  let version := 1%Z in
  tagContents <- (fun w => (make_tag id version, w)) ;;
  let '(exe, vcpkgUrl, vcpkgHash, hostTriplet) :=
    if System_eqb Windows sys then
      (PosixPath.join path "vcpkg.exe", WIN_URL, WIN_HASH, "x64-windows")
    else if System_eqb Darwin sys then
      (PosixPath.join path "vcpkg", OSX_URL, OSX_HASH, "x64-osx")
    else
      (PosixPath.join path "vcpkg", LINUX_URL, LINUX_HASH, "x64-linux") in
  let (triplet, androidPackagePath) :=
    if android a then
      ("arm64-android",
       Some (getenv_default host "HIFI_ANDROID_PRECOMPILED"
                            (PosixPath.join path "android")))
    else (hostTriplet, None) in
  ret (mkVcpkgRepo a sourcePortsPath id configFilePath (fst bp) path lockFile
                   tagFile version tagContents exe vcpkgUrl vcpkgHash
                   hostTriplet triplet androidPackagePath).

Variable self : VcpkgRepo.

(** [hifi_utils.downloadAndExtract] and [hifi_utils.executeSubprocess] as
    calls of the methods: they are recorded and act on the files. *)
Definition download (f : fetch) : M unit :=
  record (CDownload f) ;;
  fun w =>
    let (r, fs) := downloadAndExtract host f (cwd w) (files w) in
    (r, with_files w fs).

Definition subprocess (cmd : list string) (folder : string) : M unit :=
  record (CRun cmd folder) ;;
  fun w =>
    let (r, fs) := executeSubprocess host cmd folder (cwd w) (files w) in
    (r, with_files w fs).

(** [VcpkgRepo.upToDate] *)
Definition upToDate : M bool :=
  match vcpkg_root (args self) with
  | Some _ => ret true
  | None =>
      if force_build (args self) then ret false
      else
        e <- ask (Os.isfile (exe self)) ;;
        if negb e then ret false
        else
          t <- ask (Os.isfile (tagFile self)) ;;
          if negb t then ret false
          else
            storedTag <- Os.read_text (tagFile self) ;;
            if negb (String.eqb storedTag (tagContents self)) then ret false
            else ret true
  end.

(** [VcpkgRepo.clean] *)
Definition clean : M unit :=
  d <- ask (Os.isdir (path self)) ;;
  when d (Shutil.rmtree_ignore_errors (path self)).

(** [VcpkgRepo.bootstrap] *)
Definition bootstrap : M unit :=
  u <- upToDate ;;
  if u then ret tt
  else
    clean ;;
    let downloadVcpkg := false in
    let downloadVcpkg :=
      if force_bootstrap (args self) then true else downloadVcpkg in
    e <- ask (Os.isfile (exe self)) ;;
    let downloadVcpkg :=
      if negb downloadVcpkg && negb e then true else downloadVcpkg in
    let testFile := PosixPath.join (path self) ".vcpkg-root" in
    t <- ask (Os.isfile testFile) ;;
    let downloadVcpkg :=
      if negb downloadVcpkg && negb t then true else downloadVcpkg in
    when downloadVcpkg
         (download (mkFetch (vcpkgUrl self) (path self)
                            (Some (vcpkgHash self)) false false)) ;;
    let portsPath := PosixPath.join (path self) "ports" in
    l <- ask (Os.islink portsPath) ;;
    when l (Os.unlink portsPath) ;;
    d <- ask (Os.isdir portsPath) ;;
    when d (Shutil.rmtree_ignore_errors portsPath) ;;
    Shutil.copytree (sourcePortsPath self) portsPath.

(** [VcpkgRepo.run] *)
Definition run (commands : list string) : M unit :=
  let actualCommands := [exe self; "--vcpkg-root"; path self] ++ commands in
  subprocess actualCommands (path self).

(** [VcpkgRepo.cleanBuilds] *)
Definition cleanBuilds : M unit :=
  let builddir := PosixPath.join (path self) "buildtrees" in
  d <- ask (Os.isdir builddir) ;;
  when d (Shutil.rmtree_ignore_errors builddir).

(** The loop of [setupAndroidDependencies] over the platform packages. *)
Fixpoint android_packages (pkgPath : string) (ps : list (string * package)) : M unit :=
  match ps with
  | [] => ret tt
  | (packageName, pkg) :: ps' =>
      let dest := PosixPath.join pkgPath packageName in
      d <- ask (Os.isdir dest) ;;
      (if d then ret tt
       else
         let url := getPackageUrl host pkg in
         let zipFile := PyStr.ends_with ".zip" (pkg_file pkg) in
         download (mkFetch url dest (Some (pkg_checksum pkg)) zipFile true)) ;;
      android_packages pkgPath ps'
  end.

(** [VcpkgRepo.setupAndroidDependencies] *)
Definition setupAndroidDependencies : M unit :=
  d <- ask (Os.isdir (PosixPath.joins (path self) ["installed"; "arm64-android"])) ;;
  when (negb d)
       (let dest := PosixPath.join (path self) "installed" in
        let url := "https://hifi-public.s3.amazonaws.com/dependencies/vcpkg/vcpkg-arm64-android.tar.gz" in
        download (mkFetch url dest None false false)) ;;
  match androidPackagePath self with
  | None =>
      match getPlatformPackages host with
      | [] => ret tt
      | _ :: _ => raise AttributeError
      end
  | Some pkgPath => android_packages pkgPath (getPlatformPackages host)
  end.

(** [VcpkgRepo.installQt]: [url] is bound on Windows, Darwin and Linux only. *)
Definition installQt : M unit :=
  d <- ask (Os.isdir (PosixPath.joins (path self) ["installed"; "hifi-qt5"])) ;;
  when (negb d)
       (let dest := PosixPath.join (path self) "installed" in
        match system host with
        | Windows =>
            download (mkFetch "https://hifi-qa.s3.amazonaws.com/qt5/Windows/hifi-qt5.tar.gz"
                              dest None false false)
        | Darwin =>
            download (mkFetch "https://hifi-qa.s3.amazonaws.com/qt5/Mac/qt5-install.zip"
                              dest None false false)
        | Linux =>
            download (mkFetch "https://hifi-qa.s3.amazonaws.com/qt5/Ubuntu/qt5-install.zip"
                              dest None false false)
        | OtherSystem => raise UnboundLocalError
        end).

(** [VcpkgRepo.setupDependencies] *)
Definition setupDependencies : M unit :=
  when (android (args self)) setupAndroidDependencies ;;
  run ["install"; "--triplet"; hostTriplet self; "hifi-host-tools"] ;;
  when (negb (android (args self)))
       (run ["install"; "--triplet"; triplet self; "hifi-client-deps"]) ;;
  when (negb (android (args self))) installQt.

(** [VcpkgRepo.writeTag] *)
Definition writeTag : M unit :=
  Os.write_text (tagFile self) (tagContents self).

(** The text [writeConfig] writes. *)
Definition cmakeConfig : M string :=
  let cmakeScript := PosixPath.join (path self) "scripts/buildsystems/vcpkg.cmake" in
  let installPath := PosixPath.joins (path self) ["installed"; triplet self] in
  let toolsPath := PosixPath.joins (path self) ["installed"; hostTriplet self; "tools"] in
  let cmakeTemplate := CMAKE_TEMPLATE in
  cmakeTemplate <-
    (if negb (android (args self)) then
       ret (cmakeTemplate ++ CMAKE_TEMPLATE_NON_ANDROID)%string
     else
       match androidPackagePath self with
       | None => raise AttributeError
       | Some pkgPath =>
           precompiled <- ask (Os.realpath pkgPath) ;;
           qtCmakePrefix <- ask (Os.realpath (PosixPath.join precompiled "qt/lib/cmake")) ;;
           l1 <- format ("set(HIFI_ANDROID_PRECOMPILED " ++ DQ ++ "{}" ++ DQ ++ ")" ++ LF)%string
                        [precompiled] ;;
           l2 <- format ("set(QT_CMAKE_PREFIX_PATH " ++ DQ ++ "{}" ++ DQ ++ ")" ++ LF)%string
                        [qtCmakePrefix] ;;
           ret (cmakeTemplate ++ l1 ++ l2)%string
       end) ;;
  formatted <- format cmakeTemplate [cmakeScript; cmakeScript; installPath; toolsPath] ;;
  ret (PyStr.replace_char "\" "/" formatted).

(** [VcpkgRepo.writeConfig] *)
Definition writeConfig : M unit :=
  c <- cmakeConfig ;;
  Os.write_text (configFilePath self) c.

(** [VcpkgRepo.cleanOldBuilds]: not implemented, it only prints so. *)
Definition cleanOldBuilds : M unit := ret tt.

End Repo.

(** ** Notions used by the statements *)

(** The text stored in the file that [p] leads to, if it leads to a file. *)
Definition stored (p : string) (w : World) : option string :=
  match Os.stat w p with
  | Some (File c) => Some c
  | _ => None
  end.

(** A plain name: one path component that is neither empty nor a dot
    entry. *)
Definition plain (n : string) : bool :=
  negb (PyStr.mem_char PosixPath.sep n)
  && negb (String.eqb n EmptyString)
  && negb (String.eqb n ".")
  && negb (String.eqb n "..").

(** The archive [bootstrap] fetches. *)
Definition base_archive (self : VcpkgRepo) : fetch :=
  mkFetch (vcpkgUrl self) (path self) (Some (vcpkgHash self)) false false.

(** The acquisition of [bootstrap] fails at [w], a world that is not up to
    date: after the clean the archive is needed, and the download raises [e]
    before it extracts anything. *)
Definition acquisition_fails (host : Host) (self : VcpkgRepo) (w : World)
    (e : exn) : Prop :=
  exists w1,
    upToDate self w = (Ok false, w1) /\
    let w2 := snd (clean self w1) in
    force_bootstrap (args self)
    || negb (Os.isfile (exe self) w2)
    || negb (Os.isfile (PosixPath.join (path self) ".vcpkg-root") w2) = true /\
    downloadAndExtract host (base_archive self) (cwd w2) (files w2)
    = (Raise e, files w2).

(** The failure claim as the specification words it: after a failed
    acquisition the tag file is absent and [upToDate] returns false. *)
Definition failure_leaves_no_tag (host : Host) (self : VcpkgRepo) (w : World) : Prop :=
  forall e, acquisition_fails host self w e ->
    let w3 := snd (bootstrap host self w) in
    Os.lstat w3 (tagFile self) = None /\ fst (upToDate self w3) = Ok false.

(** An instance the constructor has built. *)
Definition built (host : Host) (self : VcpkgRepo) : Prop :=
  exists a w0 w0', init host a w0 = (Ok self, w0').

(** [shrinks fs' fs]: every entry of [fs'] is an entry of [fs]. *)
Definition shrinks (fs' fs : FS) : Prop :=
  forall q n, node_at fs' q = Some n -> node_at fs q = Some n.

(** The file table is a tree: an entry stands in a directory. *)
Definition tree (fs : FS) : Prop :=
  forall q x n, node_at fs (q ++ [x]) = Some n -> node_at fs q = Some Dir.

Definition is_tree (fs : FS) : bool :=
  forallb (fun e =>
             match fst e with
             | [] => true
             | _ => match node_at fs (removelast (fst e)) with
                    | Some Dir => true
                    | _ => false
                    end
             end) fs.

(** No symbolic link lies below [sq]. *)
Definition link_free (fs : FS) (sq : loc) : Prop :=
  forall k t, In (k, Link t) fs -> strictly_below sq k = false.

(** The world in which [bootstrap] replaces the ports: after [upToDate],
    [clean] and the acquisition of the archive when it is needed. *)
Definition acquired (host : Host) (self : VcpkgRepo) (w : World) : World :=
  let w2 := snd (clean self (snd (upToDate self w))) in
  let need :=
    force_bootstrap (args self)
    || negb (Os.isfile (exe self) w2)
    || negb (Os.isfile (PosixPath.join (path self) ".vcpkg-root") w2) in
  snd (when need (download host (base_archive self)) w2).

(** One step of [Shutil.snapshot] over the file table, with the snapshot of
    the directories behind links given by [deeper]. *)
Definition snap_step (deeper : loc -> list (loc * node) * bool) (fs : FS)
    (sq : loc) (e : loc * node) (acc : list (loc * node) * bool)
    : list (loc * node) * bool :=
  if strictly_below sq (fst e) then
    let rel := skipn (length sq) (fst e) in
    match snd e with
    | Link _ =>
        match chase MAXSYMLINKS fs (fst e) with
        | Some q' =>
            match node_at fs q' with
            | Some (File c) => ((rel, File c) :: fst acc, snd acc)
            | Some Dir =>
                let (sub, err) := deeper q' in
                ((rel, Dir)
                   :: map (fun e' => (rel ++ fst e', snd e')) sub
                   ++ fst acc,
                 err || snd acc)
            | _ => (fst acc, true)
            end
        | None => (fst acc, true)
        end
    | n => ((rel, n) :: fst acc, snd acc)
    end
  else acc.

(** The last part of [bootstrap]: the directory at [pp] is replaced by a
    copy of the one at [src]. *)
Definition replace_dir (src pp : string) : M unit :=
  l <- ask (Os.islink pp) ;;
  when l (Os.unlink pp) ;;
  d <- ask (Os.isdir pp) ;;
  when d (Shutil.rmtree_ignore_errors pp) ;;
  Shutil.copytree src pp.

(** The four paths [writeConfig] substitutes into the template. *)
Definition config_paths (self : VcpkgRepo) : list string :=
  let cmakeScript := PosixPath.join (path self) "scripts/buildsystems/vcpkg.cmake" in
  [ cmakeScript; cmakeScript;
    PosixPath.joins (path self) ["installed"; triplet self];
    PosixPath.joins (path self) ["installed"; hostTriplet self; "tools"] ].

(** The text of the configuration for a toolchain script, an install root
    and a tools directory, followed by the clauses of the platform. *)
Definition config_text (script install tools clauses : string) : string :=
  (LF ++ "get_filename_component(CMAKE_TOOLCHAIN_FILE " ++ DQ ++ script ++ DQ
      ++ " ABSOLUTE CACHE)" ++ LF
      ++ "get_filename_component(CMAKE_TOOLCHAIN_FILE_UNCACHED " ++ DQ ++ script
      ++ DQ ++ " ABSOLUTE)" ++ LF
      ++ "set(VCPKG_INSTALL_ROOT " ++ DQ ++ install ++ DQ ++ ")" ++ LF
      ++ "set(VCPKG_TOOLS_DIR " ++ DQ ++ tools ++ DQ ++ ")" ++ LF
      ++ clauses)%string.

(** The two lines of an android build. *)
Definition android_clauses (precompiled qtCmakePrefix : string) : string :=
  ("set(HIFI_ANDROID_PRECOMPILED " ++ DQ ++ precompiled ++ DQ ++ ")" ++ LF
     ++ "set(QT_CMAKE_PREFIX_PATH " ++ DQ ++ qtCmakePrefix ++ DQ ++ ")" ++ LF)%string.

Definition no_brace (s : string) : bool :=
  negb (PyStr.mem_char "{" s) && negb (PyStr.mem_char "}" s).

(** The claim on the paths as the specification words it: the paths written
    are absolute. *)
Definition config_paths_absolute (self : VcpkgRepo) : Prop :=
  Forall (fun p => PosixPath.isabs p = true) (config_paths self).

(** [touches c0 c q]: the call [c], made with the working directory [c0],
    is aimed at the location [q]: a file call ([open], [unlink]) at the entry
    it names; a removal, a download or a process at the directory it names
    and all that lies in it; [makedirs] at the directory it names and those
    on the way to it; [copytree] at its destination, all that lies in it and
    the directories on the way to it.  The source of a [copytree] is only
    listed and read. *)
Definition touches (c0 : loc) (c : call) (q : loc) : bool :=
  match c with
  | COpenRead p => loc_eqb (locate c0 p) q
  | COpenWrite p => loc_eqb (locate c0 p) q
  | CUnlink p => loc_eqb (locate c0 p) q
  | CMakedirs p => is_prefix q (locate c0 p)
  | CRmtree p => is_prefix (locate c0 p) q
  | CCopytree _ dst =>
      is_prefix (locate c0 dst) q || is_prefix q (locate c0 dst)
  | CDownload f => is_prefix (locate c0 (fetch_dest f)) q
  | CRun _ folder => is_prefix (locate c0 folder) q
  end.

(** A call leaves the lock file alone: it is aimed neither at the lock file
    nor at a directory that holds it. *)
Definition spares (c0 : loc) (self : VcpkgRepo) (c : call) : Prop :=
  touches c0 c (locate c0 (lockFile self)) = false.

(** The root ends in a proper name: not in a slash, [.] or [..]. *)
Definition proper_root (self : VcpkgRepo) : bool :=
  plain (snd (PosixPath.split (path self))).

(** No directory of an android package is the lock file or holds it. *)
Definition packages_clear (host : Host) (self : VcpkgRepo) (c0 : loc) : Prop :=
  forall pkgPath,
    androidPackagePath self = Some pkgPath ->
    Forall (fun np =>
              is_prefix (locate c0 (PosixPath.join pkgPath (fst np)))
                        (locate c0 (lockFile self)) = false)
           (getPlatformPackages host).

(** The archive extraction and the processes of the host change nothing at
    [q] unless they are given a directory that is [q] or holds it. *)
Definition host_keeps (host : Host) (c0 q : loc) : Prop :=
  (forall f fs,
     is_prefix (locate c0 (fetch_dest f)) q = false ->
     node_at (snd (downloadAndExtract host f c0 fs)) q = node_at fs q) /\
  (forall cmd folder fs,
     is_prefix (locate c0 folder) q = false ->
     node_at (snd (executeSubprocess host cmd folder c0 fs)) q = node_at fs q).

(** [keeps c0 q m]: run with the working directory [c0], [m] leaves the
    working directory and the entry at [q] as they are, whether it returns
    or raises. *)
Definition keeps {A} (c0 q : loc) (m : M A) : Prop :=
  forall w, cwd w = c0 ->
            cwd (snd (m w)) = c0 /\
            node_at (files (snd (m w))) q = node_at (files w) q.

Definition is_makedirs (c : call) : bool :=
  match c with
  | CMakedirs _ => true
  | _ => false
  end.

(** The first clause of the lock claim as the specification words it: the
    constructor creates the lock file. *)
Definition creates_lock_file (host : Host) (a : Args) (w : World) : Prop :=
  forall self w',
    init host a w = (Ok self, w') -> Os.lstat w' (lockFile self) <> None.

(** [only_dirs fs fs']: every entry of [fs'] is an entry of [fs] or a
    directory. *)
Definition only_dirs (fs fs' : FS) : Prop :=
  forall q n, node_at fs' q = Some n -> node_at fs q = Some n \/ n = Dir.

(** [emits P m]: a run of [m] adds to the trace only calls that satisfy [P],
    and leaves the working directory and the stuck entries as they are. *)

Definition emits {A} (P : call -> Prop) (m : M A) : Prop :=
  forall w, exists l,
    trace (snd (m w)) = l ++ trace w /\ Forall P l /\
    cwd (snd (m w)) = cwd w /\ stuck (snd (m w)) = stuck w.

(** The calls a run added to the trace, from the world before it and the
    world after it. *)
Definition added (w w' : World) : list call :=
  firstn (length (trace w') - length (trace w)) (trace w').

(** Cleaning, acquiring and copying are work; opening a file to read it is
    not. *)
Definition is_work (c : call) : bool :=
  match c with
  | COpenRead _ => false
  | _ => true
  end.

Definition is_download (c : call) : bool :=
  match c with
  | CDownload _ => true
  | _ => false
  end.

(** ** A concrete host and world

    A Linux host without the environment variables, whose archive holds the
    executable, the marker file and a ports directory, and a world with the overlay under
    [/src/ports] and a build directory. *)
Module Demo.

Definition extract (f : fetch) (c : loc) (fs : FS) : Res unit * FS :=
  let d := locate c (fetch_dest f) in
  (Ok tt,
   put (d ++ ["ports"; "boost"]) Dir
       (put (d ++ ["ports"]) Dir
            (put (d ++ ["vcpkg"]) (File "elf")
                 (put (d ++ [".vcpkg-root"]) (File EmptyString)
                      (put d Dir fs))))).

Definition host : Host :=
  mkHost Linux (fun _ => None) "/tmp" (fun s => s)
         (fun _ _ => "abc123de45f0")
         extract (fun _ _ _ fs => (Ok tt, fs)) [] (fun _ => EmptyString).

Definition arguments : Args :=
  mkArgs "/src/ports" "/build" None false false false.

Definition overlay : FS :=
  [ (["src"], Dir);
    (["src"; "ports"], Dir);
    (["src"; "ports"; "zlib"], Dir);
    (["src"; "ports"; "zlib"; "portfile.cmake"], File "vcpkg_from_github()");
    (["build"], Dir) ].

Definition world0 : World := mkWorld overlay [] (fun _ => false) [].

Definition repo : VcpkgRepo :=
  mkVcpkgRepo arguments "/src/ports" "abc123de" "/build/vcpkg.cmake"
              (Some "/tmp/hifi/vcpkg") "/tmp/hifi/vcpkg/abc123de"
              "/tmp/hifi/vcpkg/abc123de.lock" "/tmp/hifi/vcpkg/abc123de/.id"
              1 "abc123de_1" "/tmp/hifi/vcpkg/abc123de/vcpkg"
              LINUX_URL LINUX_HASH "x64-linux" "x64-linux" None.

(** The world the constructor leaves. *)
Definition world1 : World := snd (init host arguments world0).

(** The world after a first [bootstrap]. *)
Definition world2 : World := snd (bootstrap host repo world1).

(** The same host with an archive whose hash does not match: the download
    raises before anything is extracted. *)
Definition failing_host : Host :=
  mkHost Linux (fun _ => None) "/tmp" (fun s => s)
         (fun _ _ => "abc123de45f0")
         (fun _ _ fs => (Raise RuntimeError, fs))
         (fun _ _ _ fs => (Ok tt, fs)) [] (fun _ => EmptyString).

(** An installation of an older format version whose tag file is held open
    by another process, so that it cannot be removed. *)
Definition stale_locked : World :=
  mkWorld
    ([ (["tmp"], Dir); (["tmp"; "hifi"], Dir); (["tmp"; "hifi"; "vcpkg"], Dir);
       (["tmp"; "hifi"; "vcpkg"; "abc123de"], Dir);
       (["tmp"; "hifi"; "vcpkg"; "abc123de"; "vcpkg"], File "elf");
       (["tmp"; "hifi"; "vcpkg"; "abc123de"; ".id"], File "abc123de_0") ]
       ++ overlay)
    []
    (fun q => loc_eqb q ["tmp"; "hifi"; "vcpkg"; "abc123de"; ".id"])
    [].

(** The same installation with nothing held. *)
Definition stale : World :=
  mkWorld (files stale_locked) [] (fun _ => false) [].

(** A build whose root is given relative to the working directory. *)
Definition arguments_rel : Args :=
  mkArgs "/src/ports" "/build" (Some "rel/vcpkg") false false false.

Definition home : World :=
  mkWorld (overlay ++ [(["home"], Dir); (["home"; "dev"], Dir)])
          ["home"; "dev"] (fun _ => false) [].

Definition repo_rel : VcpkgRepo :=
  mkVcpkgRepo arguments_rel "/src/ports" "abc123de" "/build/vcpkg.cmake"
              None "rel/vcpkg" "rel/vcpkg.lock" "rel/vcpkg/.id"
              1 "abc123de_1" "rel/vcpkg/vcpkg"
              LINUX_URL LINUX_HASH "x64-linux" "x64-linux" None.

(** The world after [writeTag] has followed it. *)
Definition world3 : World := snd (writeTag repo world2).

End Demo.

(** The second half of the idempotence claim, as the specification words it:
    of two runs of [bootstrap] in succession, the second leaves the files as
    they are and does no work. *)
Definition second_run_idle (host : Host) (self : VcpkgRepo) (w : World) : Prop :=
  forall w1 w2,
    bootstrap host self w = (Ok tt, w1) ->
    bootstrap host self w1 = (Ok tt, w2) ->
    files w2 = files w1 /\
    forallb (fun c => negb (is_work c)) (added w1 w2) = true.

(** ** Notions used by the further properties *)

Definition is_run (c : call) : bool :=
  match c with
  | CRun _ _ => true
  | _ => false
  end.

(** The call [run] makes for the vcpkg arguments [commands]. *)
Definition run_call (self : VcpkgRepo) (commands : list string) : call :=
  CRun ([exe self; "--vcpkg-root"; path self] ++ commands) (path self).

(** The directory [installQt] looks for. *)
Definition qt_dir (self : VcpkgRepo) : string :=
  PosixPath.joins (path self) ["installed"; "hifi-qt5"].

(** [if not os.path.isdir(p): os.makedirs(p)] *)
Definition ensure (p : string) : M unit :=
  isd <- ask (Os.isdir p) ;;
  when (negb isd) (Os.makedirs p).

(** The base directory of a managed root: HIFI_VCPKG_BASE or the default of
    the platform, with android appended for an android build. *)
Definition managed_base (host : Host) (a : Args) : string :=
  let defaultBasePath :=
    if System_eqb Darwin (system host) then expanduser host "~/hifi/vcpkg"
    else PosixPath.joins (gettempdir host) ["hifi"; "vcpkg"] in
  let basePath := getenv_default host "HIFI_VCPKG_BASE" defaultBasePath in
  if android a then PosixPath.join basePath "android" else basePath.

(** The attributes the constructor gives an instance, for the hash of the
    overlay. *)
Definition attributes (host : Host) (a : Args) (hash : string) : VcpkgRepo :=
  let id := PyStr.take 8 hash in
  let path :=
    match vcpkg_root a with
    | Some root => root
    | None => PosixPath.join (managed_base host a) id
    end in
  let lockDir := fst (PosixPath.split path) in
  let lockName := snd (PosixPath.split path) in
  let hostTriplet :=
    if System_eqb Windows (system host) then "x64-windows"
    else if System_eqb Darwin (system host) then "x64-osx" else "x64-linux" in
  mkVcpkgRepo
    a (ports_path a) id (PosixPath.join (build_root a) "vcpkg.cmake")
    (match vcpkg_root a with
     | Some _ => None
     | None => Some (managed_base host a)
     end)
    path
    (PosixPath.join lockDir (lockName ++ ".lock"))
    (PosixPath.join path ".id")
    1 (id ++ "_1")
    (PosixPath.join path
       (if System_eqb Windows (system host) then "vcpkg.exe" else "vcpkg"))
    (if System_eqb Windows (system host) then WIN_URL
     else if System_eqb Darwin (system host) then OSX_URL else LINUX_URL)
    (if System_eqb Windows (system host) then WIN_HASH
     else if System_eqb Darwin (system host) then OSX_HASH else LINUX_HASH)
    hostTriplet
    (if android a then "arm64-android" else hostTriplet)
    (if android a
     then Some (getenv_default host "HIFI_ANDROID_PRECOMPILED"
                               (PosixPath.join path "android"))
     else None).

(** The downloads [setupAndroidDependencies] can make: the prebuilt tree,
    without a hash, into the installed directory, and a platform package,
    with its checksum as an MD5 hash, into its directory under [pkgPath]. *)
Definition android_fetch (host : Host) (self : VcpkgRepo) (pkgPath : string)
    (c : call) : Prop :=
  c = CDownload
        (mkFetch "https://hifi-public.s3.amazonaws.com/dependencies/vcpkg/vcpkg-arm64-android.tar.gz"
                 (PosixPath.join (path self) "installed") None false false) \/
  exists name pkg,
    In (name, pkg) (getPlatformPackages host) /\
    c = CDownload
          (mkFetch (getPackageUrl host pkg) (PosixPath.join pkgPath name)
                   (Some (pkg_checksum pkg))
                   (PyStr.ends_with ".zip" (pkg_file pkg)) true).

(** ** Further scenarios *)

Module Scenario.

(** A root given by the user, with both force flags set. *)
Definition arguments_forced : Args :=
  mkArgs "/src/ports" "/build" (Some "rel/vcpkg") false true true.

Definition repo_forced : VcpkgRepo :=
  mkVcpkgRepo arguments_forced "/src/ports" "abc123de" "/build/vcpkg.cmake"
              None "rel/vcpkg" "rel/vcpkg.lock" "rel/vcpkg/.id"
              1 "abc123de_1" "rel/vcpkg/vcpkg"
              LINUX_URL LINUX_HASH "x64-linux" "x64-linux" None.

(** The installation of [Demo.world3] with build trees left by vcpkg. *)
Definition with_buildtrees : World :=
  mkWorld ([ (["tmp"; "hifi"; "vcpkg"; "abc123de"; "buildtrees"], Dir);
             (["tmp"; "hifi"; "vcpkg"; "abc123de"; "buildtrees"; "zlib"], Dir);
             (["tmp"; "hifi"; "vcpkg"; "abc123de"; "buildtrees"; "zlib"; "config.log"],
              File "ok") ]
             ++ files Demo.world3)
          [] (fun _ => false) [].

(** An android build: two platform packages, the precompiled path taken
    from the environment. *)
Definition android_host : Host :=
  mkHost Linux
         (fun n => if String.eqb n "HIFI_ANDROID_PRECOMPILED"
                   then Some "/opt/android" else None)
         "/tmp" (fun s => s) (fun _ _ => "abc123de45f0")
         Demo.extract (fun _ _ _ fs => (Ok tt, fs))
         [ ("qt", mkPackage "qt-5.15.zip" "0f1e");
           ("bullet", mkPackage "bullet-2.88.tgz" "77aa") ]
         (fun p => ("https://example.invalid/" ++ pkg_file p)%string).

Definition arguments_android : Args :=
  mkArgs "/src/ports" "/build" None true false false.

Definition repo_android : VcpkgRepo :=
  mkVcpkgRepo arguments_android "/src/ports" "abc123de" "/build/vcpkg.cmake"
              (Some "/tmp/hifi/vcpkg/android")
              "/tmp/hifi/vcpkg/android/abc123de"
              "/tmp/hifi/vcpkg/android/abc123de.lock"
              "/tmp/hifi/vcpkg/android/abc123de/.id"
              1 "abc123de_1" "/tmp/hifi/vcpkg/android/abc123de/vcpkg"
              LINUX_URL LINUX_HASH "x64-linux" "arm64-android"
              (Some "/opt/android").

(** The same build with a brace in HIFI_ANDROID_PRECOMPILED. *)
Definition repo_braces : VcpkgRepo :=
  mkVcpkgRepo arguments_android "/src/ports" "abc123de" "/build/vcpkg.cmake"
              (Some "/tmp/hifi/vcpkg/android")
              "/tmp/hifi/vcpkg/android/abc123de"
              "/tmp/hifi/vcpkg/android/abc123de.lock"
              "/tmp/hifi/vcpkg/android/abc123de/.id"
              1 "abc123de_1" "/tmp/hifi/vcpkg/android/abc123de/vcpkg"
              LINUX_URL LINUX_HASH "x64-linux" "arm64-android"
              (Some "/opt/{ndk}/android").

(** A world in which the android prebuilt tree and both packages are there. *)
Definition android_ready : World :=
  mkWorld [ (["tmp"], Dir); (["tmp"; "hifi"], Dir); (["tmp"; "hifi"; "vcpkg"], Dir);
            (["tmp"; "hifi"; "vcpkg"; "android"], Dir);
            (["tmp"; "hifi"; "vcpkg"; "android"; "abc123de"], Dir);
            (["tmp"; "hifi"; "vcpkg"; "android"; "abc123de"; "installed"], Dir);
            (["tmp"; "hifi"; "vcpkg"; "android"; "abc123de"; "installed";
              "arm64-android"], Dir);
            (["opt"], Dir); (["opt"; "android"], Dir);
            (["opt"; "android"; "qt"], Dir); (["opt"; "android"; "bullet"], Dir) ]
          [] (fun _ => false) [].

(** The installation of [Demo.world3] with Qt installed. *)
Definition with_qt : World :=
  mkWorld ([ (["tmp"; "hifi"; "vcpkg"; "abc123de"; "installed"], Dir);
             (["tmp"; "hifi"; "vcpkg"; "abc123de"; "installed"; "hifi-qt5"], Dir) ]
             ++ files Demo.world3)
          [] (fun _ => false) [].

(** A host whose [platform.system()] is none of Windows, Darwin and Linux. *)
Definition bsd_host : Host :=
  mkHost OtherSystem (fun _ => None) "/tmp" (fun s => s)
         (fun _ _ => "abc123de45f0")
         Demo.extract (fun _ _ _ fs => (Ok tt, fs)) [] (fun _ => EmptyString).

(** A stale installation in which a port file is held open by another
    process, so that the ports directory cannot be emptied. *)
Definition ports_held : World :=
  mkWorld
    ([ (["tmp"], Dir); (["tmp"; "hifi"], Dir); (["tmp"; "hifi"; "vcpkg"], Dir);
       (["tmp"; "hifi"; "vcpkg"; "abc123de"], Dir);
       (["tmp"; "hifi"; "vcpkg"; "abc123de"; "vcpkg"], File "elf");
       (["tmp"; "hifi"; "vcpkg"; "abc123de"; ".id"], File "abc123de_0");
       (["tmp"; "hifi"; "vcpkg"; "abc123de"; "ports"], Dir);
       (["tmp"; "hifi"; "vcpkg"; "abc123de"; "ports"; "old.cmake"], File "old") ]
       ++ Demo.overlay)
    []
    (fun q => loc_eqb q ["tmp"; "hifi"; "vcpkg"; "abc123de"; "ports"; "old.cmake"])
    [].

(** A world in which a regular file stands where the base directory of the
    managed roots is expected. *)
Definition base_is_file : World :=
  mkWorld ([ (["tmp"], Dir); (["tmp"; "hifi"], Dir);
             (["tmp"; "hifi"; "vcpkg"], File "not a directory") ]
             ++ Demo.overlay)
          [] (fun _ => false) [].

(** An archive that ships its ports directory as a symbolic link to a
    directory shared between installations, and a world that holds that
    directory. *)
Definition link_extract (f : fetch) (c : loc) (fs : FS) : Res unit * FS :=
  let d := locate c (fetch_dest f) in
  (Ok tt,
   put (d ++ ["ports"]) (Link "/shared/ports")
       (put (d ++ ["vcpkg"]) (File "elf")
            (put (d ++ [".vcpkg-root"]) (File EmptyString)
                 (put d Dir fs)))).

Definition link_host : Host :=
  mkHost Linux (fun _ => None) "/tmp" (fun s => s)
         (fun _ _ => "abc123de45f0")
         link_extract (fun _ _ _ fs => (Ok tt, fs)) [] (fun _ => EmptyString).

Definition shared : World :=
  mkWorld ([ (["shared"], Dir); (["shared"; "ports"], Dir);
             (["shared"; "ports"; "openssl"], Dir) ]
             ++ files Demo.world1)
          [] (fun _ => false) [].

(** The installation of [Demo.world3] beside which another process has left
    a lock file. *)
Definition locked_by_other : World :=
  mkWorld ((["tmp"; "hifi"; "vcpkg"; "abc123de.lock"], File "pid 4242")
             :: files Demo.world3)
          [] (fun _ => false) [].

(** The stale installation of [Demo.stale] beside which another process has
    left a lock file. *)
Definition stale_locked_by_other : World :=
  mkWorld ((["tmp"; "hifi"; "vcpkg"; "abc123de.lock"], File "pid 4242")
             :: files Demo.stale)
          [] (fun _ => false) [].

(** An installation that lost its executable while its tag file, which holds
    the right tag, is held open by another process. *)
Definition tag_held : World :=
  mkWorld
    ([ (["tmp"], Dir); (["tmp"; "hifi"], Dir); (["tmp"; "hifi"; "vcpkg"], Dir);
       (["tmp"; "hifi"; "vcpkg"; "abc123de"], Dir);
       (["tmp"; "hifi"; "vcpkg"; "abc123de"; ".id"], File "abc123de_1") ]
       ++ Demo.overlay)
    []
    (fun q => loc_eqb q ["tmp"; "hifi"; "vcpkg"; "abc123de"; ".id"])
    [].

(** A root given with a trailing slash: the lock file then lies inside the
    root. *)
Definition arguments_slash : Args :=
  mkArgs "/src/ports" "/build" (Some "/opt/vcpkg/") false false false.

Definition repo_slash : VcpkgRepo :=
  mkVcpkgRepo arguments_slash "/src/ports" "abc123de" "/build/vcpkg.cmake"
              None "/opt/vcpkg/" "/opt/vcpkg/.lock" "/opt/vcpkg/.id"
              1 "abc123de_1" "/opt/vcpkg/vcpkg"
              LINUX_URL LINUX_HASH "x64-linux" "x64-linux" None.

Definition slash_world : World :=
  mkWorld ([ (["opt"], Dir); (["opt"; "vcpkg"], Dir);
             (["opt"; "vcpkg"; "vcpkg"], File "elf");
             (["opt"; "vcpkg"; ".lock"], File "pid 4242") ]
             ++ Demo.overlay)
          [] (fun _ => false) [].

End Scenario.

(** * Properties *)

(** ** Paths, by example *)

Example locate_abs : locate ["home"] "/tmp//hifi/./vcpkg/../x" = ["tmp"; "hifi"; "x"].
Proof. reflexivity. Qed.

Example split_ex : PosixPath.split "/tmp/hifi/abc123de" = ("/tmp/hifi", "abc123de").
Proof. reflexivity. Qed.

Example split_slash : PosixPath.split "/opt/vcpkg/" = ("/opt/vcpkg", "").
Proof. reflexivity. Qed.

Example split_plain : PosixPath.split "vcpkg" = ("", "vcpkg").
Proof. reflexivity. Qed.

Example split_root : PosixPath.split "//x" = ("//", "x").
Proof. reflexivity. Qed.


(** ** Strings and the monad *)

Lemma append_empty_r (s : string) : (s ++ EmptyString)%string = s.
Proof.
  induction s as [|c s IH]; simpl; [reflexivity | now rewrite IH].
Qed.

Lemma append_assoc (a b c : string) :
  ((a ++ b) ++ c)%string = (a ++ (b ++ c))%string.
Proof.
  induction a as [|x a IH]; simpl; [reflexivity | now rewrite IH].
Qed.

Lemma bind_Ok_inv {A B} (m : M A) (k : A -> M B) w b w' :
  bind m k w = (Ok b, w') ->
  exists a w1, m w = (Ok a, w1) /\ k a w1 = (Ok b, w').
Proof.
  unfold bind. destruct (m w) as [[a|e] w1]; intros H.
  - exists a, w1. split; [reflexivity | exact H].
  - discriminate.
Qed.

Lemma bind_Raise_inv {A B} (m : M A) (k : A -> M B) w e w' :
  bind m k w = (Raise e, w') ->
  m w = (Raise e, w') \/
  exists a w1, m w = (Ok a, w1) /\ k a w1 = (Raise e, w').
Proof.
  unfold bind. destruct (m w) as [[a|e0] w1]; intros H.
  - right. exists a, w1. split; [reflexivity | exact H].
  - left. now injection H as -> ->.
Qed.

Lemma make_tag_eq (i : string) (v : Z) :
  make_tag i v = Ok (i ++ "_" ++ PyStr.str_of_int v)%string.
Proof.
  unfold make_tag. cbn. now rewrite append_empty_r.
Qed.

(** Peeling the binds of a run that returned. *)
Tactic Notation "peel" hyp(H) "as" ident(a) ident(w) ident(H1) :=
  apply bind_Ok_inv in H; destruct H as (a & w & H1 & H).

(** ** The tag *)

Lemma init_tag (host : Host) (a : Args) (w w' : World) (self : VcpkgRepo) :
  init host a w = (Ok self, w') ->
  id self = PyStr.take 8 (hashFolder host (ports_path a) w) /\
  version self = 1%Z /\
  make_tag (id self) (version self) = Ok (tagContents self).
Proof.
  unfold init. intros H.
  peel H as hash w1 Hhash. unfold ask in Hhash. injection Hhash as <- <-.
  peel H as bp w2 Hbp.
  destruct (PosixPath.split (snd bp)) as [lockDir lockName].
  peel H as isd w3 Hisd. peel H as u w4 Hmk. peel H as tag w5 Htag.
  assert (Ht : make_tag (PyStr.take 8 (hashFolder host (ports_path a) w)) 1
               = Ok tag) by (cbv beta in Htag; congruence).
  clear Htag.
  destruct (system host); simpl in H;
    destruct (android a); unfold ret in H; injection H as <- <-; simpl;
    (split; [reflexivity | split; [reflexivity | exact Ht]]).
Qed.

(** C1: the tag is the first eight characters of the hash of the overlay
    directory, an underscore and the format version: [make_tag] computes
    exactly that for every hash and version (so equal inputs give equal
    tags), hash prefix abc123de gives abc123de_1 at version 1 and abc123de_2
    at version 2, and the constructor stores the tag of the overlay hash at
    its version. *)
Theorem C1_tag_derivation (host : Host) (a : Args) (w w' : World)
    (self : VcpkgRepo) :
  init host a w = (Ok self, w') ->
  (forall (hash : string) (v : Z),
      make_tag (PyStr.take 8 hash) v
      = Ok (PyStr.take 8 hash ++ "_" ++ PyStr.str_of_int v)%string) /\
  make_tag "abc123de" 1 = Ok "abc123de_1" /\
  make_tag "abc123de" 2 = Ok "abc123de_2" /\
  tagContents self
  = (PyStr.take 8 (hashFolder host (ports_path a) w) ++ "_"
       ++ PyStr.str_of_int (version self))%string.
Proof.
  intros H. apply init_tag in H. destruct H as (Hid & Hv & Ht).
  split; [intros; apply make_tag_eq|].
  split; [reflexivity|]. split; [reflexivity|].
  rewrite make_tag_eq in Ht. injection Ht as Ht. now rewrite <- Ht, Hid.
Qed.

(** ** What a method adds to the trace *)

Lemma emits_quiet {A} (P : call -> Prop) (m : M A) :
  (forall w, trace (snd (m w)) = trace w /\ cwd (snd (m w)) = cwd w /\
             stuck (snd (m w)) = stuck w) ->
  emits P m.
Proof.
  intros H w. exists []. destruct (H w) as (Ht & Hc & Hs).
  repeat split; auto.
Qed.

Lemma emits_ret {A} P (a : A) : emits P (ret a).
Proof. apply emits_quiet. intros w. now cbn. Qed.

Lemma emits_ask {A} P (f : World -> A) : emits P (ask f).
Proof. apply emits_quiet. intros w. now cbn. Qed.

Lemma emits_raise {A} P (e : exn) : emits P (@raise A e).
Proof. apply emits_quiet. intros w. now cbn. Qed.

Lemma emits_record (P : call -> Prop) (c : call) : P c -> emits P (record c).
Proof.
  intros Hc w. exists [c]. cbn. repeat split; auto.
Qed.

Lemma emits_bind {A B} P (m : M A) (k : A -> M B) :
  emits P m -> (forall a, emits P (k a)) -> emits P (bind m k).
Proof.
  intros Hm Hk w. unfold bind.
  destruct (Hm w) as (l1 & Ht1 & Hf1 & Hc1 & Hs1).
  destruct (m w) as [[a|e] w1]; cbn in *.
  - destruct (Hk a w1) as (l2 & Ht2 & Hf2 & Hc2 & Hs2).
    exists (l2 ++ l1). rewrite Ht2, Ht1, Hc2, Hs2, app_assoc.
    repeat split; auto. apply Forall_app. now split.
  - exists l1. repeat split; auto.
Qed.

Lemma emits_when P (b : bool) (m : M unit) : emits P m -> emits P (when b m).
Proof.
  intros H. destruct b; cbn; [exact H | apply emits_ret].
Qed.

Lemma emits_weaken {A} (P Q : call -> Prop) (m : M A) :
  (forall c, P c -> Q c) -> emits P m -> emits Q m.
Proof.
  intros HPQ H w. destruct (H w) as (l & Ht & Hf & Hc & Hs).
  exists l. repeat split; auto. eapply Forall_impl; eauto.
Qed.

(** The primitives: one call each. *)

Lemma emits_unlink P p : P (CUnlink p) -> emits P (Os.unlink p).
Proof.
  intros HP. apply emits_bind; [now apply emits_record|]. intros _.
  apply emits_quiet. intros w.
  destruct (Os.lstat w p) as [[c| |t]|]; cbn; auto;
    destruct (stuck w (locate (cwd w) p)); cbn; auto.
Qed.

Lemma do_makedirs_quiet p w :
  trace (snd (Os.do_makedirs p w)) = trace w /\
  cwd (snd (Os.do_makedirs p w)) = cwd w /\
  stuck (snd (Os.do_makedirs p w)) = stuck w.
Proof.
  unfold Os.do_makedirs.
  destruct (String.eqb p ""); [cbn; auto|].
  destruct (locate (cwd w) p) as [|n q]; [cbn; auto|].
  destruct (Os.mkdirs_from [] (n :: q) (files w)); cbn; auto.
Qed.

Lemma emits_do_makedirs P p : emits P (Os.do_makedirs p).
Proof. apply emits_quiet. apply do_makedirs_quiet. Qed.

Lemma emits_makedirs P p : P (CMakedirs p) -> emits P (Os.makedirs p).
Proof.
  intros HP. apply emits_bind; [now apply emits_record|]. intros _.
  apply emits_do_makedirs.
Qed.

Lemma emits_read_text P p : P (COpenRead p) -> emits P (Os.read_text p).
Proof.
  intros HP. apply emits_bind; [now apply emits_record|]. intros _.
  apply emits_quiet. intros w.
  destruct (Os.stat w p) as [[c| |t]|]; cbn; auto.
Qed.

Lemma emits_write_text P p c : P (COpenWrite p) -> emits P (Os.write_text p c).
Proof.
  intros HP. apply emits_bind; [now apply emits_record|]. intros _.
  apply emits_quiet. intros w.
  destruct (String.eqb p ""); [cbn; auto|].
  destruct (chase MAXSYMLINKS (files w) (locate (cwd w) p)) as [q|];
    [|cbn; auto].
  destruct (node_at (files w) q) as [[c0| |t]|];
    destruct (node_at (files w) (removelast q)) as [[c1| |t1]|]; cbn; auto.
Qed.

Lemma emits_rmtree P p :
  P (CRmtree p) -> emits P (Shutil.rmtree_ignore_errors p).
Proof.
  intros HP. apply emits_bind; [now apply emits_record|]. intros _.
  apply emits_quiet. intros w.
  destruct (Os.lstat w p) as [[c| |t]|]; cbn; auto.
Qed.

Lemma emits_copytree P src dst :
  P (CCopytree src dst) -> emits P (Shutil.copytree src dst).
Proof.
  intros HP. apply emits_bind; [now apply emits_record|]. intros _.
  apply emits_quiet. intros w.
  destruct (Os.stat w src) as [[c| |t]|];
    [cbn; auto| |cbn; auto|cbn; auto].
  destruct (chase MAXSYMLINKS (files w) (locate (cwd w) src)) as [sq|];
    [|cbn; auto].
  destruct (is_prefix sq (locate (cwd w) dst)); [cbn; auto|].
  destruct (Shutil.snapshot Shutil.COPY_DEPTH (files w) sq) as [copied err].
  destruct (do_makedirs_quiet dst w) as (Ht & Hc & Hs).
  destruct (Os.do_makedirs dst w) as [[u|e] w1]; cbn in *; auto.
  destruct err; cbn; auto.
Qed.

Lemma emits_download host P f : P (CDownload f) -> emits P (download host f).
Proof.
  intros HP. apply emits_bind; [now apply emits_record|]. intros _.
  apply emits_quiet. intros w.
  destruct (downloadAndExtract host f (cwd w) (files w)); cbn; auto.
Qed.

Lemma emits_subprocess host P cmd folder :
  P (CRun cmd folder) -> emits P (subprocess host cmd folder).
Proof.
  intros HP. apply emits_bind; [now apply emits_record|]. intros _.
  apply emits_quiet. intros w.
  destruct (executeSubprocess host cmd folder (cwd w) (files w)); cbn; auto.
Qed.

(** ** [upToDate] *)

Lemma upToDate_total (self : VcpkgRepo) (w : World) :
  exists b w', upToDate self w = (Ok b, w') /\ files w' = files w /\
               cwd w' = cwd w /\ stuck w' = stuck w.
Proof.
  unfold upToDate.
  destruct (vcpkg_root (args self)); [now exists true, w|].
  destruct (force_build (args self)); [now exists false, w|].
  unfold bind, ask.
  destruct (Os.isfile (exe self) w); cbn; [|now exists false, w].
  destruct (Os.isfile (tagFile self) w) eqn:Ht; cbn; [|now exists false, w].
  unfold Os.isfile in Ht. unfold Os.read_text, bind, record. cbn.
  unfold Os.stat in *. cbn.
  destruct (String.eqb (tagFile self) ""); [discriminate|].
  destruct (stat_at (files w) (locate (cwd w) (tagFile self))) as [[c| |t]|];
    try discriminate.
  destruct (String.eqb c (tagContents self)); cbn; unfold ret;
    eexists _, _; repeat split; reflexivity.
Qed.

Lemma upToDate_iff (self : VcpkgRepo) (w : World) :
  exists b w',
    upToDate self w = (Ok b, w') /\ files w' = files w /\
    (b = true <->
     (vcpkg_root (args self) <> None \/
      (force_build (args self) = false /\
       Os.isfile (exe self) w = true /\
       Os.isfile (tagFile self) w = true /\
       stored (tagFile self) w = Some (tagContents self)))).
Proof.
  destruct (upToDate_total self w) as (b & w' & Hrun & Hf & _).
  exists b, w'. split; [exact Hrun|]. split; [exact Hf|].
  revert Hrun. unfold upToDate, stored.
  destruct (vcpkg_root (args self)) as [root|].
  { intros H. injection H as <- _. split; [left; discriminate | reflexivity]. }
  destruct (force_build (args self)).
  { intros H. injection H as <- _. split; [discriminate|].
    intros [Hn | (Hfb & _)]; [now elim Hn | discriminate]. }
  unfold bind, ask.
  destruct (Os.isfile (exe self) w); cbn.
  2:{ intros H. injection H as <- _. split; [discriminate|].
      intros [Hn | (_ & He & _)]; [now elim Hn | discriminate]. }
  destruct (Os.isfile (tagFile self) w) eqn:Ht; cbn.
  2:{ intros H. injection H as <- _. split; [discriminate|].
      intros [Hn | (_ & _ & Ht' & _)]; [now elim Hn | discriminate]. }
  unfold Os.isfile in Ht. unfold Os.read_text, bind, record. cbn.
  unfold Os.stat in *. cbn.
  destruct (String.eqb (tagFile self) EmptyString); [discriminate|].
  destruct (stat_at (files w) (locate (cwd w) (tagFile self))) as [[c| |t]|];
    try discriminate.
  destruct (String.eqb c (tagContents self)) eqn:Hc; cbn; unfold ret;
    intros H; injection H as <- _.
  - apply String.eqb_eq in Hc. subst c. split; [|reflexivity].
    intros _. right. repeat split; reflexivity.
  - apply String.eqb_neq in Hc. split; [discriminate|].
    intros [Hn | (_ & _ & _ & Hs)]; [now elim Hn|]. congruence.
Qed.

(** C2: [upToDate] always returns, without changing the files, and it
    returns true exactly when the root was given by the user, or else the
    force-build flag is unset, the executable is a file, the tag file is a
    file and its whole stored text is the computed tag. *)
Theorem C2_upToDate_iff (self : VcpkgRepo) (w : World) :
  exists b w',
    upToDate self w = (Ok b, w') /\ files w' = files w /\
    (b = true <->
     (vcpkg_root (args self) <> None \/
      (force_build (args self) = false /\
       Os.isfile (exe self) w = true /\
       Os.isfile (tagFile self) w = true /\
       stored (tagFile self) w = Some (tagContents self)))).
Proof. exact (upToDate_iff self w). Qed.

(** ** [bootstrap] on an installation that is up to date *)

Example demo_init :
  fst (init Demo.host Demo.arguments Demo.world0) = Ok Demo.repo.
Proof. vm_compute. reflexivity. Qed.

Lemma isfile_ext p w w' :
  files w' = files w -> cwd w' = cwd w -> Os.isfile p w' = Os.isfile p w.
Proof.
  intros Hf Hc. unfold Os.isfile, Os.stat. now rewrite Hf, Hc.
Qed.

Lemma upToDate_ext (self : VcpkgRepo) (w w' : World) :
  files w' = files w -> cwd w' = cwd w ->
  fst (upToDate self w') = fst (upToDate self w).
Proof.
  intros Hf Hc. unfold upToDate.
  destruct (vcpkg_root (args self)); [reflexivity|].
  destruct (force_build (args self)); [reflexivity|].
  unfold bind, ask. rewrite (isfile_ext _ _ _ Hf Hc).
  destruct (Os.isfile (exe self) w); cbn; [|reflexivity].
  rewrite (isfile_ext _ _ _ Hf Hc).
  destruct (Os.isfile (tagFile self) w); cbn; [|reflexivity].
  unfold Os.read_text, bind, record, Os.stat. cbn. rewrite Hf, Hc.
  destruct (String.eqb (tagFile self) EmptyString); [reflexivity|].
  destruct (stat_at (files w) (locate (cwd w) (tagFile self))) as [[c| |t]|];
    try reflexivity.
  destruct (String.eqb c (tagContents self)); reflexivity.
Qed.

Lemma emits_upToDate (self : VcpkgRepo) :
  emits (fun c => is_work c = false) (upToDate self).
Proof.
  unfold upToDate.
  destruct (vcpkg_root (args self)); [apply emits_ret|].
  destruct (force_build (args self)); [apply emits_ret|].
  apply emits_bind; [apply emits_ask|]. intros e.
  destruct (negb e); [apply emits_ret|].
  apply emits_bind; [apply emits_ask|]. intros t.
  destruct (negb t); [apply emits_ret|].
  apply emits_bind; [now apply emits_read_text|]. intros c.
  destruct (negb _); apply emits_ret.
Qed.

Lemma added_app (w w' : World) (l : list call) :
  trace w' = l ++ trace w -> added w w' = l.
Proof.
  intros H. unfold added. rewrite H, length_app.
  replace (length l + length (trace w) - length (trace w)) with (length l)
    by lia.
  rewrite firstn_app, Nat.sub_diag, firstn_all. cbn. apply app_nil_r.
Qed.

Lemma bootstrap_up_to_date (host : Host) (self : VcpkgRepo) (w w1 : World) :
  upToDate self w = (Ok true, w1) ->
  bootstrap host self w = (Ok tt, w1).
Proof.
  intros H. unfold bootstrap, bind. now rewrite H.
Qed.

Lemma no_work_added (w w' : World) (l : list call) :
  trace w' = l ++ trace w -> Forall (fun c => is_work c = false) l ->
  forallb (fun c => negb (is_work c)) (added w w') = true.
Proof.
  intros Ht Hl. rewrite (added_app _ _ _ Ht). apply forallb_forall.
  intros c Hc. rewrite Forall_forall in Hl. now rewrite (Hl c Hc).
Qed.

Lemma upToDate_idle (self : VcpkgRepo) (w w1 : World) (b : bool) :
  upToDate self w = (Ok b, w1) ->
  files w1 = files w /\ cwd w1 = cwd w /\
  forallb (fun c => negb (is_work c)) (added w w1) = true.
Proof.
  intros H.
  destruct (upToDate_total self w) as (b' & w' & Hrun & Hf & Hc & _).
  rewrite H in Hrun. injection Hrun as <- <-.
  split; [exact Hf|]. split; [exact Hc|].
  destruct (emits_upToDate self w) as (l & Ht & Hl & _).
  rewrite H in Ht. cbn in Ht. eapply no_work_added; eauto.
Qed.

(** ** The calls of [clean] and [bootstrap] *)

Ltac emits_step :=
  match goal with
  | |- emits _ (bind _ _) => apply emits_bind; [|intros ?]
  | |- emits _ (ret _) => apply emits_ret
  | |- emits _ (ask _) => apply emits_ask
  | |- emits _ (raise _) => apply emits_raise
  | |- emits _ (when _ _) => apply emits_when
  | |- emits _ (Os.unlink _) => apply emits_unlink
  | |- emits _ (Os.makedirs _) => apply emits_makedirs
  | |- emits _ (Os.read_text _) => apply emits_read_text
  | |- emits _ (Os.write_text _ _) => apply emits_write_text
  | |- emits _ (Shutil.rmtree_ignore_errors _) => apply emits_rmtree
  | |- emits _ (Shutil.copytree _ _) => apply emits_copytree
  | |- emits _ (download _ _) => apply emits_download
  | |- emits _ (subprocess _ _ _) => apply emits_subprocess
  | |- emits _ (if ?b then _ else _) => destruct b
  | |- emits _ (match ?x with _ => _ end) => destruct x
  end.

Lemma emits_clean (P : call -> Prop) (self : VcpkgRepo) :
  P (CRmtree (path self)) -> emits P (clean self).
Proof. intros HP. unfold clean. repeat emits_step. exact HP. Qed.

Lemma clean_total (self : VcpkgRepo) (w : World) :
  fst (clean self w) = Ok tt.
Proof.
  unfold clean, bind, ask, when. destruct (Os.isdir (path self) w); [|reflexivity].
  unfold Shutil.rmtree_ignore_errors, bind, record. cbn.
  match goal with |- context [Os.lstat ?x ?p] => destruct (Os.lstat x p) as [[c| |t]|] end;
    reflexivity.
Qed.

(** The part of [bootstrap] that replaces the ports directory. *)
Lemma emits_replace_ports (P : call -> Prop) (src portsPath : string) :
  P (CUnlink portsPath) -> P (CRmtree portsPath) ->
  P (CCopytree src portsPath) ->
  emits P (l <- ask (Os.islink portsPath) ;;
           when l (Os.unlink portsPath) ;;
           d <- ask (Os.isdir portsPath) ;;
           when d (Shutil.rmtree_ignore_errors portsPath) ;;
           Shutil.copytree src portsPath).
Proof. intros H1 H2 H3. repeat emits_step; assumption. Qed.

Lemma download_trace (host : Host) (f : fetch) (w : World) :
  trace (snd (download host f w)) = CDownload f :: trace w.
Proof.
  unfold download, bind, record. cbn.
  destruct (downloadAndExtract host f (cwd w) (files w)); reflexivity.
Qed.

(** After [upToDate] has said no and [clean] has run, [bootstrap] goes on
    with the acquisition, when it is needed, and with the ports. *)
Lemma bootstrap_stale (host : Host) (self : VcpkgRepo) (w w1 : World) :
  upToDate self w = (Ok false, w1) ->
  let w2 := snd (clean self w1) in
  let need :=
    force_bootstrap (args self)
    || negb (Os.isfile (exe self) w2)
    || negb (Os.isfile (PosixPath.join (path self) ".vcpkg-root") w2) in
  bootstrap host self w
  = bind (when need (download host (base_archive self)))
         (fun _ =>
            l <- ask (Os.islink (PosixPath.join (path self) "ports")) ;;
            when l (Os.unlink (PosixPath.join (path self) "ports")) ;;
            d <- ask (Os.isdir (PosixPath.join (path self) "ports")) ;;
            when d (Shutil.rmtree_ignore_errors (PosixPath.join (path self) "ports")) ;;
            Shutil.copytree (sourcePortsPath self) (PosixPath.join (path self) "ports"))
         w2.
Proof.
  intros H w2 need. unfold bootstrap.
  unfold bind at 1. rewrite H.
  unfold bind at 1. pose proof (clean_total self w1) as Hc.
  fold w2. destruct (clean self w1) as [r w2'] eqn:Hcl. cbn in Hc, w2.
  subst r w2. unfold bind at 1. unfold ask at 1.
  unfold bind at 1. unfold ask at 1.
  subst need. unfold base_archive.
  destruct (force_bootstrap (args self));
    destruct (Os.isfile (exe self) w2');
    destruct (Os.isfile (PosixPath.join (path self) ".vcpkg-root") w2');
    reflexivity.
Qed.

Lemma filter_none (l : list call) :
  Forall (fun c => is_download c = false) l -> filter is_download l = [].
Proof.
  induction 1 as [|c l Hc _ IH]; cbn; [reflexivity|]. now rewrite Hc.
Qed.

Lemma added_trans (w w1 w2 : World) (l1 l2 : list call) :
  trace w1 = l1 ++ trace w -> trace w2 = l2 ++ trace w1 ->
  added w w2 = l2 ++ l1.
Proof.
  intros H1 H2. apply added_app. now rewrite H2, H1, app_assoc.
Qed.

(** C7: in a run of [bootstrap] on an installation that is not up to date,
    after the clean, the base archive is downloaded exactly when the
    force-bootstrap flag is set, or the executable is missing, or the marker
    file .vcpkg-root is missing; no other download is made. *)
Theorem C7_download_iff (host : Host) (self : VcpkgRepo) (w w1 : World) :
  upToDate self w = (Ok false, w1) ->
  let w2 := snd (clean self w1) in
  let need :=
    force_bootstrap (args self)
    || negb (Os.isfile (exe self) w2)
    || negb (Os.isfile (PosixPath.join (path self) ".vcpkg-root") w2) in
  filter is_download (added w (snd (bootstrap host self w)))
  = if need then [CDownload (base_archive self)] else [].
Proof.
  intros H w2 need.
  rewrite (bootstrap_stale host self w w1 H). fold w2. fold need.
  set (nd := fun c => is_download c = false).
  destruct (emits_upToDate self w) as (l1 & Ht1 & Hl1 & _).
  rewrite H in Ht1. cbn in Ht1.
  assert (Hnd1 : Forall nd l1).
  { eapply Forall_impl; [|exact Hl1]. intros [] Hc; try reflexivity; discriminate. }
  destruct (emits_clean nd self (eq_refl : nd (CRmtree (path self))) w1)
    as (l2 & Ht2 & Hnd2 & _).
  fold w2 in Ht2.
  set (tail := fun _ : unit => bind (ask (Os.islink _)) _).
  assert (Htail : forall u, emits nd (tail u)).
  { intros u. apply emits_replace_ports; reflexivity. }
  unfold bind at 1.
  destruct need.
  - cbn [when]. pose proof (download_trace host (base_archive self) w2) as Hd.
    destruct (download host (base_archive self) w2) as [[u|e] w3]; cbn in Hd.
    + destruct (Htail u w3) as (l4 & Ht4 & Hnd4 & _).
      erewrite added_app.
      2:{ rewrite Ht4, Hd, Ht2, Ht1.
          instantiate (1 := l4 ++ [CDownload (base_archive self)] ++ l2 ++ l1).
          now rewrite <- !app_assoc. }
      rewrite !filter_app, (filter_none _ Hnd4), (filter_none _ Hnd2),
        (filter_none _ Hnd1). reflexivity.
    + cbn. erewrite added_app.
      2:{ rewrite Hd, Ht2, Ht1.
          instantiate (1 := [CDownload (base_archive self)] ++ l2 ++ l1).
          now rewrite <- !app_assoc. }
      rewrite !filter_app, (filter_none _ Hnd2), (filter_none _ Hnd1). reflexivity.
  - cbn [when ret].
    destruct (Htail tt w2) as (l4 & Ht4 & Hnd4 & _).
    erewrite added_app.
    2:{ rewrite Ht4, Ht2, Ht1. instantiate (1 := l4 ++ l2 ++ l1).
        now rewrite <- !app_assoc. }
    rewrite !filter_app, (filter_none _ Hnd4), (filter_none _ Hnd2),
      (filter_none _ Hnd1). reflexivity.
Qed.

Lemma C7_download_witness :
  upToDate Demo.repo Demo.world1 = (Ok false, Demo.world1) /\
  filter is_download
         (added Demo.world1 (snd (bootstrap Demo.host Demo.repo Demo.world1)))
  = [CDownload (base_archive Demo.repo)].
Proof.
  assert (H : upToDate Demo.repo Demo.world1 = (Ok false, Demo.world1))
    by (vm_compute; reflexivity).
  split; [exact H|].
  exact (C7_download_iff Demo.host Demo.repo Demo.world1 Demo.world1 H).
Defined.

Lemma C1_tag_witness :
  init Demo.host Demo.arguments Demo.world0 = (Ok Demo.repo, Demo.world1) /\
  tagContents Demo.repo = "abc123de_1".
Proof.
  assert (H : init Demo.host Demo.arguments Demo.world0
              = (Ok Demo.repo, Demo.world1)) by (vm_compute; reflexivity).
  split; [exact H|].
  destruct (C1_tag_derivation Demo.host Demo.arguments Demo.world0
                              Demo.world1 Demo.repo H) as (_ & _ & _ & Ht).
  exact Ht.
Defined.

(** ** The file table *)

Lemma loc_eqb_eq (a b : loc) : loc_eqb a b = true <-> a = b.
Proof.
  unfold loc_eqb. destruct (list_eq_dec string_dec a b); split; congruence.
Qed.

Lemma loc_eqb_refl (a : loc) : loc_eqb a a = true.
Proof. now apply loc_eqb_eq. Qed.

Lemma loc_eqb_neq (a b : loc) : loc_eqb a b = false <-> a <> b.
Proof.
  unfold loc_eqb. destruct (list_eq_dec string_dec a b); split; congruence.
Qed.

Lemma alookup_filter (keep : loc -> bool) (fs : FS) (q : loc) :
  alookup q (filter (fun e => keep (fst e)) fs)
  = if keep q then alookup q fs else None.
Proof.
  induction fs as [|[k n] fs IH]; cbn.
  - now destruct (keep q).
  - destruct (keep k) eqn:Hk; cbn.
    + destruct (loc_eqb k q) eqn:E.
      * apply loc_eqb_eq in E. subst k. now rewrite Hk.
      * exact IH.
    + destruct (loc_eqb k q) eqn:E.
      * apply loc_eqb_eq in E. subst k. now rewrite IH, Hk.
      * exact IH.
Qed.

Lemma alookup_drop_loc (q q' : loc) (fs : FS) :
  alookup q' (drop_loc q fs) = if loc_eqb q' q then None else alookup q' fs.
Proof.
  unfold drop_loc.
  rewrite (alookup_filter (fun k => negb (loc_eqb k q))).
  now destruct (loc_eqb q' q).
Qed.

Lemma alookup_put (q q' : loc) (n : node) (fs : FS) :
  alookup q' (put q n fs) = if loc_eqb q q' then Some n else alookup q' fs.
Proof.
  unfold put. cbn. destruct (loc_eqb q q') eqn:E; [reflexivity|].
  rewrite alookup_drop_loc.
  destruct (loc_eqb q' q) eqn:E'; [|reflexivity].
  apply loc_eqb_eq in E'. subst q'. now rewrite loc_eqb_refl in E.
Qed.

Lemma node_at_put (q q' : loc) (n : node) (fs : FS) :
  q <> [] ->
  node_at (put q n fs) q' = if loc_eqb q q' then Some n else node_at fs q'.
Proof.
  intros Hq. destruct q' as [|x q']; cbn [node_at].
  - destruct (loc_eqb q []) eqn:E; [|reflexivity].
    apply loc_eqb_eq in E. contradiction.
  - apply alookup_put.
Qed.

Lemma chase_O (fs : FS) (q : loc) :
  chase O fs q
  = match node_at fs q with
    | Some (Link _) => None
    | _ => Some q
    end.
Proof. reflexivity. Qed.

Lemma chase_S (fuel : nat) (fs : FS) (q : loc) :
  chase (S fuel) fs q
  = match node_at fs q with
    | Some (Link t) =>
        if String.eqb t EmptyString then None
        else chase fuel fs (locate (removelast q) t)
    | _ => Some q
    end.
Proof. reflexivity. Qed.

Lemma chase_not_link (fuel : nat) (fs : FS) (q r : loc) :
  chase fuel fs q = Some r ->
  forall t, node_at fs r <> Some (Link t).
Proof.
  revert q. induction fuel as [|fuel IH]; intros q;
    [rewrite chase_O | rewrite chase_S].
  - destruct (node_at fs q) as [[c| |t]|] eqn:E; intros H; try discriminate;
      injection H as <-; intros t'; congruence.
  - destruct (node_at fs q) as [[c| |t]|] eqn:E; intros H;
      try (injection H as <-; intros t'; congruence).
    destruct (String.eqb t EmptyString); [discriminate|].
    eapply IH; eauto.
Qed.

(** Writing a file where no link stands keeps every chain of links. *)
Lemma chase_put_file (fs : FS) (q : loc) (c : string) :
  q <> [] ->
  (forall t, node_at fs q <> Some (Link t)) ->
  forall fuel q0 r,
    chase fuel fs q0 = Some r ->
    chase fuel (put q (File c) fs) q0 = Some r.
Proof.
  intros Hq Hnl. induction fuel as [|fuel IH]; intros q0 r;
    [rewrite !chase_O | rewrite !chase_S];
    rewrite (node_at_put q q0 (File c) fs Hq).
  - destruct (loc_eqb q q0) eqn:E.
    + apply loc_eqb_eq in E. subst q0.
      destruct (node_at fs q) as [[c0| |t]|] eqn:En;
        first [easy | now elim (Hnl t)].
    + now destruct (node_at fs q0) as [[c0| |t]|].
  - destruct (loc_eqb q q0) eqn:E.
    + apply loc_eqb_eq in E. subst q0.
      destruct (node_at fs q) as [[c0| |t]|] eqn:En;
        first [easy | now elim (Hnl t)].
    + destruct (node_at fs q0) as [[c0| |t]|]; try easy.
      destruct (String.eqb t EmptyString); [easy|]. apply IH.
Qed.

Lemma stat_at_put_file (fs : FS) (q : loc) (c : string) (q0 : loc) :
  q <> [] ->
  (forall t, node_at fs q <> Some (Link t)) ->
  forall n, stat_at fs q0 = Some n ->
  exists r, chase MAXSYMLINKS fs q0 = Some r /\
    stat_at (put q (File c) fs) q0
    = if loc_eqb q r then Some (File c) else Some n.
Proof.
  intros Hq Hnl n. unfold stat_at.
  destruct (chase MAXSYMLINKS fs q0) as [r|] eqn:Hch; [|discriminate].
  intros Hn. exists r. split; [reflexivity|].
  rewrite (chase_put_file fs q c Hq Hnl _ _ _ Hch).
  rewrite (node_at_put q r (File c) fs Hq).
  now destruct (loc_eqb q r).
Qed.

(** ** [writeTag] *)

Lemma write_text_inv (p c : string) (w w1 : World) :
  Os.write_text p c w = (Ok tt, w1) ->
  String.eqb p EmptyString = false /\
  exists q, chase MAXSYMLINKS (files w) (locate (cwd w) p) = Some q /\
            q <> [] /\
            files w1 = put q (File c) (files w) /\ cwd w1 = cwd w.
Proof.
  unfold Os.write_text, bind, record. cbn.
  destruct (String.eqb p EmptyString); [discriminate|].
  destruct (chase MAXSYMLINKS (files w) (locate (cwd w) p)) as [q|];
    [|discriminate].
  intros H. split; [reflexivity|]. exists q. split; [reflexivity|].
  destruct q as [|x q]; [cbn in H; discriminate|].
  split; [discriminate|].
  destruct (node_at (files w) (x :: q)) as [[c0| |t]|];
    destruct (node_at (files w) (removelast (x :: q))) as [[c1| |t1]|];
    try discriminate; injection H as <-; cbn; auto.
Qed.

Lemma isfile_after_write (p c p' : string) (w w1 : World) :
  Os.write_text p c w = (Ok tt, w1) ->
  Os.isfile p' w = true -> Os.isfile p' w1 = true.
Proof.
  intros Hw. destruct (write_text_inv _ _ _ _ Hw) as (_ & q & Hch & Hq & Hf & Hc).
  unfold Os.isfile, Os.stat. rewrite Hf, Hc.
  destruct (String.eqb p' EmptyString); [easy|].
  destruct (stat_at (files w) (locate (cwd w) p')) as [n|] eqn:Hs; [|easy].
  destruct (stat_at_put_file (files w) q c (locate (cwd w) p') Hq
              (chase_not_link _ _ _ _ Hch) n Hs) as (r & _ & ->).
  destruct (loc_eqb q r); [reflexivity|]. now destruct n.
Qed.

Lemma stored_after_write (p c : string) (w w1 : World) :
  Os.write_text p c w = (Ok tt, w1) -> stored p w1 = Some c.
Proof.
  intros Hw. destruct (write_text_inv _ _ _ _ Hw) as (Hp & q & Hch & Hq & Hf & Hc).
  unfold stored, Os.stat. rewrite Hf, Hc, Hp. unfold stat_at.
  rewrite (chase_put_file (files w) q c Hq (chase_not_link _ _ _ _ Hch) _ _ _ Hch).
  now rewrite (node_at_put q q (File c) _ Hq), loc_eqb_refl.
Qed.

(** C6: once [writeTag] has written the tag file, it holds exactly the
    computed tag, and an [upToDate] right after it returns true, provided the
    executable is there and the force-build flag is unset. *)
Theorem C6_writeTag_then_upToDate (self : VcpkgRepo) (w w1 : World) :
  writeTag self w = (Ok tt, w1) ->
  force_build (args self) = false ->
  Os.isfile (exe self) w = true ->
  stored (tagFile self) w1 = Some (tagContents self) /\
  fst (upToDate self w1) = Ok true.
Proof.
  unfold writeTag. intros Hw Hfb He.
  pose proof (stored_after_write _ _ _ _ Hw) as Hs.
  split; [exact Hs|].
  destruct (upToDate_iff self w1) as (b & w2 & Hrun & _ & Hiff).
  rewrite Hrun. cbn. f_equal. apply Hiff. right.
  split; [exact Hfb|]. split; [eapply isfile_after_write; eauto|].
  split; [|exact Hs].
  unfold stored in Hs. unfold Os.isfile.
  now destruct (Os.stat w1 (tagFile self)) as [[c| |t]|].
Qed.

Lemma C6_writeTag_witness :
  writeTag Demo.repo Demo.world2 = (Ok tt, Demo.world3) /\
  fst (upToDate Demo.repo Demo.world3) = Ok true.
Proof.
  assert (H : writeTag Demo.repo Demo.world2 = (Ok tt, Demo.world3))
    by (vm_compute; reflexivity).
  split; [exact H|].
  refine (proj2 (C6_writeTag_then_upToDate Demo.repo Demo.world2 Demo.world3
                   H _ _)); vm_compute; reflexivity.
Defined.

(** ** [clean] *)

Lemma node_at_after_rmtree (w : World) (root q : loc) :
  q <> [] ->
  node_at (Shutil.after_rmtree w root) q
  = if is_prefix root q && negb (Shutil.survives w q) then None
    else node_at (files w) q.
Proof.
  intros Hq. destruct q as [|x q]; [contradiction|]. cbn [node_at].
  unfold Shutil.after_rmtree.
  rewrite (alookup_filter
             (fun k => negb (is_prefix root k) || Shutil.survives w k)).
  destruct (is_prefix root (x :: q)), (Shutil.survives w (x :: q)); reflexivity.
Qed.

Lemma survives_none (w : World) (q : loc) :
  (forall k, stuck w k = false) -> Shutil.survives w q = false.
Proof.
  intros H. unfold Shutil.survives.
  induction (files w) as [|e fs IH]; cbn; [reflexivity|].
  now rewrite H, andb_false_r, IH.
Qed.

Lemma chase_real (fs : FS) (q : loc) (fuel : nat) :
  (forall t, node_at fs q <> Some (Link t)) -> chase fuel fs q = Some q.
Proof.
  intros H. destruct fuel; [rewrite chase_O | rewrite chase_S];
    destruct (node_at fs q) as [[c| |t]|]; try reflexivity; now elim (H t).
Qed.

Lemma lstat_dir_isdir (w : World) (p : string) :
  Os.lstat w p = Some Dir -> Os.isdir p w = true.
Proof.
  unfold Os.lstat, Os.isdir, Os.stat, stat_at.
  destruct (String.eqb p EmptyString); [discriminate|]. intros H.
  rewrite chase_real; [now rewrite H | intros t; congruence].
Qed.

Lemma clean_real_dir (self : VcpkgRepo) (w : World) :
  Os.lstat w (path self) = Some Dir ->
  clean self w
  = (Ok tt,
     mkWorld (Shutil.after_rmtree w (locate (cwd w) (path self)))
             (cwd w) (stuck w) (CRmtree (path self) :: trace w)).
Proof.
  intros H. unfold clean, bind, ask. rewrite (lstat_dir_isdir _ _ H).
  cbn [when]. unfold Shutil.rmtree_ignore_errors, bind, record.
  cbn [fst snd]. unfold Os.lstat in *. cbn [files cwd]. rewrite H.
  reflexivity.
Qed.

(** C8: [clean] never raises, whatever removals are refused; on a root that
    is not a directory it does nothing at all; on a root that is a real
    directory every entry in it that is not held back by a refused removal is
    gone afterwards, the entries held back and the entries outside the root
    stay as they were, and if nothing is refused the root itself is gone. *)
Theorem C8_clean_best_effort (self : VcpkgRepo) (w : World) :
  fst (clean self w) = Ok tt /\
  (Os.isdir (path self) w = false -> clean self w = (Ok tt, w)) /\
  (Os.lstat w (path self) = Some Dir ->
   let root := locate (cwd w) (path self) in
   let w' := snd (clean self w) in
   (forall q, q <> [] ->
      node_at (files w') q
      = if is_prefix root q && negb (Shutil.survives w q) then None
        else node_at (files w) q) /\
   ((forall k, stuck w k = false) -> root <> [] ->
    Os.lstat w' (path self) = None)).
Proof.
  split; [apply clean_total|]. split.
  - intros H. unfold clean, bind, ask. now rewrite H.
  - intros H root w'. subst w'. rewrite (clean_real_dir self w H).
    cbn [snd files]. split.
    + intros q Hq. now apply node_at_after_rmtree.
    + intros Hs Hr. unfold Os.lstat in *. cbn [files cwd].
      destruct (String.eqb (path self) EmptyString); [reflexivity|].
      fold root. rewrite (node_at_after_rmtree w root root Hr).
      rewrite (survives_none w root Hs).
      assert (Hp : is_prefix root root = true).
      { clear. induction root as [|x r IH]; cbn; [reflexivity|].
        now rewrite String.eqb_refl, IH. }
      now rewrite Hp.
Qed.

Lemma C8_clean_witness :
  clean Demo.repo Demo.world0 = (Ok tt, Demo.world0) /\
  fst (clean Demo.repo Demo.stale_locked) = Ok tt /\
  Os.lstat (snd (clean Demo.repo Demo.stale_locked)) (tagFile Demo.repo)
  = Some (File "abc123de_0") /\
  Os.lstat (snd (clean Demo.repo Demo.stale_locked)) (exe Demo.repo) = None /\
  Os.lstat (snd (clean Demo.repo Demo.stale)) (path Demo.repo) = None.
Proof.
  destruct (C8_clean_best_effort Demo.repo Demo.world0) as (_ & Hnone & _).
  destruct (C8_clean_best_effort Demo.repo Demo.stale_locked) as (Hok & _ & _).
  destruct (C8_clean_best_effort Demo.repo Demo.stale) as (_ & _ & Hdir).
  split; [apply Hnone; vm_compute; reflexivity|].
  split; [exact Hok|].
  split; [vm_compute; reflexivity|]. split; [vm_compute; reflexivity|].
  apply Hdir; [vm_compute; reflexivity | intros k; reflexivity | discriminate].
Defined.

(** ** Paths and locations *)

Lemma segments_nonempty (p : string) : PosixPath.segments p <> [].
Proof.
  destruct p as [|c r]; cbn; [discriminate|].
  destruct (Ascii.eqb c PosixPath.sep); [discriminate|].
  destruct (PosixPath.segments r); discriminate.
Qed.

Lemma segments_app_sep (a b : string) :
  PosixPath.segments (a ++ String PosixPath.sep b)
  = PosixPath.segments a ++ PosixPath.segments b.
Proof.
  induction a as [|c a IH]; cbn.
  - reflexivity.
  - destruct (Ascii.eqb c PosixPath.sep) eqn:E.
    + cbn in IH. now rewrite IH.
    + cbn in IH. rewrite IH.
      destruct (PosixPath.segments a) as [|x xs] eqn:Ea;
        [now elim (segments_nonempty a) | reflexivity].
Qed.

Lemma segments_plain (n : string) :
  PyStr.mem_char PosixPath.sep n = false -> PosixPath.segments n = [n].
Proof.
  induction n as [|c n IH]; cbn; [reflexivity|].
  intros H. apply orb_false_iff in H. destruct H as (Hc & Hn).
  rewrite Hc, (IH Hn). reflexivity.
Qed.

Lemma ends_with_char_split (c : ascii) (p : string) :
  PyStr.ends_with_char c p = true -> exists p', p = (p' ++ String c EmptyString)%string.
Proof.
  induction p as [|d p IH]; cbn; [discriminate|].
  destruct p as [|e p].
  - intros H. apply Ascii.eqb_eq in H. subst d. now exists EmptyString.
  - intros H. destruct (IH H) as (p' & Hp'). exists (String d p').
    cbn. now rewrite <- Hp'.
Qed.

Lemma walk_plain (at_ : loc) (n : string) :
  plain n = true -> walk at_ n = at_ ++ [n].
Proof.
  unfold plain, walk. intros H.
  repeat (apply andb_true_iff in H; destruct H as (H & ?)).
  destruct (String.eqb n EmptyString); [discriminate|].
  destruct (String.eqb n "."); [discriminate|].
  destruct (String.eqb n ".."); [discriminate|]. reflexivity.
Qed.

Lemma plain_no_sep (n : string) :
  plain n = true -> PyStr.mem_char PosixPath.sep n = false.
Proof.
  unfold plain. intros H.
  repeat (apply andb_true_iff in H; destruct H as (H & ?)).
  now destruct (PyStr.mem_char PosixPath.sep n).
Qed.

Lemma plain_not_abs (n : string) :
  plain n = true -> PyStr.starts_with_char PosixPath.sep n = false.
Proof.
  intros H. apply plain_no_sep in H. destruct n as [|c n]; [reflexivity|].
  cbn in *. now apply orb_false_iff in H.
Qed.

Lemma isabs_app (p r : string) :
  p <> EmptyString -> PosixPath.isabs (p ++ r) = PosixPath.isabs p.
Proof. destruct p; [contradiction | reflexivity]. Qed.

(** Joining a plain name to a path goes one step down from where the path
    leads. *)
Lemma locate_join (base : loc) (p n : string) :
  plain n = true ->
  locate base (PosixPath.join p n) = locate base p ++ [n].
Proof.
  intros Hn. unfold PosixPath.join. rewrite (plain_not_abs n Hn).
  pose proof (segments_plain n (plain_no_sep n Hn)) as Hseg.
  destruct (String.eqb p EmptyString) eqn:Hp.
  - apply String.eqb_eq in Hp. subst p. cbn [orb].
    unfold locate. cbn [String.append].
    assert (Ha : PosixPath.isabs n = false) by exact (plain_not_abs n Hn).
    rewrite Ha, Hseg. cbn. now apply walk_plain.
  - apply String.eqb_neq in Hp. cbn [orb].
    destruct (PyStr.ends_with_char PosixPath.sep p) eqn:He.
    + destruct (ends_with_char_split _ _ He) as (p' & ->).
      unfold locate. rewrite append_assoc. cbn [String.append].
      rewrite !segments_app_sep, Hseg. cbn [PosixPath.segments].
      rewrite !fold_left_app. cbn [fold_left].
      rewrite (walk_plain _ n Hn).
      assert (Hab : PosixPath.isabs (p' ++ String PosixPath.sep n)
                    = PosixPath.isabs (p' ++ String PosixPath.sep EmptyString)).
      { destruct p'; reflexivity. }
      rewrite Hab. reflexivity.
    + unfold locate. cbn [String.append].
      change (p ++ String "/" n)%string with (p ++ String PosixPath.sep n)%string.
      rewrite segments_app_sep, Hseg, fold_left_app. cbn [fold_left].
      rewrite (walk_plain _ n Hn), (isabs_app p _ Hp). reflexivity.
Qed.

(** ** What the constructor fixes *)

Lemma init_fields (host : Host) (a : Args) (w w' : World) (self : VcpkgRepo) :
  init host a w = (Ok self, w') ->
  args self = a /\
  sourcePortsPath self = ports_path a /\
  configFilePath self = PosixPath.join (build_root a) "vcpkg.cmake" /\
  tagFile self = PosixPath.join (path self) ".id" /\
  lockFile self
  = PosixPath.join (fst (PosixPath.split (path self)))
                   (snd (PosixPath.split (path self)) ++ ".lock")%string /\
  (exe self = PosixPath.join (path self) "vcpkg" \/
   exe self = PosixPath.join (path self) "vcpkg.exe") /\
  (android a = false -> triplet self = hostTriplet self) /\
  (android a = true -> androidPackagePath self <> None).
Proof.
  unfold init. intros H.
  peel H as hash w1 Hhash. peel H as bp w2 Hbp.
  destruct (PosixPath.split (snd bp)) as [lockDir lockName] eqn:Hsplit.
  peel H as isd w3 Hisd. peel H as u w4 Hmk. peel H as tag w5 Htag.
  destruct (system host); cbn [System_eqb] in H;
    destruct (android a); unfold ret in H; injection H as <- <-;
    cbn [args sourcePortsPath configFilePath tagFile lockFile exe path
         triplet hostTriplet androidPackagePath];
    rewrite Hsplit; cbn [fst snd];
    repeat split; auto; try discriminate.
Qed.

Lemma built_fields (host : Host) (self : VcpkgRepo) :
  built host self ->
  tagFile self = PosixPath.join (path self) ".id" /\
  sourcePortsPath self = ports_path (args self) /\
  configFilePath self = PosixPath.join (build_root (args self)) "vcpkg.cmake" /\
  lockFile self
  = PosixPath.join (fst (PosixPath.split (path self)))
                   (snd (PosixPath.split (path self)) ++ ".lock")%string /\
  (exe self = PosixPath.join (path self) "vcpkg" \/
   exe self = PosixPath.join (path self) "vcpkg.exe").
Proof.
  intros (a & w0 & w0' & H). apply init_fields in H.
  destruct H as (Ha & Hs & Hc & Ht & Hl & He & _). subst a. auto.
Qed.

Lemma demo_built : built Demo.host Demo.repo.
Proof.
  exists Demo.arguments, Demo.world0, Demo.world1. vm_compute. reflexivity.
Qed.

(** ** Removal only shrinks *)

Lemma shrinks_after_rmtree (w : World) (root : loc) :
  shrinks (Shutil.after_rmtree w root) (files w).
Proof.
  intros q n. destruct q as [|x q]; [trivial|].
  rewrite node_at_after_rmtree by discriminate.
  destruct (is_prefix root (x :: q) && negb (Shutil.survives w (x :: q)));
    [discriminate | trivial].
Qed.

Lemma shrinks_refl (fs : FS) : shrinks fs fs.
Proof. intros q n H. exact H. Qed.

Lemma chase_shrinks (fs' fs : FS) :
  shrinks fs' fs ->
  forall fuel q r n,
    chase fuel fs' q = Some r -> node_at fs' r = Some n ->
    chase fuel fs q = Some r.
Proof.
  intros Hsh. induction fuel as [|fuel IH]; intros q r n;
    [rewrite !chase_O | rewrite !chase_S].
  - destruct (node_at fs' q) as [[c| |t]|] eqn:E; try discriminate;
      intros H; injection H as <-; intros Hn.
    + now rewrite (Hsh _ _ E).
    + now rewrite (Hsh _ _ E).
    + congruence.
  - destruct (node_at fs' q) as [[c| |t]|] eqn:E.
    + intros H; injection H as <-; intros Hn. now rewrite (Hsh _ _ E).
    + intros H; injection H as <-; intros Hn. now rewrite (Hsh _ _ E).
    + rewrite (Hsh _ _ E). destruct (String.eqb t EmptyString); [discriminate|].
      apply IH.
    + intros H; injection H as <-; intros Hn. congruence.
Qed.

Lemma stat_at_shrinks (fs' fs : FS) (q : loc) (n : node) :
  shrinks fs' fs -> stat_at fs' q = Some n -> stat_at fs q = Some n.
Proof.
  intros Hsh. unfold stat_at.
  destruct (chase MAXSYMLINKS fs' q) as [r|] eqn:Hch; [|discriminate].
  intros Hn. rewrite (chase_shrinks fs' fs Hsh _ _ _ _ Hch Hn). now apply Hsh.
Qed.

Lemma isfile_shrinks (p : string) (w' w : World) :
  shrinks (files w') (files w) -> cwd w' = cwd w ->
  Os.isfile p w' = true -> Os.isfile p w = true.
Proof.
  intros Hsh Hc. unfold Os.isfile, Os.stat. rewrite Hc.
  destruct (String.eqb p EmptyString); [trivial|].
  destruct (stat_at (files w') (locate (cwd w) p)) as [n|] eqn:E; [|discriminate].
  rewrite (stat_at_shrinks _ _ _ _ Hsh E). trivial.
Qed.

Lemma stored_shrinks (p : string) (w' w : World) (c : string) :
  shrinks (files w') (files w) -> cwd w' = cwd w ->
  stored p w' = Some c -> stored p w = Some c.
Proof.
  intros Hsh Hc. unfold stored, Os.stat. rewrite Hc.
  destruct (String.eqb p EmptyString); [trivial|].
  destruct (stat_at (files w') (locate (cwd w) p)) as [n|] eqn:E; [|discriminate].
  rewrite (stat_at_shrinks _ _ _ _ Hsh E). trivial.
Qed.

(** An installation that is not up to date stays so when entries are only
    removed. *)
Lemma upToDate_shrinks (self : VcpkgRepo) (w w' : World) :
  shrinks (files w') (files w) -> cwd w' = cwd w ->
  fst (upToDate self w) = Ok false -> fst (upToDate self w') = Ok false.
Proof.
  intros Hsh Hc H.
  destruct (upToDate_iff self w) as (b & v & Hrun & _ & Hiff).
  destruct (upToDate_iff self w') as (b' & v' & Hrun' & _ & Hiff').
  rewrite Hrun in H. cbn in H. injection H as ->.
  rewrite Hrun'. cbn. f_equal.
  destruct b'; [|reflexivity].
  destruct Hiff' as (Hiff' & _). destruct (Hiff' eq_refl) as [Hn | (Hf & He & Ht & Hs)].
  - symmetry. apply Hiff. now left.
  - symmetry. apply Hiff. right. split; [exact Hf|].
    split; [now apply (isfile_shrinks _ w' w)|].
    split; [now apply (isfile_shrinks _ w' w)|].
    now apply (stored_shrinks _ w' w).
Qed.

(** ** A failed acquisition *)

Lemma clean_effect (self : VcpkgRepo) (w : World) :
  cwd (snd (clean self w)) = cwd w /\
  stuck (snd (clean self w)) = stuck w /\
  (files (snd (clean self w)) = files w \/
   (Os.lstat w (path self) = Some Dir /\
    files (snd (clean self w))
    = Shutil.after_rmtree w (locate (cwd w) (path self)))).
Proof.
  unfold clean, bind, ask.
  destruct (Os.isdir (path self) w); cbn [when]; [|cbn; auto].
  unfold Shutil.rmtree_ignore_errors, bind, record. cbn [fst snd].
  unfold Os.lstat. cbn [files cwd].
  destruct (String.eqb (path self) EmptyString); [cbn; auto|].
  destruct (node_at (files w) (locate (cwd w) (path self))) as [[c| |t]|];
    cbn; auto.
Qed.

Lemma clean_shrinks (self : VcpkgRepo) (w : World) :
  shrinks (files (snd (clean self w))) (files w).
Proof.
  destruct (clean_effect self w) as (_ & _ & [-> | (_ & ->)]);
    [apply shrinks_refl | apply shrinks_after_rmtree].
Qed.

Lemma is_prefix_app (a b : loc) : is_prefix a (a ++ b) = true.
Proof.
  induction a as [|x a IH]; cbn; [reflexivity|].
  now rewrite String.eqb_refl, IH.
Qed.

Lemma bootstrap_fails (host : Host) (self : VcpkgRepo) (w w1 : World) (e : exn) :
  upToDate self w = (Ok false, w1) ->
  let w2 := snd (clean self w1) in
  force_bootstrap (args self)
  || negb (Os.isfile (exe self) w2)
  || negb (Os.isfile (PosixPath.join (path self) ".vcpkg-root") w2) = true ->
  downloadAndExtract host (base_archive self) (cwd w2) (files w2)
  = (Raise e, files w2) ->
  bootstrap host self w
  = (Raise e, mkWorld (files w2) (cwd w2) (stuck w2)
                      (CDownload (base_archive self) :: trace w2)).
Proof.
  intros H w2 Hneed Hdl.
  rewrite (bootstrap_stale host self w w1 H). fold w2. rewrite Hneed.
  cbn [when]. unfold bind at 1. unfold download, bind, record. cbn [fst snd].
  cbn [files cwd stuck trace]. rewrite Hdl. reflexivity.
Qed.

Lemma emits_upToDate_gen (P : call -> Prop) (self : VcpkgRepo) :
  P (COpenRead (tagFile self)) -> emits P (upToDate self).
Proof.
  intros HP. unfold upToDate. repeat emits_step; exact HP.
Qed.

Lemma emits_bootstrap (P : call -> Prop) (host : Host) (self : VcpkgRepo) :
  P (COpenRead (tagFile self)) ->
  P (CRmtree (path self)) ->
  P (CDownload (base_archive self)) ->
  P (CUnlink (PosixPath.join (path self) "ports")) ->
  P (CRmtree (PosixPath.join (path self) "ports")) ->
  P (CCopytree (sourcePortsPath self) (PosixPath.join (path self) "ports")) ->
  emits P (bootstrap host self).
Proof.
  intros H1 H2 H3 H4 H5 H6. unfold bootstrap. cbv zeta.
  apply emits_bind; [now apply emits_upToDate_gen|]. intros u.
  destruct u; [apply emits_ret|].
  apply emits_bind; [now apply emits_clean|]. intros _.
  repeat emits_step; assumption.
Qed.

Lemma added_emits {A} (P : call -> Prop) (m : M A) (w : World) :
  emits P m -> Forall P (added w (snd (m w))).
Proof.
  intros H. destruct (H w) as (l & Ht & Hl & _).
  now rewrite (added_app _ _ _ Ht).
Qed.

(** C4 (as amended): [bootstrap] never opens a file for writing, the tag
    file included.  When the acquisition fails, [bootstrap] raises, it has
    only removed entries, and an [upToDate] after it returns false, whatever
    removals were refused; the tag file is absent afterwards when the root
    was a real directory and no removal was refused. *)
Theorem C4_failed_acquisition (host : Host) (self : VcpkgRepo) (w : World)
    (e : exn) :
  built host self ->
  acquisition_fails host self w e ->
  let w3 := snd (bootstrap host self w) in
  (forall w0, Forall (fun c => forall p, c <> COpenWrite p)
                     (added w0 (snd (bootstrap host self w0)))) /\
  fst (bootstrap host self w) = Raise e /\
  shrinks (files w3) (files w) /\
  fst (upToDate self w3) = Ok false /\
  ((forall k, stuck w k = false) ->
   Os.lstat w (path self) = Some Dir ->
   Os.lstat w3 (tagFile self) = None).
Proof.
  intros Hb (w1 & Hup & Hneed & Hdl) w3.
  destruct (built_fields host self Hb) as (Htag & _).
  split.
  { intros w0. apply added_emits. apply emits_bootstrap; discriminate. }
  pose proof (bootstrap_fails host self w w1 e Hup Hneed Hdl) as Hrun.
  subst w3. rewrite Hrun. cbn [fst snd].
  destruct (upToDate_total self w) as (b & w1' & Hup' & Hf1 & Hc1 & Hs1).
  rewrite Hup in Hup'. injection Hup' as <- <-.
  destruct (clean_effect self w1) as (Hc2 & Hs2 & Hf2).
  assert (Hsh : shrinks (files (snd (clean self w1))) (files w)).
  { rewrite <- Hf1. apply clean_shrinks. }
  split; [reflexivity|]. split; [exact Hsh|]. split.
  - apply (upToDate_shrinks self w).
    + exact Hsh.
    + cbn [cwd]. now rewrite Hc2.
    + now rewrite Hup.
  - intros Hst Hdir.
    assert (Hdir1 : Os.lstat w1 (path self) = Some Dir).
    { unfold Os.lstat in *. now rewrite Hf1, Hc1. }
    rewrite (clean_real_dir self w1 Hdir1). cbn [snd files cwd stuck].
    unfold Os.lstat. cbn [files cwd]. rewrite Htag.
    destruct (String.eqb _ EmptyString); [reflexivity|].
    rewrite locate_join by reflexivity.
    rewrite node_at_after_rmtree.
    2:{ destruct (locate (cwd w1) (path self)); discriminate. }
    rewrite is_prefix_app, survives_none; [reflexivity|].
    intros k. now rewrite Hs1.
Qed.

Lemma demo_failing_built : built Demo.failing_host Demo.repo.
Proof.
  exists Demo.arguments, Demo.world0, Demo.world1. vm_compute. reflexivity.
Qed.

Lemma demo_acquisition_fails (w : World) :
  files w = files Demo.stale -> cwd w = [] -> trace w = [] ->
  acquisition_fails Demo.failing_host Demo.repo w RuntimeError.
Proof.
  destruct w as [fs c st tr]. cbn. intros -> -> ->.
  exists (mkWorld (files Demo.stale) [] st
                  [COpenRead "/tmp/hifi/vcpkg/abc123de/.id"]).
  split; [vm_compute; reflexivity|]. cbv zeta. split.
  - apply orb_true_iff. right. apply negb_true_iff.
    apply not_true_is_false. intros Hf.
    apply (isfile_shrinks _ _ (mkWorld (files Demo.stale) [] st
                  [COpenRead "/tmp/hifi/vcpkg/abc123de/.id"])) in Hf.
    + vm_compute in Hf. discriminate.
    + apply clean_shrinks.
    + apply clean_effect.
  - reflexivity.
Qed.

Lemma C4_failed_acquisition_witness :
  built Demo.failing_host Demo.repo /\
  acquisition_fails Demo.failing_host Demo.repo Demo.stale RuntimeError /\
  fst (bootstrap Demo.failing_host Demo.repo Demo.stale) = Raise RuntimeError /\
  fst (upToDate Demo.repo (snd (bootstrap Demo.failing_host Demo.repo Demo.stale)))
  = Ok false /\
  Os.lstat (snd (bootstrap Demo.failing_host Demo.repo Demo.stale))
           (tagFile Demo.repo) = None.
Proof.
  assert (Ha : acquisition_fails Demo.failing_host Demo.repo Demo.stale
                                 RuntimeError)
    by (apply demo_acquisition_fails; reflexivity).
  split; [exact demo_failing_built|]. split; [exact Ha|].
  destruct (C4_failed_acquisition Demo.failing_host Demo.repo Demo.stale
              RuntimeError demo_failing_built Ha) as (_ & Hr & _ & Hu & Hl).
  split; [exact Hr|]. split; [exact Hu|].
  apply Hl; [intros k; reflexivity | vm_compute; reflexivity].
Defined.

(** C4 as stated fails: when the removal of the stale tag file is refused,
    [clean] leaves it (the error is ignored), the download fails, and the tag
    file is still there afterwards. *)
Lemma C4_locked_tag_survives :
  ~ failure_leaves_no_tag Demo.failing_host Demo.repo Demo.stale_locked.
Proof.
  intros H.
  destruct (H RuntimeError) as (Hl & _).
  - apply demo_acquisition_fails; reflexivity.
  - vm_compute in Hl. discriminate.
Qed.

(** ** Locations below a location *)

Lemma is_prefix_split (a b : loc) :
  is_prefix a b = true -> b = a ++ skipn (length a) b.
Proof.
  revert b. induction a as [|x a IH]; intros b; cbn; [reflexivity|].
  destruct b as [|y b]; [discriminate|]. intros H.
  apply andb_true_iff in H. destruct H as (Hx & Hp).
  apply String.eqb_eq in Hx. subst y. cbn. f_equal. now apply IH.
Qed.

Lemma strictly_below_split (a b : loc) :
  strictly_below a b = true ->
  b = a ++ skipn (length a) b /\ skipn (length a) b <> [].
Proof.
  unfold strictly_below. intros H. apply andb_true_iff in H.
  destruct H as (Hp & Hn). pose proof (is_prefix_split a b Hp) as Hs.
  split; [exact Hs|]. intros He. rewrite He, app_nil_r in Hs.
  apply negb_true_iff, loc_eqb_neq in Hn. congruence.
Qed.

Lemma strictly_below_app (a r : loc) :
  r <> [] -> strictly_below a (a ++ r) = true.
Proof.
  intros Hr. unfold strictly_below. rewrite is_prefix_app. cbn.
  apply negb_true_iff, loc_eqb_neq. intros H.
  rewrite <- (app_nil_r a) in H at 1. apply app_inv_head in H. congruence.
Qed.

Lemma is_prefix_trans (a b c : loc) :
  is_prefix a b = true -> is_prefix b c = true -> is_prefix a c = true.
Proof.
  intros H1 H2. rewrite (is_prefix_split b c H2), (is_prefix_split a b H1).
  rewrite <- app_assoc. apply is_prefix_app.
Qed.

Lemma is_tree_sound (fs : FS) : is_tree fs = true -> tree fs.
Proof.
  unfold is_tree. intros H q x n Hn.
  rewrite forallb_forall in H.
  assert (Hin : In (q ++ [x], n) fs).
  { destruct (q ++ [x]) as [|y k] eqn:E; [now destruct q|].
    cbn [node_at] in Hn. clear E H. induction fs as [|[k0 n0] fs IH];
      cbn in *; [discriminate|].
    destruct (loc_eqb k0 (y :: k)) eqn:E.
    - apply loc_eqb_eq in E. injection Hn as Hn. subst k0 n0. now left.
    - right. now apply IH. }
  specialize (H _ Hin). cbn [fst] in H.
  rewrite removelast_last in H.
  destruct (q ++ [x]) as [|y k] eqn:E; [now destruct q|].
  now destruct (node_at fs q) as [[c| |t]|].
Qed.

Lemma tree_below_absent (fs : FS) (q r : loc) :
  tree fs -> node_at fs q <> Some Dir -> r <> [] ->
  node_at fs (q ++ r) = None.
Proof.
  intros Ht Hq. induction r as [|x r IH] using rev_ind; [easy|].
  intros _. destruct (node_at fs (q ++ r ++ [x])) as [n|] eqn:E; [|reflexivity].
  rewrite app_assoc in E. apply Ht in E.
  destruct r as [|y r]; [rewrite app_nil_r in E; contradiction|].
  rewrite IH in E; [discriminate | discriminate].
Qed.

(** ** The effect of the primitives on the file table *)

Lemma node_at_drop_loc (q q' : loc) (fs : FS) :
  q' <> [] ->
  node_at (drop_loc q fs) q' = if loc_eqb q' q then None else node_at fs q'.
Proof.
  intros H. destruct q' as [|x q']; [contradiction|]. cbn [node_at].
  apply alookup_drop_loc.
Qed.

Lemma unlink_inv (p : string) (w w' : World) :
  Os.unlink p w = (Ok tt, w') ->
  files w' = drop_loc (locate (cwd w) p) (files w) /\
  cwd w' = cwd w /\ stuck w' = stuck w /\ trace w' = CUnlink p :: trace w.
Proof.
  unfold Os.unlink, bind, record. cbn [fst snd]. unfold Os.lstat.
  cbn [files cwd stuck].
  destruct (String.eqb p EmptyString); [discriminate|].
  destruct (node_at (files w) (locate (cwd w) p)) as [[c| |t]|];
    try discriminate;
    destruct (stuck w (locate (cwd w) p)); try discriminate;
    intros H; injection H as <-; cbn; auto.
Qed.

Lemma rmtree_inv (p : string) (w : World) :
  fst (Shutil.rmtree_ignore_errors p w) = Ok tt /\
  let w' := snd (Shutil.rmtree_ignore_errors p w) in
  cwd w' = cwd w /\ stuck w' = stuck w /\ trace w' = CRmtree p :: trace w /\
  files w' = match Os.lstat w p with
             | Some Dir => Shutil.after_rmtree w (locate (cwd w) p)
             | _ => files w
             end.
Proof.
  unfold Shutil.rmtree_ignore_errors, bind, record. cbn [fst snd].
  unfold Os.lstat. cbn [files cwd stuck].
  destruct (String.eqb p EmptyString); [cbn; auto|].
  destruct (node_at (files w) (locate (cwd w) p)) as [[c| |t]|]; cbn; auto.
Qed.

Lemma is_prefix_refl (a : loc) : is_prefix a a = true.
Proof. rewrite <- (app_nil_r a) at 2. apply is_prefix_app. Qed.

Lemma mkdirs_from_ok (rest : list string) :
  forall (done : loc) (fs fs' : FS),
    rest <> [] ->
    Os.mkdirs_from done rest fs = (Ok tt, fs') ->
    node_at fs (done ++ rest) = None /\
    node_at fs' (done ++ rest) = Some Dir /\
    (forall q n, node_at fs q = Some n -> node_at fs' q = Some n) /\
    (forall q, is_prefix q (done ++ rest) = false ->
               node_at fs' q = node_at fs q).
Proof.
  induction rest as [|x rest IH]; intros done fs fs' Hne; [contradiction|].
  cbn [Os.mkdirs_from].
  assert (Ha : done ++ [x] <> []) by (destruct done; discriminate).
  replace (done ++ x :: rest) with ((done ++ [x]) ++ rest)
    by (now rewrite <- app_assoc).
  destruct (node_at fs (done ++ [x])) as [nd|] eqn:E.
  - destruct rest as [|y rest]; [destruct nd; discriminate|].
    destruct nd; try discriminate. intros H.
    apply IH in H; [|discriminate]. exact H.
  - destruct rest as [|y rest].
    + cbn [Os.mkdirs_from]. intros H. injection H as <-.
      rewrite app_nil_r. split; [exact E|].
      split; [now rewrite node_at_put, loc_eqb_refl|]. split.
      * intros q n Hq. rewrite node_at_put by exact Ha.
        destruct (loc_eqb (done ++ [x]) q) eqn:Eq; [|exact Hq].
        apply loc_eqb_eq in Eq. congruence.
      * intros q Hq. rewrite node_at_put by exact Ha.
        destruct (loc_eqb (done ++ [x]) q) eqn:Eq; [|reflexivity].
        apply loc_eqb_eq in Eq. subst q. now rewrite is_prefix_refl in Hq.
    + intros H. apply IH in H; [|discriminate].
      destruct H as (H1 & H2 & H3 & H4).
      assert (Hd : forall q, q <> done ++ [x] ->
                     node_at (put (done ++ [x]) Dir fs) q = node_at fs q).
      { intros q Hq. rewrite node_at_put by exact Ha.
        destruct (loc_eqb (done ++ [x]) q) eqn:Eq; [|reflexivity].
        apply loc_eqb_eq in Eq. congruence. }
      split.
      { rewrite <- Hd; [exact H1|]. intros Heq.
        rewrite <- (app_nil_r (done ++ [x])) in Heq at 2.
        apply app_inv_head in Heq. discriminate. }
      split; [exact H2|]. split.
      * intros q n Hq. apply H3. rewrite Hd; [exact Hq|]. congruence.
      * intros q Hq. rewrite H4 by exact Hq. apply Hd. intros ->.
        now rewrite is_prefix_app in Hq.
Qed.

(** ** [copytree] *)

Lemma alookup_app (q : loc) (l1 l2 : FS) :
  alookup q (l1 ++ l2)
  = match alookup q l1 with
    | Some n => Some n
    | None => alookup q l2
    end.
Proof.
  induction l1 as [|[k n] l1 IH]; cbn; [reflexivity|].
  now destruct (loc_eqb k q).
Qed.

Lemma loc_eqb_app (d a b : loc) : loc_eqb (d ++ a) (d ++ b) = loc_eqb a b.
Proof.
  destruct (loc_eqb a b) eqn:E.
  - apply loc_eqb_eq in E. subst. apply loc_eqb_refl.
  - apply loc_eqb_neq. apply loc_eqb_neq in E. intros H.
    now apply app_inv_head in H.
Qed.

Lemma alookup_rekey_below (d r : loc) (es : FS) :
  alookup (d ++ r) (map (fun e => (d ++ fst e, snd e)) es) = alookup r es.
Proof.
  induction es as [|[k n] es IH]; cbn; [reflexivity|].
  now rewrite loc_eqb_app, IH.
Qed.

Lemma alookup_rekey_outside (d q : loc) (es : FS) :
  is_prefix d q = false ->
  alookup q (map (fun e => (d ++ fst e, snd e)) es) = None.
Proof.
  intros H. induction es as [|[k n] es IH]; cbn; [reflexivity|].
  destruct (loc_eqb (d ++ k) q) eqn:E; [|exact IH].
  apply loc_eqb_eq in E. subst q. now rewrite is_prefix_app in H.
Qed.

Lemma alookup_absent (q : loc) (es : FS) :
  (forall e, In e es -> fst e <> q) -> alookup q es = None.
Proof.
  induction es as [|[k n] es IH]; cbn; [reflexivity|]. intros H.
  destruct (loc_eqb k q) eqn:E.
  - apply loc_eqb_eq in E. now elim (H (k, n) (or_introl eq_refl)).
  - apply IH. intros e He. apply H. now right.
Qed.

Lemma snapshot_S (fuel : nat) (fs : FS) (sq : loc) :
  Shutil.snapshot (S fuel) fs sq
  = fold_right (snap_step (Shutil.snapshot fuel fs) fs sq) ([], false) fs.
Proof. reflexivity. Qed.

(** Every entry of a snapshot has a name. *)
Lemma snap_step_named deeper (fs0 : FS) (sq : loc) (l : FS) :
  (forall q e, In e (fst (deeper q)) -> fst e <> []) ->
  forall e, In e (fst (fold_right (snap_step deeper fs0 sq) ([], false) l)) ->
            fst e <> [].
Proof.
  intros Hd e. induction l as [|[k n] l IHl]; cbn [fold_right]; [intros []|].
  unfold snap_step at 1. cbn [fst snd].
  destruct (strictly_below sq k) eqn:Hb; [|exact IHl].
  destruct (strictly_below_split sq k Hb) as (_ & Hrel).
  cbv zeta.
  destruct n as [c| |t].
  - cbn [fst]. intros [<- | Hin]; [exact Hrel | now apply IHl].
  - cbn [fst]. intros [<- | Hin]; [exact Hrel | now apply IHl].
  - destruct (chase MAXSYMLINKS fs0 k) as [q'|]; [|exact IHl].
    destruct (node_at fs0 q') as [[c| |t']|]; try exact IHl.
    + cbn [fst]. intros [<- | Hin]; [exact Hrel | now apply IHl].
    + destruct (deeper q') as [sub err] eqn:Es.
      cbn [fst]. intros [<- | Hin]; [exact Hrel|].
      apply in_app_or in Hin. destruct Hin as [Hin | Hin]; [|now apply IHl].
      apply in_map_iff in Hin. destruct Hin as (e' & <- & _). cbn [fst].
      intros Happ. apply app_eq_nil in Happ. now destruct Happ.
Qed.

Lemma snapshot_named (fuel : nat) :
  forall (fs : FS) (sq : loc) (e : loc * node),
    In e (fst (Shutil.snapshot fuel fs sq)) -> fst e <> [].
Proof.
  induction fuel as [|fuel IH]; intros fs sq e; [intros []|].
  rewrite snapshot_S. apply snap_step_named. intros q e'. apply IH.
Qed.

(** Without links below [sq] the snapshot is the entries below [sq]. *)
Lemma snap_step_link_free deeper (fs0 : FS) (sq : loc) (l : FS) :
  (forall k t, In (k, Link t) l -> strictly_below sq k = false) ->
  fold_right (snap_step deeper fs0 sq) ([], false) l
  = (map (fun e => (skipn (length sq) (fst e), snd e))
         (filter (fun e => strictly_below sq (fst e)) l),
     false).
Proof.
  induction l as [|[k n] l IH]; intros Hlf; cbn [fold_right filter map];
    [reflexivity|].
  assert (Hl : forall k0 t, In (k0, Link t) l -> strictly_below sq k0 = false).
  { intros k0 t Hin. apply (Hlf k0 t). now right. }
  rewrite (IH Hl). unfold snap_step. cbn [fst snd].
  destruct (strictly_below sq k) eqn:Hb; [|reflexivity].
  cbv zeta. cbn [fst snd map].
  destruct n as [c| |t]; try reflexivity.
  rewrite (Hlf k t (or_introl eq_refl)) in Hb. discriminate.
Qed.

Lemma snapshot_link_free (fuel : nat) (fs : FS) (sq : loc) :
  link_free fs sq ->
  Shutil.snapshot (S fuel) fs sq
  = (map (fun e => (skipn (length sq) (fst e), snd e))
         (filter (fun e => strictly_below sq (fst e)) fs),
     false).
Proof.
  intros H. rewrite snapshot_S. now apply snap_step_link_free.
Qed.

Lemma alookup_below (sq r : loc) (fs : FS) :
  r <> [] ->
  alookup r (map (fun e => (skipn (length sq) (fst e), snd e))
                 (filter (fun e => strictly_below sq (fst e)) fs))
  = alookup (sq ++ r) fs.
Proof.
  intros Hr. induction fs as [|[k n] fs IH]; cbn [filter map alookup fst snd];
    [reflexivity|].
  destruct (strictly_below sq k) eqn:Hb.
  - destruct (strictly_below_split sq k Hb) as (Hk & _).
    cbn [map alookup fst snd]. rewrite IH.
    rewrite Hk at 2. now rewrite loc_eqb_app.
  - rewrite IH. destruct (loc_eqb k (sq ++ r)) eqn:E; [|reflexivity].
    apply loc_eqb_eq in E. subst k.
    now rewrite (strictly_below_app sq r Hr) in Hb.
Qed.

Lemma copytree_inv (src dst : string) (w w' : World) :
  Shutil.copytree src dst w = (Ok tt, w') ->
  exists sq copied fsm,
    chase MAXSYMLINKS (files w) (locate (cwd w) src) = Some sq /\
    node_at (files w) sq = Some Dir /\
    is_prefix sq (locate (cwd w) dst) = false /\
    Shutil.snapshot Shutil.COPY_DEPTH (files w) sq = (copied, false) /\
    locate (cwd w) dst <> [] /\
    Os.mkdirs_from [] (locate (cwd w) dst) (files w) = (Ok tt, fsm) /\
    files w' = Shutil.graft (locate (cwd w) dst) copied fsm /\
    cwd w' = cwd w /\ stuck w' = stuck w /\
    trace w' = CCopytree src dst :: trace w.
Proof.
  unfold Shutil.copytree, bind, record. cbn [fst snd].
  unfold Os.stat, stat_at. cbn [files cwd].
  destruct (String.eqb src EmptyString); [discriminate|].
  destruct (chase MAXSYMLINKS (files w) (locate (cwd w) src)) as [sq|] eqn:Hch;
    [|discriminate].
  destruct (node_at (files w) sq) as [[c| |t]|] eqn:Hsq; try discriminate.
  destruct (is_prefix sq (locate (cwd w) dst)) eqn:Hpre; [discriminate|].
  destruct (Shutil.snapshot Shutil.COPY_DEPTH (files w) sq) as [copied err] eqn:Hsn.
  unfold Os.do_makedirs. cbn [files cwd stuck trace].
  destruct (String.eqb dst EmptyString); [discriminate|].
  destruct (locate (cwd w) dst) as [|x dq] eqn:Hdq; [discriminate|].
  destruct (Os.mkdirs_from [] (x :: dq) (files w)) as [[u|e] fsm] eqn:Hmk;
    [|discriminate].
  unfold with_files. cbn [files cwd stuck trace].
  destruct err; [discriminate|]. intros H. injection H as <-.
  exists sq, copied, fsm. destruct u. cbn [files cwd stuck trace].
  repeat split; auto. discriminate.
Qed.

Lemma node_at_graft_below (dq r : loc) (es fs : FS) :
  r <> [] ->
  node_at (Shutil.graft dq es fs) (dq ++ r)
  = match alookup r es with
    | Some n => Some n
    | None => node_at fs (dq ++ r)
    end.
Proof.
  intros Hr. unfold Shutil.graft.
  assert (Hne : dq ++ r <> []) by (destruct dq, r; easy).
  destruct (dq ++ r) as [|x k] eqn:E; [contradiction|]. cbn [node_at].
  rewrite alookup_app, <- E, alookup_rekey_below. reflexivity.
Qed.

Lemma node_at_graft_outside (dq q : loc) (es fs : FS) :
  is_prefix dq q = false ->
  node_at (Shutil.graft dq es fs) q = node_at fs q.
Proof.
  intros H. unfold Shutil.graft. destruct q as [|x k]; [reflexivity|].
  cbn [node_at]. now rewrite alookup_app, alookup_rekey_outside.
Qed.

Lemma node_at_graft_root (dq : loc) (es fs : FS) :
  dq <> [] -> (forall e, In e es -> fst e <> []) ->
  node_at (Shutil.graft dq es fs) dq = node_at fs dq.
Proof.
  intros Hd He. unfold Shutil.graft. destruct dq as [|x k]; [contradiction|].
  cbn [node_at]. rewrite alookup_app.
  rewrite <- (app_nil_r (x :: k)) at 1.
  rewrite alookup_rekey_below, alookup_absent; [reflexivity|].
  exact He.
Qed.

Lemma survives_mono (w : World) (a b : loc) :
  is_prefix a b = true ->
  Shutil.survives w b = true -> Shutil.survives w a = true.
Proof.
  intros Hp. unfold Shutil.survives. rewrite !existsb_exists.
  intros (e & Hin & He). exists e. split; [exact Hin|].
  apply andb_true_iff in He. destruct He as (Hb & Hs).
  now rewrite (is_prefix_trans a b (fst e) Hp Hb), Hs.
Qed.

Lemma join_plain_nonempty (p n : string) :
  plain n = true -> String.eqb (PosixPath.join p n) EmptyString = false.
Proof.
  intros Hn. apply String.eqb_neq. unfold PosixPath.join.
  assert (Hne : n <> EmptyString).
  { intros ->. discriminate. }
  rewrite (plain_not_abs n Hn).
  destruct (String.eqb p EmptyString || PyStr.ends_with_char PosixPath.sep p).
  - destruct p; cbn; [exact Hne | discriminate].
  - destruct p; cbn; discriminate.
Qed.

(** ** Replacing the ports directory *)

Lemma isdir_not_link (p : string) (w : World) :
  Os.islink p w = false -> Os.isdir p w = true -> Os.lstat w p = Some Dir.
Proof.
  unfold Os.islink, Os.isdir, Os.stat, Os.lstat, stat_at.
  destruct (String.eqb p EmptyString); [discriminate|].
  intros Hl. rewrite chase_real.
  - now destruct (node_at (files w) (locate (cwd w) p)) as [[c| |t]|].
  - intros t Ht. now rewrite Ht in Hl.
Qed.

Lemma islink_lstat (p : string) (w : World) :
  Os.islink p w = true -> exists t, Os.lstat w p = Some (Link t).
Proof.
  unfold Os.islink. destruct (Os.lstat w p) as [[c| |t]|]; try discriminate.
  intros _. now exists t.
Qed.

Lemma shrinks_drop_loc (q : loc) (fs : FS) : shrinks (drop_loc q fs) fs.
Proof.
  intros q' n. destruct q' as [|x q']; [trivial|].
  rewrite node_at_drop_loc by discriminate.
  destruct (loc_eqb (x :: q') q); [discriminate | trivial].
Qed.

(** The world in which [copytree] runs, and what has happened to it since
    the replacement began. *)
Lemma before_copy (src pp : string) (wa w' : World) :
  String.eqb pp EmptyString = false ->
  replace_dir src pp wa = (Ok tt, w') ->
  exists wc,
    Shutil.copytree src pp wc = (Ok tt, w') /\
    cwd wc = cwd wa /\
    (forall q, is_prefix (locate (cwd wa) pp) q = false ->
               node_at (files wc) q = node_at (files wa) q) /\
    (forall e, In e (files wc) -> In e (files wa)) /\
    shrinks (files wc) (files wa) /\
    (tree (files wa) -> node_at (files wc) (locate (cwd wa) pp) = None ->
     forall r, r <> [] -> node_at (files wc) (locate (cwd wa) pp ++ r) = None) /\
    trace wc
    = (if Os.islink pp wa then [CUnlink pp]
       else if Os.isdir pp wa then [CRmtree pp] else []) ++ trace wa.
Proof.
  intros Hpp. set (dq := locate (cwd wa) pp).
  unfold replace_dir. unfold bind at 1. unfold ask at 1.
  destruct (Os.islink pp wa) eqn:Hl; cbn [when].
  - (* a link: it is unlinked, and nothing is left to remove *)
    destruct (islink_lstat pp wa Hl) as (t & Hlt).
    unfold bind at 1.
    destruct (Os.unlink pp wa) as [[[]|e] w1] eqn:Hu; [|discriminate].
    destruct (unlink_inv pp wa w1 Hu) as (Hf & Hc & _ & Ht). fold dq in Hf.
    assert (Hnode : node_at (files wa) dq = Some (Link t)).
    { unfold Os.lstat in Hlt. now rewrite Hpp in Hlt. }
    assert (Hdq : dq <> []).
    { intros E. rewrite E in Hnode. discriminate. }
    assert (Hgone : node_at (files w1) dq = None).
    { rewrite Hf, node_at_drop_loc, loc_eqb_refl by exact Hdq. reflexivity. }
    assert (Hd : Os.isdir pp w1 = false).
    { unfold Os.isdir, Os.stat, stat_at. rewrite Hpp, Hc. fold dq.
      rewrite chase_real; [now rewrite Hgone | intros t'; congruence]. }
    unfold bind at 1. unfold ask at 1. rewrite Hd. cbn [when].
    unfold bind at 1. unfold ret at 1. intros Hcp.
    exists w1. split; [exact Hcp|]. split; [exact Hc|]. split.
    { intros q Hq. rewrite Hf. destruct q as [|x q]; [reflexivity|].
      rewrite node_at_drop_loc by discriminate.
      destruct (loc_eqb (x :: q) dq) eqn:E; [|reflexivity].
      apply loc_eqb_eq in E. rewrite E, is_prefix_refl in Hq. discriminate. }
    split.
    { intros e He. rewrite Hf in He. unfold drop_loc in He.
      now apply filter_In in He. }
    split; [rewrite Hf; apply shrinks_drop_loc|]. split; [|exact Ht].
    intros Htree _ r Hr. rewrite Hf, node_at_drop_loc.
    2:{ destruct dq, r; easy. }
    destruct (loc_eqb (dq ++ r) dq) eqn:E; [reflexivity|].
    apply tree_below_absent; auto. congruence.
  - unfold bind at 1. unfold ret at 1.
    unfold bind at 1. unfold ask at 1.
    destruct (Os.isdir pp wa) eqn:Hd; cbn [when].
    + (* a real directory: it is removed as far as it can be *)
      pose proof (isdir_not_link pp wa Hl Hd) as Hdir.
      destruct (rmtree_inv pp wa) as (Hok & Hc & _ & Ht & Hf).
      rewrite Hdir in Hf. fold dq in Hf.
      unfold bind at 1.
      destruct (Shutil.rmtree_ignore_errors pp wa) as [[u|e] wc] eqn:Hrm;
        [|discriminate].
      cbn [snd] in Hc, Ht, Hf. intros Hcp.
      exists wc. split; [exact Hcp|]. split; [exact Hc|]. split.
      { intros q Hq. rewrite Hf. destruct q as [|x q]; [reflexivity|].
        rewrite node_at_after_rmtree by discriminate. now rewrite Hq. }
      split.
      { intros e He. rewrite Hf in He. unfold Shutil.after_rmtree in He.
        now apply filter_In in He. }
      split; [rewrite Hf; apply shrinks_after_rmtree|]. split; [|exact Ht].
      intros _ Hnone r Hr. rewrite Hf in *.
      assert (Hdq : dq <> []).
      { intros E. rewrite E in Hnone. discriminate. }
      rewrite node_at_after_rmtree in Hnone by exact Hdq.
      rewrite is_prefix_refl in Hnone. cbn [andb] in Hnone.
      assert (Hnode : node_at (files wa) dq = Some Dir).
      { unfold Os.lstat in Hdir. now rewrite Hpp in Hdir. }
      destruct (Shutil.survives wa dq) eqn:Hs;
        [cbn in Hnone; congruence|].
      rewrite node_at_after_rmtree by (destruct dq, r; easy).
      rewrite is_prefix_app.
      destruct (Shutil.survives wa (dq ++ r)) eqn:Hs'; [|reflexivity].
      rewrite (survives_mono wa dq (dq ++ r) (is_prefix_app dq r) Hs') in Hs.
      discriminate.
    + (* neither: nothing is removed *)
      unfold bind at 1. unfold ret at 1. intros Hcp.
      exists wa. split; [exact Hcp|]. split; [reflexivity|].
      split; [reflexivity|]. split; [trivial|].
      split; [apply shrinks_refl|]. split; [|reflexivity].
      intros Htree _ r Hr. apply tree_below_absent; auto.
      intros Hnode. rewrite lstat_dir_isdir in Hd; [discriminate|].
      unfold Os.lstat. now rewrite Hpp.
Qed.

Lemma prefix_comparable (a b c : loc) :
  is_prefix a c = true -> is_prefix b c = true ->
  is_prefix a b = true \/ is_prefix b a = true.
Proof.
  revert b c. induction a as [|x a IH]; intros b c; [now left|].
  destruct b as [|y b]; [now right|].
  destruct c as [|z c]; [discriminate|]. cbn.
  intros Ha Hb. apply andb_true_iff in Ha. apply andb_true_iff in Hb.
  destruct Ha as (Hx & Ha). destruct Hb as (Hy & Hb).
  apply String.eqb_eq in Hx. apply String.eqb_eq in Hy. subst.
  rewrite String.eqb_refl. cbn. eapply IH; eauto.
Qed.

Lemma is_prefix_longer (a r : loc) : r <> [] -> is_prefix (a ++ r) a = false.
Proof.
  intros Hr. induction a as [|x a IH]; cbn.
  - destruct r; [contradiction | reflexivity].
  - now rewrite String.eqb_refl, IH.
Qed.

Lemma replace_dir_ok (src pp : string) (wa w' : World) :
  String.eqb pp EmptyString = false ->
  replace_dir src pp wa = (Ok tt, w') ->
  tree (files wa) ->
  let dq := locate (cwd wa) pp in
  exists sq,
    chase MAXSYMLINKS (files wa) (locate (cwd wa) src) = Some sq /\
    node_at (files wa) sq = Some Dir /\
    node_at (files w') dq = Some Dir /\
    (link_free (files wa) sq ->
     forall r, r <> [] ->
       node_at (files w') (dq ++ r) = node_at (files wa) (sq ++ r)) /\
    (forall q n, is_prefix dq q = false ->
       node_at (files wa) q = Some n -> node_at (files w') q = Some n) /\
    added wa w'
    = CCopytree src pp
        :: (if Os.islink pp wa then [CUnlink pp]
            else if Os.isdir pp wa then [CRmtree pp] else []).
Proof.
  intros Hpp Hrun Htree dq.
  destruct (before_copy src pp wa w' Hpp Hrun)
    as (wc & Hcp & Hc & Hframe & Hin & Hsh & Hbelow & Htr).
  fold dq in Hframe, Hbelow.
  destruct (copytree_inv src pp wc w' Hcp)
    as (sq & copied & fsm & Hch & Hsq & Hpre & Hsn & Hdq & Hmk & Hf & _ & _ & Ht).
  rewrite Hc in Hch, Hpre, Hdq, Hmk, Hf. fold dq in Hpre, Hdq, Hmk, Hf.
  destruct (mkdirs_from_ok dq [] (files wc) fsm Hdq Hmk)
    as (Hnone & Hdir & Hkeep & Houter).
  cbn [app] in Hnone, Hdir, Houter.
  specialize (Hbelow Htree Hnone).
  exists sq.
  split; [exact (chase_shrinks _ _ Hsh _ _ _ _ Hch Hsq)|].
  split; [now apply Hsh|]. split.
  { rewrite Hf, node_at_graft_root; [exact Hdir | exact Hdq |].
    intros e He. apply (snapshot_named Shutil.COPY_DEPTH (files wc) sq).
    now rewrite Hsn. }
  split.
  { intros Hlf r Hr.
    assert (Hlfc : link_free (files wc) sq).
    { intros k t Hk. apply (Hlf k t). now apply Hin. }
    unfold Shutil.COPY_DEPTH in Hsn.
    rewrite (snapshot_link_free _ _ _ Hlfc) in Hsn. injection Hsn as <-.
    rewrite Hf, node_at_graft_below, alookup_below by exact Hr.
    rewrite Houter by (now apply is_prefix_longer).
    rewrite (Hbelow r Hr).
    assert (Hsr : sq ++ r <> []) by (destruct sq, r; easy).
    assert (Hat : alookup (sq ++ r) (files wc) = node_at (files wc) (sq ++ r)).
    { destruct (sq ++ r); [contradiction | reflexivity]. }
    rewrite Hat.
    assert (Hout : is_prefix dq (sq ++ r) = false).
    { destruct (is_prefix dq (sq ++ r)) eqn:E; [|reflexivity]. exfalso.
      destruct (prefix_comparable dq sq (sq ++ r) E (is_prefix_app sq r))
        as [Hds | Hsd]; [|congruence].
      rewrite (is_prefix_split dq sq Hds) in Hsq.
      destruct (skipn (length dq) sq) as [|y s] eqn:Es.
      - rewrite app_nil_r in Hsq. congruence.
      - rewrite Hbelow in Hsq; [discriminate | discriminate]. }
    rewrite (Hframe _ Hout).
    now destruct (node_at (files wa) (sq ++ r)). }
  split.
  { intros q n Hq Hn. rewrite Hf, node_at_graft_outside by exact Hq.
    apply Hkeep. now rewrite Hframe. }
  apply added_app. now rewrite Ht, Htr.
Qed.

Lemma bootstrap_ok_stages (host : Host) (self : VcpkgRepo) (w w1 w' : World) :
  upToDate self w = (Ok false, w1) ->
  bootstrap host self w = (Ok tt, w') ->
  replace_dir (sourcePortsPath self) (PosixPath.join (path self) "ports")
              (acquired host self w)
  = (Ok tt, w').
Proof.
  intros Hup. rewrite (bootstrap_stale host self w w1 Hup).
  unfold acquired. rewrite Hup. cbn [snd]. cbv zeta.
  unfold bind at 1.
  destruct (when _ (download host (base_archive self)) _) as [[u|e] wa];
    [|discriminate].
  cbn [snd]. trivial.
Qed.

(** C5: in a run of [bootstrap] on an installation that is not up to date
    and that returns, the ports directory has been replaced by a copy of the
    overlay: a symbolic link at that path was unlinked, or else a real
    directory there was removed recursively, then the overlay was copied;
    afterwards the path is a real directory, every entry outside it is as it
    was (the target of the link included), and below it stand exactly the
    entries of the overlay (links in the overlay are copied as what they lead
    to, so the equality is stated for an overlay without links). *)
Theorem C5_ports_replaced (host : Host) (self : VcpkgRepo) (w w' : World) :
  fst (upToDate self w) = Ok false ->
  bootstrap host self w = (Ok tt, w') ->
  let wa := acquired host self w in
  tree (files wa) ->
  let portsPath := PosixPath.join (path self) "ports" in
  let ports := locate (cwd wa) (path self) ++ ["ports"] in
  exists overlay,
    chase MAXSYMLINKS (files wa) (locate (cwd wa) (sourcePortsPath self))
    = Some overlay /\
    node_at (files wa) overlay = Some Dir /\
    node_at (files w') ports = Some Dir /\
    (link_free (files wa) overlay ->
     forall r, r <> [] ->
       node_at (files w') (ports ++ r) = node_at (files wa) (overlay ++ r)) /\
    (forall q n, is_prefix ports q = false ->
       node_at (files wa) q = Some n -> node_at (files w') q = Some n) /\
    added wa w'
    = CCopytree (sourcePortsPath self) portsPath
        :: (if Os.islink portsPath wa then [CUnlink portsPath]
            else if Os.isdir portsPath wa then [CRmtree portsPath] else []).
Proof.
  intros Hup Hrun wa Htree portsPath ports.
  destruct (upToDate self w) as [r w1] eqn:Hu. cbn in Hup. subst r.
  pose proof (bootstrap_ok_stages host self w w1 w' Hu Hrun) as Hrep.
  fold wa portsPath in Hrep.
  assert (Hpp : String.eqb portsPath EmptyString = false)
    by (now apply join_plain_nonempty).
  destruct (replace_dir_ok _ _ _ _ Hpp Hrep Htree) as (sq & H).
  unfold portsPath in H at 1 2 3.
  rewrite locate_join in H by reflexivity.
  exists sq. exact H.
Qed.

(** A symbolic link at the ports path, when the system lets it go: the link
    itself is unlinked (only that entry leaves the table, what it leads to
    stays), nothing is left to remove, and the overlay is copied into the
    world without the link. *)
Lemma replace_dir_link (src pp t : string) (wa : World) :
  Os.lstat wa pp = Some (Link t) ->
  stuck wa (locate (cwd wa) pp) = false ->
  replace_dir src pp wa
  = Shutil.copytree src pp
      (mkWorld (drop_loc (locate (cwd wa) pp) (files wa)) (cwd wa) (stuck wa)
               (CUnlink pp :: trace wa)).
Proof.
  intros Hl Hst. unfold replace_dir.
  unfold bind at 1. unfold ask at 1.
  assert (Hlink : Os.islink pp wa = true) by (unfold Os.islink; now rewrite Hl).
  rewrite Hlink. cbn [when]. unfold bind at 1.
  assert (Hu : Os.unlink pp wa
               = (Ok tt,
                  mkWorld (drop_loc (locate (cwd wa) pp) (files wa)) (cwd wa)
                          (stuck wa) (CUnlink pp :: trace wa))).
  { unfold Os.unlink, bind, record. cbn [fst snd]. unfold Os.lstat in *.
    cbn [files cwd stuck trace].
    destruct (String.eqb pp EmptyString); [discriminate|].
    rewrite Hl, Hst. reflexivity. }
  rewrite Hu. unfold bind at 1. unfold ask at 1.
  set (wc := mkWorld _ _ _ _).
  assert (Hq : locate (cwd wa) pp <> []).
  { intros E. unfold Os.lstat in Hl.
    destruct (String.eqb pp EmptyString); [discriminate|].
    rewrite E in Hl. discriminate. }
  assert (Hd : Os.isdir pp wc = false).
  { unfold Os.isdir, Os.stat, stat_at. subst wc. cbn [files cwd].
    destruct (String.eqb pp EmptyString); [reflexivity|].
    assert (Hn : node_at (drop_loc (locate (cwd wa) pp) (files wa))
                         (locate (cwd wa) pp) = None).
    { rewrite node_at_drop_loc by exact Hq. now rewrite loc_eqb_refl. }
    rewrite chase_real by (intros t'; congruence). now rewrite Hn. }
  rewrite Hd. cbn [when]. unfold bind at 1. reflexivity.
Qed.

Lemma C5_ports_witness :
  (fst (upToDate Demo.repo Demo.world1) = Ok false /\
   bootstrap Demo.host Demo.repo Demo.world1 = (Ok tt, Demo.world2) /\
   node_at (files Demo.world2)
           ["tmp"; "hifi"; "vcpkg"; "abc123de"; "ports"; "zlib"; "portfile.cmake"]
   = Some (File "vcpkg_from_github()") /\
   node_at (files Demo.world2) ["tmp"; "hifi"; "vcpkg"; "abc123de"; "ports"; "boost"]
   = None) /\
  (Os.lstat (acquired Scenario.link_host Demo.repo Scenario.shared)
            "/tmp/hifi/vcpkg/abc123de/ports"
   = Some (Link "/shared/ports") /\
   exists w',
     bootstrap Scenario.link_host Demo.repo Scenario.shared = (Ok tt, w') /\
     added (acquired Scenario.link_host Demo.repo Scenario.shared) w'
     = [ CCopytree "/src/ports" "/tmp/hifi/vcpkg/abc123de/ports";
         CUnlink "/tmp/hifi/vcpkg/abc123de/ports" ] /\
     node_at (files w') ["tmp"; "hifi"; "vcpkg"; "abc123de"; "ports"] = Some Dir /\
     node_at (files w')
             ["tmp"; "hifi"; "vcpkg"; "abc123de"; "ports"; "zlib"; "portfile.cmake"]
     = Some (File "vcpkg_from_github()") /\
     node_at (files w') ["tmp"; "hifi"; "vcpkg"; "abc123de"; "ports"; "openssl"]
     = None /\
     node_at (files w') ["shared"; "ports"] = Some Dir /\
     node_at (files w') ["shared"; "ports"; "openssl"] = Some Dir).
Proof.
  split.
  - assert (Hup : fst (upToDate Demo.repo Demo.world1) = Ok false)
      by (vm_compute; reflexivity).
    assert (Hrun : bootstrap Demo.host Demo.repo Demo.world1 = (Ok tt, Demo.world2))
      by (vm_compute; reflexivity).
    assert (Htree : tree (files (acquired Demo.host Demo.repo Demo.world1)))
      by (apply is_tree_sound; vm_compute; reflexivity).
    split; [exact Hup|]. split; [exact Hrun|].
    destruct (C5_ports_replaced Demo.host Demo.repo Demo.world1 Demo.world2
                Hup Hrun Htree) as (ov & Hch & _ & _ & Hcopy & _).
    assert (Hov : ov = ["src"; "ports"]).
    { vm_compute in Hch. now injection Hch as <-. }
    subst ov.
    assert (Hlf : link_free (files (acquired Demo.host Demo.repo Demo.world1))
                            ["src"; "ports"]).
    { intros k t Hin. vm_compute in Hin.
      repeat (destruct Hin as [Hin | Hin]; [discriminate|]). destruct Hin. }
    split.
    + refine (eq_trans (Hcopy Hlf ["zlib"; "portfile.cmake"] _) _);
        [discriminate | vm_compute; reflexivity].
    + refine (eq_trans (Hcopy Hlf ["boost"] _) _);
        [discriminate | vm_compute; reflexivity].
  - split; [vm_compute; reflexivity|].
    set (wa := acquired Scenario.link_host Demo.repo Scenario.shared).
    set (w' := snd (bootstrap Scenario.link_host Demo.repo Scenario.shared)).
    assert (Hup : fst (upToDate Demo.repo Scenario.shared) = Ok false)
      by (vm_compute; reflexivity).
    assert (Hrun : bootstrap Scenario.link_host Demo.repo Scenario.shared
                   = (Ok tt, w'))
      by (vm_compute; reflexivity).
    assert (Htree : tree (files wa))
      by (apply is_tree_sound; vm_compute; reflexivity).
    exists w'. split; [exact Hrun|].
    destruct (C5_ports_replaced Scenario.link_host Demo.repo Scenario.shared w'
                Hup Hrun Htree) as (ov & Hch & _ & Hdir & Hcopy & Hkeep & Hadd).
    fold wa in Hch, Hdir, Hcopy, Hkeep, Hadd.
    assert (Hov : ov = ["src"; "ports"]).
    { vm_compute in Hch. congruence. }
    subst ov.
    assert (Hlf : link_free (files wa) ["src"; "ports"]).
    { intros k t Hin. vm_compute in Hin.
      repeat (destruct Hin as [Hin | Hin];
              [first [discriminate Hin
                     | injection Hin as <- <-; vm_compute; reflexivity]|]).
      destruct Hin. }
    split; [rewrite Hadd; vm_compute; reflexivity|]. split; [exact Hdir|]. split.
    { refine (eq_trans (Hcopy Hlf ["zlib"; "portfile.cmake"] _) _);
        [discriminate | vm_compute; reflexivity]. }
    split.
    { refine (eq_trans (Hcopy Hlf ["openssl"] _) _);
        [discriminate | vm_compute; reflexivity]. }
    split; apply Hkeep; vm_compute; reflexivity.
Defined.

(** ** [writeConfig] *)

Lemma py_format_plain (s : string) (xs : list string) :
  no_brace s = true -> py_format s xs = Ok s.
Proof.
  unfold no_brace. induction s as [|c s IH]; [reflexivity|].
  cbn [PyStr.mem_char py_format]. intros H.
  apply andb_true_iff in H. destruct H as (H1 & H2).
  apply negb_true_iff, orb_false_iff in H1.
  apply negb_true_iff, orb_false_iff in H2.
  destruct H1 as (H1 & H1'). destruct H2 as (H2 & H2').
  rewrite H1, H2, IH; [reflexivity|]. now rewrite H1', H2'.
Qed.

Lemma mem_char_app (c : ascii) (a b : string) :
  PyStr.mem_char c (a ++ b) = PyStr.mem_char c a || PyStr.mem_char c b.
Proof.
  induction a as [|d a IH]; cbn; [reflexivity|].
  now rewrite IH, orb_assoc.
Qed.

Lemma no_brace_app (a b : string) :
  no_brace (a ++ b) = no_brace a && no_brace b.
Proof.
  unfold no_brace. rewrite !mem_char_app.
  destruct (PyStr.mem_char "{" a), (PyStr.mem_char "{" b),
    (PyStr.mem_char "}" a), (PyStr.mem_char "}" b); reflexivity.
Qed.

Lemma no_brace_android_clauses (a b : string) :
  no_brace a = true -> no_brace b = true ->
  no_brace (android_clauses a b) = true.
Proof.
  intros Ha Hb. unfold android_clauses.
  repeat (rewrite no_brace_app; apply andb_true_iff; split);
    try reflexivity; assumption.
Qed.

(** The template filled with its four paths, whatever follows it. *)
Lemma py_format_template (a b c d clauses : string) :
  py_format (CMAKE_TEMPLATE ++ clauses) [a; b; c; d]
  = match py_format clauses [] with
    | Ok r =>
        Ok (LF ++ "get_filename_component(CMAKE_TOOLCHAIN_FILE " ++ DQ ++ a ++ DQ
              ++ " ABSOLUTE CACHE)" ++ LF
              ++ "get_filename_component(CMAKE_TOOLCHAIN_FILE_UNCACHED " ++ DQ ++ b
              ++ DQ ++ " ABSOLUTE)" ++ LF
              ++ "set(VCPKG_INSTALL_ROOT " ++ DQ ++ c ++ DQ ++ ")" ++ LF
              ++ "set(VCPKG_TOOLS_DIR " ++ DQ ++ d ++ DQ ++ ")" ++ LF
              ++ r)%string
    | Raise e => Raise e
    end.
Proof.
  cbn. destruct (py_format clauses []) as [r|e]; cbn; reflexivity.
Qed.

Lemma no_backslash_after_replace (s : string) :
  PyStr.mem_char "\" (PyStr.replace_char "\" "/" s) = false.
Proof.
  induction s as [|c s IH]; cbn; [reflexivity|].
  rewrite IH, orb_false_r.
  destruct (Ascii.eqb c "\") eqn:E; [reflexivity | exact E].
Qed.

Lemma isabs_join (p b : string) :
  PosixPath.isabs p = true -> PosixPath.isabs (PosixPath.join p b) = true.
Proof.
  unfold PosixPath.join, PosixPath.isabs. intros Hp.
  destruct (PyStr.starts_with_char PosixPath.sep b) eqn:Hb; [exact Hb|].
  destruct p as [|c p]; [discriminate|].
  destruct (_ || _); exact Hp.
Qed.

Lemma isabs_joins (p : string) (bs : list string) :
  PosixPath.isabs p = true -> PosixPath.isabs (PosixPath.joins p bs) = true.
Proof.
  unfold PosixPath.joins. revert p.
  induction bs as [|b bs IH]; intros p Hp; cbn; [exact Hp|].
  apply IH. now apply isabs_join.
Qed.

Lemma realpath_ext (p : string) (w w' : World) :
  files w' = files w -> cwd w' = cwd w -> Os.realpath p w' = Os.realpath p w.
Proof. intros Hf Hc. unfold Os.realpath. now rewrite Hf, Hc. Qed.

Lemma cmakeConfig_non_android (self : VcpkgRepo) (w : World) :
  android (args self) = false ->
  cmakeConfig self w
  = (Ok (PyStr.replace_char "\" "/"
           (config_text (PosixPath.join (path self) "scripts/buildsystems/vcpkg.cmake")
                        (PosixPath.joins (path self) ["installed"; triplet self])
                        (PosixPath.joins (path self)
                                         ["installed"; hostTriplet self; "tools"])
                        CMAKE_TEMPLATE_NON_ANDROID)),
     w).
Proof.
  intros Ha. unfold cmakeConfig. rewrite Ha. cbn [negb].
  unfold bind, ret, format. rewrite py_format_template.
  rewrite (py_format_plain CMAKE_TEMPLATE_NON_ANDROID []) by reflexivity.
  reflexivity.
Qed.

Lemma cmakeConfig_android (self : VcpkgRepo) (w : World) (pkg : string) :
  android (args self) = true ->
  androidPackagePath self = Some pkg ->
  let precompiled := Os.realpath pkg w in
  let qtCmakePrefix := Os.realpath (PosixPath.join precompiled "qt/lib/cmake") w in
  no_brace precompiled = true -> no_brace qtCmakePrefix = true ->
  cmakeConfig self w
  = (Ok (PyStr.replace_char "\" "/"
           (config_text (PosixPath.join (path self) "scripts/buildsystems/vcpkg.cmake")
                        (PosixPath.joins (path self) ["installed"; triplet self])
                        (PosixPath.joins (path self)
                                         ["installed"; hostTriplet self; "tools"])
                        (android_clauses precompiled qtCmakePrefix))),
     w).
Proof.
  intros Ha Hp pre qt Hpre Hqt. unfold cmakeConfig. rewrite Ha, Hp. cbn [negb].
  unfold bind, ret, format, ask. fold pre. fold qt.
  assert (H1 : py_format ("set(HIFI_ANDROID_PRECOMPILED " ++ DQ ++ "{}" ++ DQ ++ ")" ++ LF)
                         [pre]
               = Ok ("set(HIFI_ANDROID_PRECOMPILED " ++ DQ ++ pre ++ DQ ++ ")" ++ LF)%string).
  { cbn. reflexivity. }
  assert (H2 : py_format ("set(QT_CMAKE_PREFIX_PATH " ++ DQ ++ "{}" ++ DQ ++ ")" ++ LF)
                         [qt]
               = Ok ("set(QT_CMAKE_PREFIX_PATH " ++ DQ ++ qt ++ DQ ++ ")" ++ LF)%string).
  { cbn. reflexivity. }
  rewrite H1, H2. rewrite py_format_template.
  assert (Hc : (("set(HIFI_ANDROID_PRECOMPILED " ++ DQ ++ pre ++ DQ ++ ")" ++ LF)
                  ++ "set(QT_CMAKE_PREFIX_PATH " ++ DQ ++ qt ++ DQ ++ ")" ++ LF)%string
               = android_clauses pre qt).
  { unfold android_clauses. now rewrite !append_assoc. }
  rewrite Hc, (py_format_plain _ [] (no_brace_android_clauses pre qt Hpre Hqt)).
  reflexivity.
Qed.

Lemma cmakeConfig_pure (self : VcpkgRepo) (w w' : World) (text : string) :
  cmakeConfig self w = (Ok text, w') ->
  w' = w /\ exists raw, text = PyStr.replace_char "\" "/" raw.
Proof.
  unfold cmakeConfig. intros H.
  peel H as tpl w1 Htpl. peel H as raw w2 Hraw.
  unfold ret in H. injection H as <- <-.
  unfold format in Hraw. injection Hraw as _ <-.
  split; [|now exists raw].
  destruct (negb (android (args self))); [now injection Htpl as _ <-|].
  destruct (androidPackagePath self) as [pkg|]; [|discriminate].
  peel Htpl as pre v1 Hpre. peel Htpl as qt v2 Hqt.
  peel Htpl as l1 v3 Hl1. peel Htpl as l2 v4 Hl2.
  unfold ask in *. unfold format in *. unfold ret in *.
  injection Hpre as _ <-. injection Hqt as _ <-.
  injection Hl1 as _ <-. injection Hl2 as _ <-. now injection Htpl as _ <-.
Qed.

Lemma cmakeConfig_ext (self : VcpkgRepo) (w w' : World) :
  files w' = files w -> cwd w' = cwd w ->
  fst (cmakeConfig self w') = fst (cmakeConfig self w).
Proof.
  intros Hf Hc. unfold cmakeConfig.
  destruct (negb (android (args self))).
  - unfold bind, ret, format.
    destruct (py_format _ _); reflexivity.
  - destruct (androidPackagePath self) as [pkg|]; [|reflexivity].
    unfold bind, ret, format, ask.
    rewrite (realpath_ext pkg w w' Hf Hc).
    rewrite (realpath_ext _ w w' Hf Hc).
    repeat (destruct (py_format _ _); [|reflexivity]). reflexivity.
Qed.

(** C9 (as amended): [writeConfig] writes to the configuration path the
    template filled with the toolchain script path (twice), the install root
    and the tools directory, each formed by joining the installation root
    with fixed names, then every backslash turned into a slash; the paths are
    absolute when the installation root is; the output is a function of its
    inputs; a build that is not for android ends with the toolchain-moved
    guard, an android build (with paths free of braces) with the two
    precompiled-path variables. *)
Theorem C9_writeConfig (self : VcpkgRepo) (w : World) :
  let script := PosixPath.join (path self) "scripts/buildsystems/vcpkg.cmake" in
  let install := PosixPath.joins (path self) ["installed"; triplet self] in
  let tools := PosixPath.joins (path self) ["installed"; hostTriplet self; "tools"] in
  (android (args self) = false ->
   cmakeConfig self w
   = (Ok (PyStr.replace_char "\" "/"
            (config_text script install tools CMAKE_TEMPLATE_NON_ANDROID)), w)) /\
  (android (args self) = true ->
   forall pkg, androidPackagePath self = Some pkg ->
     let precompiled := Os.realpath pkg w in
     let qtCmakePrefix :=
       Os.realpath (PosixPath.join precompiled "qt/lib/cmake") w in
     no_brace precompiled = true -> no_brace qtCmakePrefix = true ->
     cmakeConfig self w
     = (Ok (PyStr.replace_char "\" "/"
              (config_text script install tools
                           (android_clauses precompiled qtCmakePrefix))), w)) /\
  (forall text w', cmakeConfig self w = (Ok text, w') ->
                   PyStr.mem_char "\" text = false) /\
  (forall w2, files w2 = files w -> cwd w2 = cwd w ->
              fst (cmakeConfig self w2) = fst (cmakeConfig self w)) /\
  (PosixPath.isabs (path self) = true -> config_paths_absolute self) /\
  (forall w', writeConfig self w = (Ok tt, w') ->
     exists text, fst (cmakeConfig self w) = Ok text /\
                  stored (configFilePath self) w' = Some text).
Proof.
  intros script install tools.
  split; [apply cmakeConfig_non_android|].
  split; [intros Ha pkg Hp; now apply cmakeConfig_android|].
  split.
  { intros text w' H. destruct (cmakeConfig_pure self w w' text H) as (_ & raw & ->).
    apply no_backslash_after_replace. }
  split; [intros w2; apply cmakeConfig_ext|].
  split.
  { intros Habs. unfold config_paths_absolute, config_paths.
    repeat constructor;
      first [now apply isabs_join | now apply isabs_joins]. }
  intros w' H. unfold writeConfig in H.
  apply bind_Ok_inv in H. destruct H as (text & w1 & Hc & Hw).
  exists text. rewrite Hc. split; [reflexivity|].
  exact (stored_after_write _ _ _ _ Hw).
Qed.

Lemma demo_rel_built : built Demo.host Demo.repo_rel.
Proof.
  exists Demo.arguments_rel, Demo.home,
    (snd (init Demo.host Demo.arguments_rel Demo.home)).
  vm_compute. reflexivity.
Qed.

(** C9 as stated fails on the word absolute: with a root given relative to
    the working directory the constructor succeeds and the paths written are
    relative. *)
Lemma C9_relative_root_not_absolute :
  fst (init Demo.host Demo.arguments_rel Demo.home) = Ok Demo.repo_rel /\
  ~ config_paths_absolute Demo.repo_rel /\
  fst (cmakeConfig Demo.repo_rel Demo.home)
  = Ok (config_text "rel/vcpkg/scripts/buildsystems/vcpkg.cmake"
                    "rel/vcpkg/installed/x64-linux"
                    "rel/vcpkg/installed/x64-linux/tools"
                    CMAKE_TEMPLATE_NON_ANDROID).
Proof.
  split; [vm_compute; reflexivity|]. split.
  - intros H. inversion H as [|p l Hp _]. vm_compute in Hp. discriminate.
  - vm_compute. reflexivity.
Qed.

Lemma C9_writeConfig_witness :
  fst (cmakeConfig Demo.repo Demo.world3)
  = Ok (config_text "/tmp/hifi/vcpkg/abc123de/scripts/buildsystems/vcpkg.cmake"
                    "/tmp/hifi/vcpkg/abc123de/installed/x64-linux"
                    "/tmp/hifi/vcpkg/abc123de/installed/x64-linux/tools"
                    CMAKE_TEMPLATE_NON_ANDROID) /\
  config_paths_absolute Demo.repo.
Proof.
  destruct (C9_writeConfig Demo.repo Demo.world3) as (Hna & _ & _ & _ & Habs & _).
  split.
  - rewrite (Hna eq_refl). vm_compute. reflexivity.
  - apply Habs. reflexivity.
Defined.

(** ** The lock file *)

Lemma rsplit_plain (n : string) :
  PyStr.mem_char PosixPath.sep n = false ->
  PosixPath.rsplit n = (EmptyString, n).
Proof.
  induction n as [|c n IH]; cbn; [reflexivity|]. intros H.
  apply orb_false_iff in H. destruct H as (Hc & Hn).
  rewrite (IH Hn). cbn. now rewrite Hc.
Qed.

Lemma rsplit_head_nonempty (s : string) :
  PyStr.mem_char PosixPath.sep s = true ->
  fst (PosixPath.rsplit s) <> EmptyString.
Proof.
  induction s as [|c s IH]; cbn; [discriminate|]. intros H.
  destruct (PosixPath.rsplit s) as [h t] eqn:E. cbn [fst] in IH.
  destruct (String.eqb h EmptyString) eqn:Eh.
  - apply String.eqb_eq in Eh. subst h.
    destruct (Ascii.eqb c PosixPath.sep) eqn:Ec; cbn; [discriminate|].
    cbn in H. apply IH in H. contradiction.
  - cbn. discriminate.
Qed.

Lemma rsplit_tail_app (a n : string) :
  PyStr.mem_char PosixPath.sep n = false ->
  snd (PosixPath.rsplit (a ++ String PosixPath.sep n)) = n.
Proof.
  intros Hn. induction a as [|c a IH].
  - cbn [String.append PosixPath.rsplit]. rewrite (rsplit_plain n Hn).
    reflexivity.
  - cbn [String.append PosixPath.rsplit].
    pose proof (rsplit_head_nonempty (a ++ String PosixPath.sep n)) as Hh.
    destruct (PosixPath.rsplit (a ++ String PosixPath.sep n)) as [h t].
    cbn [fst snd] in *.
    destruct (String.eqb h EmptyString) eqn:Eh; [|exact IH].
    apply String.eqb_eq in Eh. exfalso. apply Hh; [|exact Eh].
    rewrite mem_char_app. cbn. apply orb_true_r.
Qed.

Lemma rsplit_tail_no_sep (s : string) :
  PyStr.mem_char PosixPath.sep (snd (PosixPath.rsplit s)) = false.
Proof.
  induction s as [|c s IH]; cbn; [reflexivity|].
  destruct (PosixPath.rsplit s) as [h t]. cbn [snd] in IH.
  destruct (String.eqb h EmptyString); [|exact IH].
  destruct (Ascii.eqb c PosixPath.sep) eqn:Ec; cbn; [exact IH|].
  now rewrite Ec.
Qed.

(** The last component of a path joined with a plain name is that name. *)
Lemma basename_join (p n : string) :
  plain n = true -> snd (PosixPath.rsplit (PosixPath.join p n)) = n.
Proof.
  intros Hn. pose proof (plain_no_sep n Hn) as Hs.
  unfold PosixPath.join. rewrite (plain_not_abs n Hn).
  destruct (String.eqb p EmptyString) eqn:Hp; cbn [orb].
  - apply String.eqb_eq in Hp. subst p. cbn. now rewrite rsplit_plain.
  - destruct (PyStr.ends_with_char PosixPath.sep p) eqn:He.
    + destruct (ends_with_char_split _ _ He) as (p' & ->).
      rewrite append_assoc. cbn [String.append]. now apply rsplit_tail_app.
    + cbn [String.append].
      change (p ++ String "/" n)%string with (p ++ String PosixPath.sep n)%string.
      now apply rsplit_tail_app.
Qed.

Lemma split_snd (p : string) :
  snd (PosixPath.split p) = snd (PosixPath.rsplit p).
Proof.
  unfold PosixPath.split. now destruct (PosixPath.rsplit p).
Qed.

Lemma substring_suffix (x t : string) :
  substring (String.length x) (String.length t) (x ++ t) = t.
Proof.
  induction x as [|c x IH]; cbn; [|exact IH].
  induction t as [|d t IHt]; cbn; [reflexivity | now rewrite IHt].
Qed.

Lemma length_append (a b : string) :
  String.length (a ++ b) = String.length a + String.length b.
Proof. induction a as [|c a IH]; cbn; [reflexivity | now rewrite IH]. Qed.

Lemma ends_with_app (x t : string) : PyStr.ends_with t (x ++ t) = true.
Proof.
  unfold PyStr.ends_with. rewrite length_append.
  replace (String.length x + String.length t - String.length t)
    with (String.length x) by lia.
  rewrite substring_suffix, String.eqb_refl.
  rewrite andb_true_r. apply Nat.leb_le. lia.
Qed.

Lemma lock_name_plain (x : string) :
  PyStr.mem_char PosixPath.sep x = false -> plain (x ++ ".lock") = true.
Proof.
  intros Hx. unfold plain. rewrite mem_char_app, Hx. cbn [orb negb andb].
  assert (Hl : forall s, String.length s < 5 ->
                 String.eqb (x ++ ".lock") s = false).
  { intros s Hs. apply String.eqb_neq. intros E.
    apply (f_equal String.length) in E. rewrite length_append in E.
    cbn in E. lia. }
  rewrite !Hl by (cbn; lia). reflexivity.
Qed.

Lemma built_lock_name (host : Host) (self : VcpkgRepo) :
  built host self ->
  exists d x,
    lockFile self = PosixPath.join d (x ++ ".lock") /\
    x = snd (PosixPath.rsplit (path self)) /\
    plain (x ++ ".lock") = true.
Proof.
  intros Hb. destruct (built_fields host self Hb) as (_ & _ & _ & Hl & _).
  exists (fst (PosixPath.split (path self))), (snd (PosixPath.rsplit (path self))).
  rewrite <- split_snd. split; [exact Hl|]. split; [reflexivity|].
  apply lock_name_plain. rewrite split_snd. apply rsplit_tail_no_sep.
Qed.

(** *** The location of a path and of its directory part *)

Lemma rstrip_split (h : string) :
  exists s, h = (PyStr.rstrip_char PosixPath.sep h ++ s)%string /\
            PyStr.rstrip_char PosixPath.sep s = EmptyString.
Proof.
  induction h as [|d r IH]; [now exists EmptyString|].
  destruct IH as (s & Hr & Hs). cbn [PyStr.rstrip_char].
  destruct (PyStr.rstrip_char PosixPath.sep r) as [|e r'] eqn:E.
  - destruct (Ascii.eqb d PosixPath.sep) eqn:Ed.
    + exists (String d r). split; [reflexivity|].
      cbn [PyStr.rstrip_char]. cbn [String.append] in Hr. subst s.
      now rewrite Hs, Ed.
    + exists s. cbn [String.append] in *. split; [congruence | exact Hs].
  - exists s. cbn [String.append] in *. split; [congruence | exact Hs].
Qed.

Lemma walk_slashes (s : string) :
  PyStr.rstrip_char PosixPath.sep s = EmptyString ->
  forall at_, fold_left walk (PosixPath.segments s) at_ = at_.
Proof.
  induction s as [|d r IH]; intros H at_; [reflexivity|].
  cbn [PyStr.rstrip_char] in H.
  destruct (PyStr.rstrip_char PosixPath.sep r) eqn:E; [|discriminate].
  destruct (Ascii.eqb d PosixPath.sep) eqn:Ed; [|discriminate].
  cbn [PosixPath.segments]. rewrite Ed. cbn [fold_left]. now apply IH.
Qed.

Lemma locate_rstrip (c : loc) (h : string) :
  PyStr.rstrip_char PosixPath.sep h <> EmptyString ->
  locate c (PyStr.rstrip_char PosixPath.sep h) = locate c h.
Proof.
  intros Hne. destruct (rstrip_split h) as (s & Hh & Hs).
  set (r := PyStr.rstrip_char PosixPath.sep h) in *.
  destruct s as [|d s'].
  - rewrite append_empty_r in Hh. now rewrite <- Hh.
  - cbn [PyStr.rstrip_char] in Hs.
    destruct (PyStr.rstrip_char PosixPath.sep s') eqn:E; [|discriminate].
    destruct (Ascii.eqb d PosixPath.sep) eqn:Ed; [|discriminate].
    apply Ascii.eqb_eq in Ed. subst d.
    transitivity (locate c (r ++ String PosixPath.sep s')); [|now rewrite <- Hh].
    unfold locate. rewrite segments_app_sep, fold_left_app.
    rewrite (walk_slashes s' E). now rewrite (isabs_app r _ Hne).
Qed.

Lemma rsplit_parts (p : string) :
  p = (fst (PosixPath.rsplit p) ++ snd (PosixPath.rsplit p))%string /\
  (fst (PosixPath.rsplit p) = EmptyString \/
   exists h', fst (PosixPath.rsplit p) = (h' ++ String PosixPath.sep EmptyString)%string).
Proof.
  induction p as [|c r IH]; [now split; [|left]|].
  cbn [PosixPath.rsplit]. destruct (PosixPath.rsplit r) as [h t].
  cbn [fst snd] in IH. destruct IH as (Hr & Hh).
  destruct (String.eqb h EmptyString) eqn:Eh.
  - apply String.eqb_eq in Eh. subst h. cbn [String.append] in Hr. subst t.
    destruct (Ascii.eqb c PosixPath.sep) eqn:Ec; cbn [fst snd].
    + apply Ascii.eqb_eq in Ec. subst c. split; [reflexivity|].
      right. now exists EmptyString.
    + split; [reflexivity | now left].
  - cbn [fst snd]. split; [cbn; now rewrite <- Hr|].
    right. destruct Hh as [-> | (h' & ->)]; [discriminate|].
    now exists (String c h').
Qed.

Lemma locate_rsplit (c : loc) (p : string) :
  plain (snd (PosixPath.rsplit p)) = true ->
  locate c p = locate c (fst (PosixPath.rsplit p)) ++ [snd (PosixPath.rsplit p)].
Proof.
  intros Hn. destruct (rsplit_parts p) as (Hp & Hh).
  set (h := fst (PosixPath.rsplit p)) in *.
  set (t := snd (PosixPath.rsplit p)) in *.
  pose proof (segments_plain t (plain_no_sep t Hn)) as Hseg.
  destruct Hh as [Hh | (h' & Hh)].
  - rewrite Hh in *. cbn [String.append] in Hp. rewrite Hp.
    unfold locate. rewrite Hseg.
    assert (Ha : PosixPath.isabs t = false) by exact (plain_not_abs t Hn).
    rewrite Ha. cbn. now apply walk_plain.
  - rewrite Hp, Hh. unfold locate. rewrite append_assoc. cbn [String.append].
    rewrite !segments_app_sep, Hseg. cbn [PosixPath.segments].
    rewrite !fold_left_app. cbn [fold_left]. rewrite (walk_plain _ t Hn).
    assert (Hab : PosixPath.isabs (h' ++ String PosixPath.sep t)
                  = PosixPath.isabs (h' ++ String PosixPath.sep EmptyString)).
    { destruct h'; reflexivity. }
    rewrite Hab. reflexivity.
Qed.

(** The location of a path whose last component is a plain name: one step
    below the location of its directory part. *)
Lemma locate_split (c : loc) (p : string) :
  plain (snd (PosixPath.split p)) = true ->
  locate c p = locate c (fst (PosixPath.split p)) ++ [snd (PosixPath.split p)].
Proof.
  intros Hn. rewrite split_snd in *. rewrite (locate_rsplit c p Hn).
  f_equal. unfold PosixPath.split.
  destruct (PosixPath.rsplit p) as [h t]. cbn [fst].
  destruct (String.eqb (PyStr.rstrip_char PosixPath.sep h) EmptyString) eqn:E;
    [reflexivity|].
  symmetry. apply locate_rstrip. now apply String.eqb_neq.
Qed.

Lemma is_prefix_fork (d : loc) (a b : string) (r r' : loc) :
  a <> b -> is_prefix (d ++ a :: r) (d ++ b :: r') = false.
Proof.
  intros Hab. induction d as [|x d IH]; cbn.
  - apply String.eqb_neq in Hab. now rewrite Hab.
  - now rewrite String.eqb_refl, IH.
Qed.

(** *** Steps that leave an entry as it is *)

Lemma keeps_ret {A} (c0 q : loc) (a : A) : keeps c0 q (ret a).
Proof. intros w Hc. now split. Qed.

Lemma keeps_ask {A} (c0 q : loc) (f : World -> A) : keeps c0 q (ask f).
Proof. intros w Hc. now split. Qed.

Lemma keeps_raise {A} (c0 q : loc) (e : exn) : keeps c0 q (@raise A e).
Proof. intros w Hc. now split. Qed.

Lemma keeps_record (c0 q : loc) (c : call) : keeps c0 q (record c).
Proof. intros w Hc. now split. Qed.

Lemma keeps_bind {A B} (c0 q : loc) (m : M A) (k : A -> M B) :
  keeps c0 q m -> (forall a, keeps c0 q (k a)) -> keeps c0 q (bind m k).
Proof.
  intros Hm Hk w Hc. unfold bind. destruct (Hm w Hc) as (Hc1 & Hn1).
  destruct (m w) as [[a|e] w1]; cbn [snd] in *; [|now split].
  destruct (Hk a w1 Hc1) as (Hc2 & Hn2). split; [exact Hc2 | now rewrite Hn2].
Qed.

Lemma keeps_when (c0 q : loc) (b : bool) (m : M unit) :
  keeps c0 q m -> keeps c0 q (when b m).
Proof. intros H. destruct b; [exact H | apply keeps_ret]. Qed.

(** A step that changes no file. *)
Lemma keeps_same {A} (c0 q : loc) (m : M A) :
  (forall w, cwd (snd (m w)) = cwd w /\ files (snd (m w)) = files w) ->
  keeps c0 q m.
Proof.
  intros H w Hc. destruct (H w) as (H1 & H2). now rewrite H1, H2.
Qed.

Lemma keeps_unlink (c0 q : loc) (p : string) :
  loc_eqb (locate c0 p) q = false -> keeps c0 q (Os.unlink p).
Proof.
  intros Hq w Hc. unfold Os.unlink, bind, record.
  cbn [fst snd files cwd stuck trace]. unfold Os.lstat. cbn [files cwd].
  rewrite Hc.
  assert (Hdrop : node_at (drop_loc (locate c0 p) (files w)) q
                  = node_at (files w) q).
  { destruct q as [|x q]; [reflexivity|].
    rewrite node_at_drop_loc by discriminate.
    apply loc_eqb_neq in Hq.
    destruct (loc_eqb (x :: q) (locate c0 p)) eqn:E; [|reflexivity].
    apply loc_eqb_eq in E. congruence. }
  destruct (String.eqb p EmptyString); [now split|].
  destruct (node_at (files w) (locate c0 p)) as [[c| |t]|]; try (now split);
    destruct (stuck w (locate c0 p)); now split.
Qed.

Lemma keeps_rmtree (c0 q : loc) (p : string) :
  is_prefix (locate c0 p) q = false ->
  keeps c0 q (Shutil.rmtree_ignore_errors p).
Proof.
  intros Hq w Hc. destruct (rmtree_inv p w) as (_ & Hcw & _ & _ & Hf).
  split; [now rewrite Hcw|]. rewrite Hf.
  destruct (Os.lstat w p) as [[c| |t]|]; try reflexivity.
  destruct q as [|x q]; [reflexivity|].
  rewrite node_at_after_rmtree by discriminate. now rewrite Hc, Hq.
Qed.

Lemma mkdirs_from_frame (rest : list string) :
  forall (done : loc) (fs : FS) (q : loc),
    is_prefix q (done ++ rest) = false ->
    node_at (snd (Os.mkdirs_from done rest fs)) q = node_at fs q.
Proof.
  induction rest as [|x rest IH]; intros done fs q Hq; cbn [Os.mkdirs_from];
    [reflexivity|].
  assert (Hq' : is_prefix q ((done ++ [x]) ++ rest) = false)
    by (now rewrite <- app_assoc).
  destruct (node_at fs (done ++ [x])) as [[c| |t]|].
  - destruct rest; reflexivity.
  - destruct rest; [reflexivity | now apply IH].
  - destruct rest; reflexivity.
  - assert (Hput : node_at (put (done ++ [x]) Dir fs) q = node_at fs q).
    { rewrite node_at_put by (destruct done; discriminate).
      destruct (loc_eqb (done ++ [x]) q) eqn:E; [|reflexivity].
      apply loc_eqb_eq in E. subst q.
      rewrite <- app_assoc in Hq'. cbn [app] in Hq'.
      change (done ++ x :: rest) with (done ++ [x] ++ rest) in Hq.
      rewrite app_assoc, is_prefix_app in Hq. discriminate. }
    destruct rest; (rewrite IH by exact Hq'; exact Hput).
Qed.

Lemma keeps_copytree (c0 q : loc) (src dst : string) :
  is_prefix (locate c0 dst) q = false ->
  is_prefix q (locate c0 dst) = false ->
  keeps c0 q (Shutil.copytree src dst).
Proof.
  intros Hbelow Habove w Hc. unfold Shutil.copytree, bind, record.
  cbn [fst snd]. unfold Os.stat, stat_at. cbn [files cwd]. rewrite Hc.
  destruct (String.eqb src EmptyString); [now split|].
  destruct (chase MAXSYMLINKS (files w) (locate c0 src)) as [sq|];
    [|now split].
  destruct (node_at (files w) sq) as [[c| |t]|]; try (now split).
  destruct (is_prefix sq (locate c0 dst)); [now split|].
  destruct (Shutil.snapshot Shutil.COPY_DEPTH (files w) sq) as [copied err].
  unfold Os.do_makedirs. cbn [files cwd stuck trace]. rewrite ?Hc.
  destruct (String.eqb dst EmptyString); [now split|].
  destruct (locate c0 dst) as [|x l] eqn:Hd; [now split|].
  pose proof (mkdirs_from_frame (x :: l) [] (files w) q Habove) as Hmk.
  destruct (Os.mkdirs_from [] (x :: l) (files w)) as [[[]|e] fs'];
    cbn [snd] in Hmk; cbn [with_files files cwd stuck trace].
  - destruct err; cbn [snd with_files files cwd]; (split; [reflexivity|]);
      now rewrite node_at_graft_outside by exact Hbelow.
  - cbn [snd with_files files cwd]. now split.
Qed.

Lemma keeps_download (host : Host) (c0 q : loc) (f : fetch) :
  host_keeps host c0 q ->
  is_prefix (locate c0 (fetch_dest f)) q = false ->
  keeps c0 q (download host f).
Proof.
  intros (Hd & _) Hq w Hc. unfold download, bind, record.
  cbn [fst snd files cwd stuck trace]. rewrite Hc.
  specialize (Hd f (files w) Hq).
  destruct (downloadAndExtract host f c0 (files w)) as [r fs].
  cbn [snd with_files files cwd] in *. now split.
Qed.

Lemma keeps_subprocess (host : Host) (c0 q : loc) (cmd : list string)
    (folder : string) :
  host_keeps host c0 q ->
  is_prefix (locate c0 folder) q = false ->
  keeps c0 q (subprocess host cmd folder).
Proof.
  intros (_ & Hs) Hq w Hc. unfold subprocess, bind, record.
  cbn [fst snd files cwd stuck trace]. rewrite Hc.
  specialize (Hs cmd folder (files w) Hq).
  destruct (executeSubprocess host cmd folder c0 (files w)) as [r fs].
  cbn [snd with_files files cwd] in *. now split.
Qed.

Lemma keeps_upToDate (c0 q : loc) (self : VcpkgRepo) : keeps c0 q (upToDate self).
Proof.
  apply keeps_same. intros w.
  destruct (upToDate_total self w) as (b & w1 & Hrun & Hf & Hc & _).
  rewrite Hrun. now split.
Qed.

(** *** The calls and the lock file *)

Section LockFile.

Variable host : Host.
Variable self : VcpkgRepo.
Variable c0 : loc.
Hypothesis Hbuilt : built host self.
Hypothesis Hproper : proper_root self = true.

Lemma root_loc :
  locate c0 (path self)
  = locate c0 (fst (PosixPath.split (path self)))
      ++ [snd (PosixPath.split (path self))].
Proof. now apply locate_split. Qed.

Lemma lock_loc :
  locate c0 (lockFile self)
  = locate c0 (fst (PosixPath.split (path self)))
      ++ [(snd (PosixPath.split (path self)) ++ ".lock")%string].
Proof.
  destruct (built_fields host self Hbuilt) as (_ & _ & _ & Hl & _).
  rewrite Hl. apply locate_join, lock_name_plain, plain_no_sep. exact Hproper.
Qed.

Lemma lock_name_ne (x : string) : x <> (x ++ ".lock")%string.
Proof.
  intros E. apply (f_equal String.length) in E. rewrite length_append in E.
  cbn in E. lia.
Qed.

(** The lock file is neither the root nor anything in it. *)
Lemma below_root_clear (r : loc) :
  is_prefix (locate c0 (path self) ++ r) (locate c0 (lockFile self)) = false.
Proof.
  rewrite root_loc, lock_loc, <- app_assoc. cbn [app].
  apply is_prefix_fork, lock_name_ne.
Qed.

Lemma root_clear :
  is_prefix (locate c0 (path self)) (locate c0 (lockFile self)) = false.
Proof. rewrite <- (app_nil_r (locate c0 (path self))). apply below_root_clear. Qed.

Lemma child_clear (n : string) :
  plain n = true ->
  is_prefix (locate c0 (PosixPath.join (path self) n)) (locate c0 (lockFile self))
  = false.
Proof. intros Hn. rewrite locate_join by exact Hn. apply below_root_clear. Qed.

Lemma child_ne (n : string) :
  plain n = true ->
  loc_eqb (locate c0 (PosixPath.join (path self) n)) (locate c0 (lockFile self))
  = false.
Proof.
  intros Hn. apply loc_eqb_neq. intros E. pose proof (child_clear n Hn) as H.
  rewrite E, is_prefix_refl in H. discriminate.
Qed.

(** The lock file is no directory on the way to an entry of the root. *)
Lemma lock_not_above (n : string) :
  plain n = true ->
  is_prefix (locate c0 (lockFile self)) (locate c0 (PosixPath.join (path self) n))
  = false.
Proof.
  intros Hn. rewrite locate_join by exact Hn.
  rewrite root_loc, lock_loc, <- app_assoc. cbn [app].
  apply is_prefix_fork. intros E. symmetry in E. exact (lock_name_ne _ E).
Qed.

Lemma tag_ne :
  loc_eqb (locate c0 (tagFile self)) (locate c0 (lockFile self)) = false.
Proof.
  destruct (built_fields host self Hbuilt) as (Htag & _).
  rewrite Htag. now apply child_ne.
Qed.

Lemma config_ne :
  loc_eqb (locate c0 (configFilePath self)) (locate c0 (lockFile self)) = false.
Proof.
  destruct (built_fields host self Hbuilt) as (_ & _ & Hc & _).
  rewrite Hc, locate_join by reflexivity. rewrite lock_loc.
  apply loc_eqb_neq. intros E. apply app_inj_tail in E. destruct E as (_ & E).
  apply (f_equal (PyStr.ends_with ".lock")) in E.
  rewrite ends_with_app in E. vm_compute in E. discriminate.
Qed.

Lemma emits_spares_upToDate : emits (spares c0 self) (upToDate self).
Proof. apply emits_upToDate_gen. exact tag_ne. Qed.

Lemma emits_spares_clean : emits (spares c0 self) (clean self).
Proof. apply emits_clean. exact root_clear. Qed.

Lemma emits_spares_bootstrap : emits (spares c0 self) (bootstrap host self).
Proof.
  apply emits_bootstrap.
  - exact tag_ne.
  - exact root_clear.
  - exact root_clear.
  - now apply (child_ne "ports").
  - now apply (child_clear "ports").
  - unfold spares, touches.
    now rewrite (child_clear "ports"), (lock_not_above "ports").
Qed.

Lemma emits_spares_writeTag : emits (spares c0 self) (writeTag self).
Proof. unfold writeTag. apply emits_write_text. exact tag_ne. Qed.

Lemma emits_format (P : call -> Prop) (t : string) (xs : list string) :
  emits P (format t xs).
Proof. apply emits_quiet. intros w. now cbn. Qed.

Lemma emits_spares_writeConfig : emits (spares c0 self) (writeConfig self).
Proof.
  unfold writeConfig, cmakeConfig.
  repeat first [apply emits_format | emits_step]. exact config_ne.
Qed.

Lemma emits_spares_run (commands : list string) :
  emits (spares c0 self) (run host self commands).
Proof. unfold run. apply emits_subprocess. exact root_clear. Qed.

Lemma emits_spares_installQt : emits (spares c0 self) (installQt host self).
Proof.
  unfold installQt. repeat emits_step; now apply (child_clear "installed").
Qed.

Lemma emits_spares_packages (pkgPath : string) (ps : list (string * package)) :
  Forall (fun np =>
            is_prefix (locate c0 (PosixPath.join pkgPath (fst np)))
                      (locate c0 (lockFile self)) = false) ps ->
  emits (spares c0 self) (android_packages host pkgPath ps).
Proof.
  induction 1 as [|[name pkg] ps Hn _ IH]; cbn [android_packages];
    [apply emits_ret|].
  cbn [fst] in *.
  apply emits_bind; [apply emits_ask|]. intros d.
  apply emits_bind; [|intros _; exact IH].
  destruct d; [apply emits_ret|]. apply emits_download. exact Hn.
Qed.

Lemma emits_spares_setupAndroid :
  packages_clear host self c0 ->
  emits (spares c0 self) (setupAndroidDependencies host self).
Proof.
  intros Hp. unfold setupAndroidDependencies.
  apply emits_bind; [apply emits_ask|]. intros d.
  apply emits_bind.
  - apply emits_when. apply emits_download.
    now apply (child_clear "installed").
  - intros _. destruct (androidPackagePath self) as [pkgPath|] eqn:E.
    + apply emits_spares_packages. now apply Hp.
    + destruct (getPlatformPackages host); [apply emits_ret | apply emits_raise].
Qed.

Lemma emits_spares_setupDependencies :
  packages_clear host self c0 ->
  emits (spares c0 self) (setupDependencies host self).
Proof.
  intros Hp. unfold setupDependencies.
  apply emits_bind; [apply emits_when; now apply emits_spares_setupAndroid|].
  intros _. apply emits_bind; [apply emits_spares_run|].
  intros _. apply emits_bind; [apply emits_when, emits_spares_run|].
  intros _. apply emits_when, emits_spares_installQt.
Qed.

(** With the default android package path, a directory of the root, and
    plain package names, no package directory holds the lock file. *)
Lemma packages_clear_inside_root :
  androidPackagePath self = Some (PosixPath.join (path self) "android") ->
  Forall (fun np => plain (fst np) = true) (getPlatformPackages host) ->
  packages_clear host self c0.
Proof.
  intros Hpkg Hnames pkgPath E. rewrite Hpkg in E. injection E as <-.
  induction Hnames as [|np ps Hn _ IH]; constructor; [|exact IH].
  rewrite !locate_join by (exact Hn || reflexivity).
  rewrite <- app_assoc. apply below_root_clear.
Qed.

Lemma keeps_clean : keeps c0 (locate c0 (lockFile self)) (clean self).
Proof.
  unfold clean. apply keeps_bind; [apply keeps_ask|]. intros d.
  apply keeps_when, keeps_rmtree. exact root_clear.
Qed.

Lemma keeps_lock_bootstrap :
  host_keeps host c0 (locate c0 (lockFile self)) ->
  keeps c0 (locate c0 (lockFile self)) (bootstrap host self).
Proof.
  intros Hh. unfold bootstrap. cbv zeta.
  apply keeps_bind; [apply keeps_upToDate|]. intros u.
  destruct u; [apply keeps_ret|].
  apply keeps_bind; [exact keeps_clean|].
  intros _. apply keeps_bind; [apply keeps_ask|]. intros e.
  apply keeps_bind; [apply keeps_ask|]. intros t.
  apply keeps_bind.
  { apply keeps_when, keeps_download; [exact Hh | exact root_clear]. }
  intros _. apply keeps_bind; [apply keeps_ask|]. intros l.
  apply keeps_bind.
  { apply keeps_when, keeps_unlink. now apply (child_ne "ports"). }
  intros _. apply keeps_bind; [apply keeps_ask|]. intros d.
  apply keeps_bind.
  { apply keeps_when, keeps_rmtree. now apply (child_clear "ports"). }
  intros _. apply keeps_copytree;
    [now apply (child_clear "ports") | now apply (lock_not_above "ports")].
Qed.

Lemma keeps_lock_packages (pkgPath : string) (ps : list (string * package)) :
  host_keeps host c0 (locate c0 (lockFile self)) ->
  Forall (fun np =>
            is_prefix (locate c0 (PosixPath.join pkgPath (fst np)))
                      (locate c0 (lockFile self)) = false) ps ->
  keeps c0 (locate c0 (lockFile self)) (android_packages host pkgPath ps).
Proof.
  intros Hh. induction 1 as [|[name pkg] ps Hn _ IH]; cbn [android_packages];
    [apply keeps_ret|].
  cbn [fst] in *.
  apply keeps_bind; [apply keeps_ask|]. intros d.
  apply keeps_bind; [|intros _; exact IH].
  destruct d; [apply keeps_ret | now apply keeps_download].
Qed.

Lemma keeps_lock_setupDependencies :
  host_keeps host c0 (locate c0 (lockFile self)) ->
  packages_clear host self c0 ->
  keeps c0 (locate c0 (lockFile self)) (setupDependencies host self).
Proof.
  intros Hh Hp. unfold setupDependencies, run.
  apply keeps_bind.
  { apply keeps_when. unfold setupAndroidDependencies.
    apply keeps_bind; [apply keeps_ask|]. intros d.
    apply keeps_bind.
    { apply keeps_when, keeps_download; [exact Hh|].
      now apply (child_clear "installed"). }
    intros _. destruct (androidPackagePath self) as [pkgPath|] eqn:E.
    - apply keeps_lock_packages; [exact Hh | now apply Hp].
    - destruct (getPlatformPackages host); [apply keeps_ret | apply keeps_raise]. }
  intros _. apply keeps_bind.
  { apply keeps_subprocess; [exact Hh | exact root_clear]. }
  intros _. apply keeps_bind.
  { apply keeps_when, keeps_subprocess; [exact Hh | exact root_clear]. }
  intros _. apply keeps_when. unfold installQt.
  apply keeps_bind; [apply keeps_ask|]. intros d. apply keeps_when.
  destruct (system host);
    first [apply keeps_raise
          | apply keeps_download;
            [exact Hh | now apply (child_clear "installed")]].
Qed.

End LockFile.

(** *** The entry at a location that the methods are not aimed at *)

Lemma clean_frame (self : VcpkgRepo) (w : World) (q : loc) :
  is_prefix (locate (cwd w) (path self)) q = false ->
  node_at (files (snd (clean self w))) q = node_at (files w) q.
Proof.
  intros Hq. destruct (clean_effect self w) as (_ & _ & [Hf | (_ & Hf)]);
    rewrite Hf; [reflexivity|].
  destruct q as [|x q]; [reflexivity|].
  rewrite node_at_after_rmtree by discriminate. now rewrite Hq.
Qed.

Lemma write_text_frame (p c : string) (w : World) (q : loc) :
  (forall t, Os.lstat w p <> Some (Link t)) ->
  loc_eqb (locate (cwd w) p) q = false ->
  node_at (files (snd (Os.write_text p c w))) q = node_at (files w) q.
Proof.
  intros Hl Hq. unfold Os.write_text, bind, record.
  cbn [fst snd files cwd stuck trace]. unfold Os.lstat in Hl.
  destruct (String.eqb p EmptyString); [reflexivity|].
  rewrite chase_real by exact Hl.
  destruct (node_at (files w) (locate (cwd w) p)) as [[c1| |t]|] eqn:E;
    try reflexivity;
    (destruct (node_at (files w) (removelast (locate (cwd w) p)))
       as [[c2| |t2]|]; try reflexivity;
     cbn [snd files with_files];
     rewrite node_at_put, Hq;
     [reflexivity | intros E0; rewrite E0 in E; discriminate]).
Qed.

Lemma cmakeConfig_quiet (self : VcpkgRepo) (w : World) :
  snd (cmakeConfig self w) = w.
Proof.
  unfold cmakeConfig, bind, ret, format, ask, raise.
  destruct (negb (android (args self))).
  - now destruct (py_format _ _).
  - destruct (androidPackagePath self); [|reflexivity].
    repeat (destruct (py_format _ _); [|reflexivity]). reflexivity.
Qed.

Lemma writeConfig_frame (self : VcpkgRepo) (w : World) (q : loc) :
  (forall t, Os.lstat w (configFilePath self) <> Some (Link t)) ->
  loc_eqb (locate (cwd w) (configFilePath self)) q = false ->
  node_at (files (snd (writeConfig self w))) q = node_at (files w) q.
Proof.
  intros Hl Hq. unfold writeConfig, bind.
  pose proof (cmakeConfig_quiet self w) as Hw.
  destruct (cmakeConfig self w) as [[text|e] w1]; cbn [snd] in Hw; subst w1;
    [|reflexivity].
  now apply write_text_frame.
Qed.

(** ** The constructor and the lock file *)

Lemma only_dirs_refl (fs : FS) : only_dirs fs fs.
Proof. intros q n H. now left. Qed.

Lemma only_dirs_trans (a b c : FS) :
  only_dirs a b -> only_dirs b c -> only_dirs a c.
Proof.
  intros Hab Hbc q n H. destruct (Hbc q n H) as [Hb | ->]; [|now right].
  now apply Hab.
Qed.

Lemma only_dirs_put (a : loc) (fs : FS) :
  a <> [] -> only_dirs fs (put a Dir fs).
Proof.
  intros Ha q n. rewrite node_at_put by exact Ha.
  destruct (loc_eqb a q); [intros H; injection H as <-; now right | now left].
Qed.

Lemma mkdirs_from_only_dirs (rest : list string) :
  forall (done : loc) (fs : FS),
    only_dirs fs (snd (Os.mkdirs_from done rest fs)).
Proof.
  induction rest as [|x rest IH]; intros done fs; cbn [Os.mkdirs_from];
    [apply only_dirs_refl|].
  assert (Ha : done ++ [x] <> []) by (destruct done; discriminate).
  destruct (node_at fs (done ++ [x])) as [[c| |t]|].
  - destruct rest; apply only_dirs_refl.
  - destruct rest; [apply only_dirs_refl | apply IH].
  - destruct rest; apply only_dirs_refl.
  - destruct rest;
      (eapply only_dirs_trans; [|apply IH]; now apply only_dirs_put).
Qed.

Lemma makedirs_only_dirs (p : string) (w : World) :
  only_dirs (files w) (files (snd (Os.makedirs p w))).
Proof.
  unfold Os.makedirs, bind, record. cbn [fst snd]. unfold Os.do_makedirs.
  cbn [files cwd].
  destruct (String.eqb p EmptyString); [apply only_dirs_refl|].
  destruct (locate (cwd w) p) as [|x q]; [apply only_dirs_refl|].
  pose proof (mkdirs_from_only_dirs (x :: q) [] (files w)) as H.
  destruct (Os.mkdirs_from [] (x :: q) (files w)) as [r fs']. exact H.
Qed.

Lemma makedirs_isdir (p : string) (w w' : World) :
  Os.makedirs p w = (Ok tt, w') -> Os.isdir p w' = true.
Proof.
  unfold Os.makedirs, bind, record. cbn [fst snd]. unfold Os.do_makedirs.
  cbn [files cwd]. destruct (String.eqb p EmptyString) eqn:Hp; [discriminate|].
  destruct (locate (cwd w) p) as [|x q] eqn:Hq; [discriminate|].
  destruct (Os.mkdirs_from [] (x :: q) (files w)) as [[[]|e] fs'] eqn:Hmk;
    [|discriminate].
  intros H. injection H as <-.
  destruct (mkdirs_from_ok (x :: q) [] (files w) fs') as (_ & Hd & _);
    [discriminate | exact Hmk |].
  apply lstat_dir_isdir. unfold Os.lstat. cbn [files cwd with_files].
  now rewrite Hp, Hq.
Qed.

(** Making a directory unless it is there: afterwards it is there. *)
Lemma ensure_dir (p : string) (w w' : World) :
  when (negb (Os.isdir p w)) (Os.makedirs p) w = (Ok tt, w') ->
  Os.isdir p w' = true /\ only_dirs (files w) (files w').
Proof.
  destruct (Os.isdir p w) eqn:Hd; cbn [negb when].
  - unfold ret. intros H. injection H as <-. split; [exact Hd|].
    apply only_dirs_refl.
  - intros H. split; [now apply (makedirs_isdir p w)|].
    pose proof (makedirs_only_dirs p w) as Ho. now rewrite H in Ho.
Qed.

Lemma emits_init (host : Host) (a : Args) :
  emits (fun c => is_makedirs c = true) (init host a).
Proof.
  unfold init. cbv zeta.
  apply emits_bind; [apply emits_ask|]. intros hash.
  apply emits_bind.
  { destruct (vcpkg_root a); [apply emits_ret|]. repeat emits_step. reflexivity. }
  intros bp. destruct (PosixPath.split (snd bp)) as [lockDir lockName].
  apply emits_bind; [apply emits_ask|]. intros isd.
  apply emits_bind; [apply emits_when, emits_makedirs; reflexivity|]. intros _.
  apply emits_bind; [apply emits_quiet; intros w; now cbn|]. intros tag.
  destruct (System_eqb Windows (system host));
    [|destruct (System_eqb Darwin (system host))];
    destruct (android a); apply emits_ret.
Qed.

Lemma init_lock_dir (host : Host) (a : Args) (w w' : World) (self : VcpkgRepo) :
  init host a w = (Ok self, w') ->
  Os.isdir (fst (PosixPath.split (path self))) w' = true /\
  only_dirs (files w) (files w').
Proof.
  unfold init. intros H.
  peel H as hash w1 Hhash. unfold ask in Hhash. injection Hhash as _ <-.
  peel H as bp w2 Hbp.
  assert (Hbase : only_dirs (files w) (files w2)).
  { destruct (vcpkg_root a).
    - unfold ret in Hbp. injection Hbp as _ <-. apply only_dirs_refl.
    - peel Hbp as isd v1 Hisd. unfold ask in Hisd. injection Hisd as <- <-.
      peel Hbp as u v2 Hmk. destruct u.
      unfold ret in Hbp. injection Hbp as _ <-.
      now apply ensure_dir in Hmk. }
  destruct (PosixPath.split (snd bp)) as [lockDir lockName] eqn:Hsplit.
  peel H as isd w3 Hisd. unfold ask in Hisd. injection Hisd as <- <-.
  peel H as u w4 Hmk. destruct u. apply ensure_dir in Hmk.
  destruct Hmk as (Hd & Ho).
  peel H as tag w5 Htag. injection Htag as _ <-.
  assert (Hpath : forall s, path s = snd bp -> w' = w4 ->
            Os.isdir (fst (PosixPath.split (path s))) w' = true /\
            only_dirs (files w) (files w')).
  { intros s Hs ->. rewrite Hs, Hsplit. cbn [fst]. split; [exact Hd|].
    eapply only_dirs_trans; eauto. }
  destruct (System_eqb Windows (system host));
    [|destruct (System_eqb Darwin (system host))];
    destruct (android a); unfold ret in H; injection H as <- <-;
    now apply Hpath.
Qed.

(** The extraction of [Demo.host] changes nothing outside its destination,
    and its process changes nothing at all. *)
Lemma demo_host_keeps (c0 q : loc) : host_keeps Demo.host c0 q.
Proof.
  split; [|reflexivity]. intros f fs Hq. cbn [downloadAndExtract Demo.host].
  unfold Demo.extract. cbn [snd].
  set (d := locate c0 (fetch_dest f)) in *.
  assert (Hput : forall r n fs0,
             node_at (put (d ++ r) n fs0) q = node_at fs0 q).
  { intros r n fs0. destruct q as [|x q]; [reflexivity|]. cbn [node_at].
    rewrite alookup_put.
    destruct (loc_eqb (d ++ r) (x :: q)) eqn:E; [|reflexivity].
    apply loc_eqb_eq in E. rewrite <- E, is_prefix_app in Hq. discriminate. }
  rewrite !Hput. rewrite <- (app_nil_r d) at 1. apply Hput.
Qed.

(** C10 (as amended): the lock file is a path the constructor derives from
    the root (its directory and its name with .lock appended); the constructor only
    makes directories, so that the directory of the lock file is there, and
    creates no file.  For a root that ends in a proper name, none of
    upToDate, clean, bootstrap, setupDependencies, writeTag and writeConfig
    makes a call aimed at the lock file or at a directory that holds it, and
    each of them leaves the entry at the lock file as it is, whether it
    returns or raises; this is subject to three conditions on what is not
    this module: for setupDependencies, no directory of an android package
    is the lock file or holds it; for bootstrap and setupDependencies, the
    archive extraction and the vcpkg process change nothing outside the
    directory they are given; for writeTag and writeConfig, the path they
    write is no symbolic link. *)
Theorem C10_lock_file_untouched (host : Host) (self : VcpkgRepo) :
  built host self ->
  (proper_root self = true ->
   (forall w, Forall (spares (cwd w) self) (added w (snd (upToDate self w)))) /\
   (forall w, Forall (spares (cwd w) self) (added w (snd (clean self w)))) /\
   (forall w, Forall (spares (cwd w) self)
                     (added w (snd (bootstrap host self w)))) /\
   (forall w, packages_clear host self (cwd w) ->
              Forall (spares (cwd w) self)
                     (added w (snd (setupDependencies host self w)))) /\
   (forall w, Forall (spares (cwd w) self) (added w (snd (writeTag self w)))) /\
   (forall w, Forall (spares (cwd w) self)
                     (added w (snd (writeConfig self w)))) /\
   (forall w,
      let lock := locate (cwd w) (lockFile self) in
      node_at (files (snd (upToDate self w))) lock = node_at (files w) lock /\
      node_at (files (snd (clean self w))) lock = node_at (files w) lock /\
      (host_keeps host (cwd w) lock ->
       node_at (files (snd (bootstrap host self w))) lock
       = node_at (files w) lock) /\
      (host_keeps host (cwd w) lock -> packages_clear host self (cwd w) ->
       node_at (files (snd (setupDependencies host self w))) lock
       = node_at (files w) lock) /\
      ((forall t, Os.lstat w (tagFile self) <> Some (Link t)) ->
       node_at (files (snd (writeTag self w))) lock = node_at (files w) lock) /\
      ((forall t, Os.lstat w (configFilePath self) <> Some (Link t)) ->
       node_at (files (snd (writeConfig self w))) lock
       = node_at (files w) lock))) /\
  lockFile self
  = PosixPath.join (fst (PosixPath.split (path self)))
                   (snd (PosixPath.split (path self)) ++ ".lock")%string /\
  (forall a w w',
     init host a w = (Ok self, w') ->
     forallb is_makedirs (added w w') = true /\
     only_dirs (files w) (files w') /\
     Os.isdir (fst (PosixPath.split (path self))) w' = true).
Proof.
  intros Hb. split; [intros Hp|split].
  - split; [intros w; apply added_emits, (emits_spares_upToDate host self _ Hb Hp)|].
    split; [intros w; apply added_emits, (emits_spares_clean host self _ Hb Hp)|].
    split; [intros w; apply added_emits, (emits_spares_bootstrap host self _ Hb Hp)|].
    split.
    { intros w Hc.
      apply added_emits, (emits_spares_setupDependencies host self _ Hb Hp Hc). }
    split; [intros w; apply added_emits, (emits_spares_writeTag host self _ Hb Hp)|].
    split; [intros w; apply added_emits, (emits_spares_writeConfig host self _ Hb Hp)|].
    intros w lock.
    split; [exact (proj2 (keeps_upToDate (cwd w) lock self w eq_refl))|].
    split; [exact (proj2 (keeps_clean host self (cwd w) Hb Hp w eq_refl))|].
    split.
    { intros Hh.
      exact (proj2 (keeps_lock_bootstrap host self (cwd w) Hb Hp Hh w eq_refl)). }
    split.
    { intros Hh Hc.
      exact (proj2 (keeps_lock_setupDependencies host self (cwd w) Hb Hp Hh Hc
                      w eq_refl)). }
    split.
    + intros Hl. unfold writeTag. apply write_text_frame; [exact Hl|].
      apply (tag_ne host self _ Hb Hp).
    + intros Hl. apply writeConfig_frame; [exact Hl|].
      apply (config_ne host self _ Hb Hp).
  - apply (built_fields host self Hb).
  - intros a w w' Hinit.
    destruct (init_lock_dir host a w w' self Hinit) as (Hd & Ho).
    split; [|now split].
    pose proof (added_emits (fun c => is_makedirs c = true) (init host a) w
                            (emits_init host a)) as Hm.
    rewrite Hinit in Hm. cbn [snd] in Hm.
    apply forallb_forall. rewrite Forall_forall in Hm. exact Hm.
Qed.

Lemma C10_lock_file_witness :
  built Demo.host Demo.repo /\
  proper_root Demo.repo = true /\
  lockFile Demo.repo = "/tmp/hifi/vcpkg/abc123de.lock" /\
  Forall (spares [] Demo.repo)
         (added Demo.world1 (snd (bootstrap Demo.host Demo.repo Demo.world1))) /\
  Os.lstat Demo.world3 (lockFile Demo.repo) = None /\
  Os.lstat Scenario.locked_by_other (lockFile Demo.repo)
  = Some (File "pid 4242") /\
  node_at (files (snd (clean Demo.repo Scenario.locked_by_other)))
          ["tmp"; "hifi"; "vcpkg"; "abc123de.lock"]
  = Some (File "pid 4242") /\
  node_at (files (snd (writeTag Demo.repo Scenario.locked_by_other)))
          ["tmp"; "hifi"; "vcpkg"; "abc123de.lock"]
  = Some (File "pid 4242") /\
  bootstrap Demo.host Demo.repo Scenario.stale_locked_by_other
  = (Ok tt, snd (bootstrap Demo.host Demo.repo Scenario.stale_locked_by_other)) /\
  forallb (fun c => negb (is_work c))
          (added Scenario.stale_locked_by_other
                 (snd (bootstrap Demo.host Demo.repo
                                 Scenario.stale_locked_by_other))) = false /\
  node_at (files (snd (bootstrap Demo.host Demo.repo
                                 Scenario.stale_locked_by_other)))
          ["tmp"; "hifi"; "vcpkg"; "abc123de.lock"]
  = Some (File "pid 4242").
Proof.
  split; [exact demo_built|]. split; [reflexivity|]. split; [reflexivity|].
  destruct (C10_lock_file_untouched Demo.host Demo.repo demo_built)
    as (Hcalls & _).
  destruct (Hcalls eq_refl) as (_ & _ & Hboot & _ & _ & _ & Hkeep).
  split; [apply (Hboot Demo.world1)|].
  split; [vm_compute; reflexivity|]. split; [vm_compute; reflexivity|].
  destruct (Hkeep Scenario.locked_by_other) as (_ & Hclean & _ & _ & Htag & _).
  split; [refine (eq_trans Hclean _); vm_compute; reflexivity|].
  split.
  { refine (eq_trans (Htag _) _); [|vm_compute; reflexivity].
    intros t. vm_compute. discriminate. }
  split; [vm_compute; reflexivity|]. split; [vm_compute; reflexivity|].
  destruct (Hkeep Scenario.stale_locked_by_other) as (_ & _ & Hb & _).
  refine (eq_trans (Hb (demo_host_keeps _ _)) _). vm_compute. reflexivity.
Defined.

(** C10 as stated fails on its first clause: the constructor creates no lock
    file; after it has run there is nothing at the lock file path. *)
Lemma C10_no_lock_file_after_construction :
  ~ creates_lock_file Demo.host Demo.arguments Demo.world0.
Proof.
  intros H. apply (H Demo.repo Demo.world1); vm_compute; reflexivity.
Qed.

(** A root given with a trailing slash does not end in a proper name: the
    lock file is then an entry of the root, and [clean] removes a lock file
    found there with the rest. *)
Lemma slash_root_lock_is_removed :
  (exists w', init Demo.host Scenario.arguments_slash Scenario.slash_world
              = (Ok Scenario.repo_slash, w')) /\
  proper_root Scenario.repo_slash = false /\
  lockFile Scenario.repo_slash = "/opt/vcpkg/.lock" /\
  Os.lstat Scenario.slash_world "/opt/vcpkg/.lock" = Some (File "pid 4242") /\
  Os.lstat (snd (clean Scenario.repo_slash Scenario.slash_world))
           "/opt/vcpkg/.lock" = None.
Proof.
  split; [eexists; vm_compute; reflexivity|].
  repeat split; vm_compute; reflexivity.
Qed.


(** ** Two runs of [bootstrap] in succession *)

(** A run of [bootstrap] that was not up to date and returns has copied the
    overlay: the copy is the last call it made. *)
Lemma stale_run_copies (host : Host) (self : VcpkgRepo) (w w1 w' : World) :
  upToDate self w = (Ok false, w1) ->
  bootstrap host self w = (Ok tt, w') ->
  exists l,
    added w w'
    = CCopytree (sourcePortsPath self) (PosixPath.join (path self) "ports") :: l.
Proof.
  intros Hu Hb.
  pose proof (bootstrap_ok_stages host self w w1 w' Hu Hb) as Hrep.
  set (pp := PosixPath.join (path self) "ports") in *.
  assert (Hpp : String.eqb pp EmptyString = false)
    by (now apply join_plain_nonempty).
  destruct (before_copy _ pp _ w' Hpp Hrep)
    as (wc & Hcp & _ & _ & _ & _ & _ & Htr).
  destruct (copytree_inv _ _ _ _ Hcp)
    as (sq & copied & fsm & _ & _ & _ & _ & _ & _ & _ & _ & _ & Ht).
  set (ports_step := if Os.islink pp (acquired host self w) then [CUnlink pp]
                     else if Os.isdir pp (acquired host self w)
                          then [CRmtree pp] else []) in *.
  assert (Hwa : exists l2, trace (acquired host self w) = l2 ++ trace w1).
  { unfold acquired. rewrite Hu. cbn [snd].
    destruct (emits_clean (fun _ => True) self I w1) as (l1 & Hl1 & _).
    set (w2 := snd (clean self w1)) in *.
    match goal with
    | |- context [when ?b ?m] =>
        destruct (emits_when (fun _ => True) b m
                    (emits_download host (fun _ => True) _ I) w2)
          as (l2 & Hl2 & _)
    end.
    exists (l2 ++ l1). now rewrite Hl2, Hl1, app_assoc. }
  destruct Hwa as (l2 & Hl2).
  destruct (emits_upToDate_gen (fun _ => True) self I w) as (l0 & Hl0 & _).
  rewrite Hu in Hl0. cbn [snd] in Hl0.
  exists (ports_step ++ l2 ++ l0). apply added_app.
  rewrite Ht, Htr, Hl2, Hl0. cbn [app]. now rewrite <- !app_assoc.
Qed.

(** C3 (as amended): when [upToDate] returns true, [bootstrap] returns at
    once: the files are unchanged and nothing is cleaned, downloaded or
    copied, and a second [bootstrap] right after it is again such a no-op;
    when [upToDate] returns false, a [bootstrap] that returns has copied the
    overlay, so it has done work.  A run that returns is thus a no-op exactly
    when [upToDate] returned true at its start, which holds of the second of
    two runs in succession as of any other. *)
Theorem C3_bootstrap_noop_when_up_to_date (host : Host) (self : VcpkgRepo)
    (w w1 : World) (b : bool) :
  upToDate self w = (Ok b, w1) ->
  (b = true ->
   bootstrap host self w = (Ok tt, w1) /\
   files w1 = files w /\
   forallb (fun c => negb (is_work c)) (added w w1) = true /\
   exists w2,
     bootstrap host self w1 = (Ok tt, w2) /\
     files w2 = files w1 /\
     forallb (fun c => negb (is_work c)) (added w1 w2) = true) /\
  (b = false ->
   forall w',
     bootstrap host self w = (Ok tt, w') ->
     In (CCopytree (sourcePortsPath self) (PosixPath.join (path self) "ports"))
        (added w w') /\
     forallb (fun c => negb (is_work c)) (added w w') = false).
Proof.
  intros H. split.
  - intros ->.
    destruct (upToDate_idle _ _ _ _ H) as (Hf & Hc & Hw).
    split; [now apply bootstrap_up_to_date|]. split; [exact Hf|].
    split; [exact Hw|].
    destruct (upToDate_total self w1) as (b & w2 & Hrun & _).
    assert (Hb : b = true).
    { pose proof (upToDate_ext self w w1 Hf Hc) as He.
      rewrite H, Hrun in He. cbn in He. congruence. }
    subst b. exists w2.
    destruct (upToDate_idle _ _ _ _ Hrun) as (Hf2 & _ & Hw2).
    split; [now apply bootstrap_up_to_date|]. now split.
  - intros -> w' Hrun.
    destruct (stale_run_copies host self w w1 w' H Hrun) as (l & Hl).
    rewrite Hl. split; [now left | reflexivity].
Qed.

Lemma C3_bootstrap_noop_witness :
  (exists w1,
     upToDate Demo.repo Demo.world3 = (Ok true, w1) /\
     bootstrap Demo.host Demo.repo Demo.world3 = (Ok tt, w1) /\
     files w1 = files Demo.world3) /\
  (fst (upToDate Demo.repo Demo.world1) = Ok false /\
   bootstrap Demo.host Demo.repo Demo.world1 = (Ok tt, Demo.world2) /\
   forallb (fun c => negb (is_work c)) (added Demo.world1 Demo.world2) = false).
Proof.
  split.
  - exists (snd (upToDate Demo.repo Demo.world3)).
    assert (H : upToDate Demo.repo Demo.world3
                = (Ok true, snd (upToDate Demo.repo Demo.world3)))
      by (vm_compute; reflexivity).
    split; [exact H|].
    destruct (C3_bootstrap_noop_when_up_to_date Demo.host Demo.repo _ _ _ H)
      as (Hyes & _).
    destruct (Hyes eq_refl) as (Hb & Hf & _).
    split; assumption.
  - assert (H : upToDate Demo.repo Demo.world1
                = (Ok false, snd (upToDate Demo.repo Demo.world1)))
      by (vm_compute; reflexivity).
    assert (Hrun : bootstrap Demo.host Demo.repo Demo.world1
                   = (Ok tt, Demo.world2))
      by (vm_compute; reflexivity).
    split; [vm_compute; reflexivity|]. split; [exact Hrun|].
    destruct (C3_bootstrap_noop_when_up_to_date Demo.host Demo.repo _ _ _ H)
      as (_ & Hno).
    exact (proj2 (Hno eq_refl Demo.world2 Hrun)).
Defined.

(** C3 as stated fails: after a first [bootstrap] that had to build the
    installation, a second one right after it cleans, downloads and copies
    again, since the tag file is not there yet. *)
Lemma C3_second_bootstrap_repeats_work :
  ~ second_run_idle Demo.host Demo.repo Demo.world1.
Proof.
  intros H.
  destruct (H Demo.world2 (snd (bootstrap Demo.host Demo.repo Demo.world2)))
    as (_ & Hw).
  - vm_compute. reflexivity.
  - vm_compute. reflexivity.
  - vm_compute in Hw. discriminate.
Qed.

(** The second run can be a no-op without [writeTag] in between: when the
    executable is missing and the right tag survives the clean, the first run
    rebuilds the installation and leaves it up to date. *)
Lemma second_run_idle_with_held_tag :
  fst (upToDate Demo.repo Scenario.tag_held) = Ok false /\
  forallb (fun c => negb (is_work c))
          (added Scenario.tag_held
                 (snd (bootstrap Demo.host Demo.repo Scenario.tag_held))) = false /\
  fst (upToDate Demo.repo (snd (bootstrap Demo.host Demo.repo Scenario.tag_held)))
  = Ok true /\
  second_run_idle Demo.host Demo.repo Scenario.tag_held.
Proof.
  split; [vm_compute; reflexivity|]. split; [vm_compute; reflexivity|].
  split; [vm_compute; reflexivity|].
  intros w1 w2 H1 H2.
  assert (E1 : w1 = snd (bootstrap Demo.host Demo.repo Scenario.tag_held))
    by (now rewrite H1).
  assert (Hup : upToDate Demo.repo w1 = (Ok true, snd (upToDate Demo.repo w1)))
    by (rewrite E1; vm_compute; reflexivity).
  pose proof (bootstrap_up_to_date Demo.host Demo.repo _ _ Hup) as Hb.
  rewrite H2 in Hb. injection Hb as ->.
  destruct (upToDate_idle _ _ _ _ Hup) as (Hf & _ & Hw). now split.
Qed.

(** * Further properties of the methods *)

(** ** Regular files and missing entries *)

Lemma lstat_file (w : World) (p c : string) :
  Os.lstat w p = Some (File c) ->
  Os.isfile p w = true /\ stored p w = Some c.
Proof.
  unfold Os.lstat, Os.isfile, stored, Os.stat, stat_at.
  destruct (String.eqb p EmptyString); [discriminate|]. intros H.
  rewrite chase_real; [now rewrite H | intros t; congruence].
Qed.

Lemma lstat_none (w : World) (p : string) :
  Os.lstat w p = None -> Os.isfile p w = false /\ Os.isdir p w = false.
Proof.
  unfold Os.lstat, Os.isfile, Os.isdir, Os.stat, stat_at.
  destruct (String.eqb p EmptyString); [now split|]. intros H.
  rewrite chase_real; [now rewrite H | intros t; congruence].
Qed.

Lemma built_exe_name (host : Host) (self : VcpkgRepo) :
  built host self ->
  exists n, exe self = PosixPath.join (path self) n /\ plain n = true /\
            PyStr.ends_with ".lock" n = false.
Proof.
  intros Hb. destruct (built_fields host self Hb) as (_ & _ & _ & _ & [He | He]).
  - now exists "vcpkg".
  - now exists "vcpkg.exe".
Qed.

(** After a clean that nothing held back, no entry is left at a plain name
    in the root. *)
Lemma clean_removes_child (self : VcpkgRepo) (w : World) (n : string) :
  Os.lstat w (path self) = Some Dir ->
  (forall k, stuck w k = false) ->
  plain n = true ->
  Os.lstat (snd (clean self w)) (PosixPath.join (path self) n) = None.
Proof.
  intros Hdir Hst Hn. rewrite (clean_real_dir self w Hdir). cbn [snd].
  unfold Os.lstat. cbn [files cwd].
  destruct (String.eqb _ EmptyString); [reflexivity|].
  rewrite (locate_join _ _ _ Hn), node_at_after_rmtree.
  - now rewrite is_prefix_app, (survives_none w _ Hst).
  - destruct (locate (cwd w) (path self)); discriminate.
Qed.

(** ** A root given by the user *)

(** X1: with a root given by the user, [upToDate] answers true without
    looking at any file and [bootstrap] does nothing at all, whatever the
    force-build and force-bootstrap flags say and whatever is on disk. *)
Theorem explicit_root_is_never_managed (host : Host) (self : VcpkgRepo)
    (root : string) (w : World) :
  vcpkg_root (args self) = Some root ->
  upToDate self w = (Ok true, w) /\ bootstrap host self w = (Ok tt, w).
Proof.
  intros H. assert (Hu : upToDate self w = (Ok true, w)).
  { unfold upToDate. now rewrite H. }
  split; [exact Hu|]. unfold bootstrap, bind. now rewrite Hu.
Qed.

(** ** [clean], then the other methods *)

(** X2: a clean of a managed root that is a real directory, with no removal
    refused, leaves an installation that [upToDate] reports as out of date. *)
Theorem clean_invalidates (host : Host) (self : VcpkgRepo) (w : World) :
  built host self ->
  vcpkg_root (args self) = None ->
  Os.lstat w (path self) = Some Dir ->
  (forall k, stuck w k = false) ->
  fst (upToDate self (snd (clean self w))) = Ok false.
Proof.
  intros Hb Hroot Hdir Hst.
  destruct (built_exe_name host self Hb) as (n & He & Hn & _).
  pose proof (clean_removes_child self w n Hdir Hst Hn) as Hgone.
  rewrite <- He in Hgone. apply lstat_none in Hgone. destruct Hgone as (Hf & _).
  destruct (upToDate_iff self (snd (clean self w))) as (b & w' & Hrun & _ & Hiff).
  rewrite Hrun. cbn [fst]. f_equal. destruct b; [|reflexivity].
  destruct Hiff as (Hiff & _).
  destruct (Hiff eq_refl) as [Hne | (_ & Hexe & _)]; congruence.
Qed.

Lemma clean_invalidates_witness :
  fst (upToDate Demo.repo Demo.world3) = Ok true /\
  fst (upToDate Demo.repo (snd (clean Demo.repo Demo.world3))) = Ok false.
Proof.
  split; [vm_compute; reflexivity|].
  apply (clean_invalidates Demo.host Demo.repo Demo.world3 demo_built);
    [reflexivity | vm_compute; reflexivity | intros k; reflexivity].
Defined.

Lemma stale_run_with_download (host : Host) (self : VcpkgRepo) (w w1 : World) :
  upToDate self w = (Ok false, w1) ->
  force_bootstrap (args self)
  || negb (Os.isfile (exe self) (snd (clean self w1)))
  || negb (Os.isfile (PosixPath.join (path self) ".vcpkg-root")
                     (snd (clean self w1))) = true ->
  exists l,
    added w (snd (bootstrap host self w)) = l ++ [CDownload (base_archive self)]
      ++ added w (snd (clean self w1)) /\
    Forall (fun c => is_download c = false) l /\
    Forall (fun c => is_download c = false) (added w (snd (clean self w1))).
Proof.
  intros H Hneed.
  rewrite (bootstrap_stale host self w w1 H). rewrite Hneed. cbn [when].
  set (nd := fun c => is_download c = false).
  destruct (emits_upToDate self w) as (l1 & Ht1 & Hl1 & _).
  rewrite H in Ht1. cbn in Ht1.
  assert (Hnd1 : Forall nd l1).
  { eapply Forall_impl; [|exact Hl1]. intros [] Hc; try reflexivity; discriminate. }
  destruct (emits_clean nd self (eq_refl : nd (CRmtree (path self))) w1)
    as (l2 & Ht2 & Hnd2 & _).
  rewrite (added_trans w w1 _ l1 l2 Ht1 Ht2).
  unfold bind at 1.
  pose proof (download_trace host (base_archive self) (snd (clean self w1))) as Hd.
  destruct (download host (base_archive self) (snd (clean self w1)))
    as [[u|e] w3]; cbn [snd] in Hd.
  - destruct (emits_replace_ports nd (sourcePortsPath self)
                (PosixPath.join (path self) "ports") eq_refl eq_refl eq_refl w3)
      as (l4 & Ht4 & Hnd4 & _).
    exists l4. split; [|split; [exact Hnd4 | now apply Forall_app]].
    apply added_app. rewrite Ht4, Hd, Ht2, Ht1. now rewrite <- !app_assoc.
  - exists []. split; [|split; [constructor | now apply Forall_app]].
    cbn [snd]. apply added_app. rewrite Hd, Ht2, Ht1. now rewrite <- !app_assoc.
Qed.

(** X3: when the clean of a stale run removes the whole root (a real
    directory, no removal refused), the base archive is always downloaded:
    the executable is gone, so the force-bootstrap flag and the marker file
    make no difference. *)
Theorem full_clean_always_downloads (host : Host) (self : VcpkgRepo)
    (w w1 : World) :
  built host self ->
  upToDate self w = (Ok false, w1) ->
  Os.lstat w (path self) = Some Dir ->
  (forall k, stuck w k = false) ->
  filter is_download (added w (snd (bootstrap host self w)))
  = [CDownload (base_archive self)].
Proof.
  intros Hb Hup Hdir Hst.
  destruct (upToDate_total self w) as (b & w1' & Hup' & Hf1 & Hc1 & Hs1).
  rewrite Hup in Hup'. injection Hup' as <- <-.
  assert (Hdir1 : Os.lstat w1 (path self) = Some Dir).
  { unfold Os.lstat in *. now rewrite Hf1, Hc1. }
  assert (Hst1 : forall k, stuck w1 k = false) by (intros k; now rewrite Hs1).
  destruct (built_exe_name host self Hb) as (n & He & Hn & _).
  pose proof (clean_removes_child self w1 n Hdir1 Hst1 Hn) as Hgone.
  rewrite <- He in Hgone. apply lstat_none in Hgone. destruct Hgone as (Hf & _).
  destruct (stale_run_with_download host self w w1 Hup) as (l & Ha & Hl & Hc).
  { rewrite Hf. cbn. apply orb_true_iff. left. apply orb_true_r. }
  rewrite Ha, !filter_app, (filter_none _ Hl), (filter_none _ Hc). reflexivity.
Qed.

Lemma full_clean_always_downloads_witness :
  upToDate Demo.repo Demo.stale
  = (Ok false, snd (upToDate Demo.repo Demo.stale)) /\
  force_bootstrap (args Demo.repo) = false /\
  filter is_download
         (added Demo.stale (snd (bootstrap Demo.host Demo.repo Demo.stale)))
  = [CDownload (base_archive Demo.repo)].
Proof.
  assert (H : upToDate Demo.repo Demo.stale
              = (Ok false, snd (upToDate Demo.repo Demo.stale)))
    by (vm_compute; reflexivity).
  split; [exact H|]. split; [reflexivity|].
  apply (full_clean_always_downloads Demo.host Demo.repo Demo.stale _
           demo_built H); [vm_compute; reflexivity | intros k; reflexivity].
Defined.

Lemma explicit_root_witness :
  fst (init Demo.host Scenario.arguments_forced Demo.home)
  = Ok Scenario.repo_forced /\
  bootstrap Demo.host Scenario.repo_forced Demo.home = (Ok tt, Demo.home).
Proof.
  split; [vm_compute; reflexivity|].
  exact (proj2 (explicit_root_is_never_managed Demo.host Scenario.repo_forced
                  "rel/vcpkg" Demo.home eq_refl)).
Defined.

(** ** [writeTag] as the commit point *)

Lemma write_text_ok (p c : string) (w w1 : World) :
  Os.write_text p c w = (Ok tt, w1) ->
  String.eqb p EmptyString = false /\
  exists q, chase MAXSYMLINKS (files w) (locate (cwd w) p) = Some q /\
            q <> [] /\
            node_at (files w) q <> Some Dir /\
            node_at (files w) (removelast q) = Some Dir /\
            w1 = mkWorld (put q (File c) (files w)) (cwd w) (stuck w)
                         (COpenWrite p :: trace w).
Proof.
  unfold Os.write_text, bind, record. cbn [fst snd files cwd stuck trace].
  destruct (String.eqb p EmptyString); [discriminate|].
  destruct (chase MAXSYMLINKS (files w) (locate (cwd w) p)) as [q|];
    [|discriminate].
  intros H. split; [reflexivity|]. exists q. split; [reflexivity|].
  destruct q as [|x q]; [cbn in H; discriminate|].
  split; [discriminate|].
  destruct (node_at (files w) (x :: q)) as [[c0| |t]|];
    destruct (node_at (files w) (removelast (x :: q))) as [[c1| |t1]|];
    try discriminate; injection H as <-; repeat split; congruence.
Qed.

Lemma drop_loc_idem (q : loc) (fs : FS) :
  drop_loc q (drop_loc q fs) = drop_loc q fs.
Proof.
  unfold drop_loc. induction fs as [|[k n] fs IH]; cbn; [reflexivity|].
  destruct (loc_eqb k q) eqn:E; cbn; [exact IH|]. now rewrite E, IH.
Qed.

Lemma put_put (q : loc) (n : node) (fs : FS) :
  put q n (put q n fs) = put q n fs.
Proof.
  unfold put. f_equal.
  transitivity (drop_loc q (drop_loc q fs)); [|apply drop_loc_idem].
  unfold drop_loc at 1. cbn [filter fst]. now rewrite loc_eqb_refl.
Qed.

Lemma removelast_neq (q : loc) : q <> [] -> removelast q <> q.
Proof.
  intros Hq E. apply (f_equal (@length string)) in E.
  destruct q as [|x q]; [contradiction|].
  destruct (@exists_last _ (x :: q)) as (l & a & Hl); [discriminate|].
  rewrite Hl, removelast_last, length_app in E. cbn in E. lia.
Qed.

(** X4: a [writeTag] that returns has changed one entry of the file table
    only, the file the tag path leads to, which now holds the tag; and a
    second [writeTag] right after it changes nothing more. *)
Theorem writeTag_writes_one_file (self : VcpkgRepo) (w w1 : World) :
  writeTag self w = (Ok tt, w1) ->
  exists q,
    chase MAXSYMLINKS (files w) (locate (cwd w) (tagFile self)) = Some q /\
    node_at (files w1) q = Some (File (tagContents self)) /\
    (forall q', q' <> q -> node_at (files w1) q' = node_at (files w) q') /\
    exists w2, writeTag self w1 = (Ok tt, w2) /\ files w2 = files w1.
Proof.
  unfold writeTag. intros H.
  destruct (write_text_ok _ _ _ _ H) as (Hp & q & Hch & Hq & Hnd & Hpar & ->).
  exists q. cbn [files]. split; [exact Hch|].
  split; [now rewrite node_at_put, loc_eqb_refl|]. split.
  { intros q' Hq'. rewrite node_at_put by exact Hq.
    destruct (loc_eqb q q') eqn:E; [|reflexivity].
    apply loc_eqb_eq in E. congruence. }
  pose proof (chase_put_file (files w) q (tagContents self) Hq
                (chase_not_link _ _ _ _ Hch) _ _ _ Hch) as Hch2.
  eexists. split.
  - unfold Os.write_text, bind, record. cbn [fst snd files cwd stuck trace].
    rewrite Hp, Hch2, !node_at_put by exact Hq. rewrite loc_eqb_refl.
    destruct (loc_eqb q (removelast q)) eqn:E.
    { apply loc_eqb_eq in E. symmetry in E. now apply removelast_neq in E. }
    rewrite Hpar. reflexivity.
  - cbn [files with_files]. apply put_put.
Qed.

Lemma writeTag_writes_one_file_witness :
  writeTag Demo.repo Demo.world2 = (Ok tt, Demo.world3) /\
  node_at (files Demo.world3) ["tmp"; "hifi"; "vcpkg"; "abc123de"; "vcpkg"]
  = node_at (files Demo.world2) ["tmp"; "hifi"; "vcpkg"; "abc123de"; "vcpkg"].
Proof.
  assert (H : writeTag Demo.repo Demo.world2 = (Ok tt, Demo.world3))
    by (vm_compute; reflexivity).
  split; [exact H|].
  destruct (writeTag_writes_one_file Demo.repo Demo.world2 Demo.world3 H)
    as (q & Hch & _ & Hframe & _).
  apply Hframe. vm_compute in Hch. injection Hch as <-. discriminate.
Defined.

(** X5: [writeTag] is the commit: once it has returned, with the executable
    there and the force-build flag unset, the next [bootstrap] returns at
    once, does no work and leaves the files as they are. *)
Theorem commit_then_bootstrap_is_noop (host : Host) (self : VcpkgRepo)
    (w w1 : World) :
  writeTag self w = (Ok tt, w1) ->
  force_build (args self) = false ->
  Os.isfile (exe self) w = true ->
  exists w2,
    bootstrap host self w1 = (Ok tt, w2) /\
    files w2 = files w1 /\
    forallb (fun c => negb (is_work c)) (added w1 w2) = true.
Proof.
  unfold writeTag. intros Hw Hfb He.
  pose proof (stored_after_write _ _ _ _ Hw) as Hs.
  destruct (upToDate_iff self w1) as (b & w2 & Hrun & _ & Hiff).
  assert (Hb : b = true).
  { apply Hiff. right. split; [exact Hfb|].
    split; [eapply isfile_after_write; eauto|]. split; [|exact Hs].
    unfold stored in Hs. unfold Os.isfile.
    now destruct (Os.stat w1 (tagFile self)) as [[c| |t]|]. }
  subst b. exists w2.
  destruct (upToDate_idle _ _ _ _ Hrun) as (Hf & _ & Hw2).
  split; [now apply bootstrap_up_to_date|]. now split.
Qed.

Lemma commit_then_bootstrap_witness :
  writeTag Demo.repo Demo.world2 = (Ok tt, Demo.world3) /\
  fst (bootstrap Demo.host Demo.repo Demo.world3) = Ok tt /\
  files (snd (bootstrap Demo.host Demo.repo Demo.world3)) = files Demo.world3.
Proof.
  assert (H : writeTag Demo.repo Demo.world2 = (Ok tt, Demo.world3))
    by (vm_compute; reflexivity).
  split; [exact H|].
  destruct (commit_then_bootstrap_is_noop Demo.host Demo.repo Demo.world2
              Demo.world3 H eq_refl) as (w2 & Hb & Hf & _).
  - vm_compute. reflexivity.
  - rewrite Hb. split; [reflexivity | exact Hf].
Defined.

(** X6: [writeTag] does not make the installation root: after a clean that
    removed the root (a real directory below the file-system root, no removal
    refused) it raises FileNotFoundError and writes nothing. *)
Theorem writeTag_after_clean_raises (host : Host) (self : VcpkgRepo) (w : World) :
  built host self ->
  Os.lstat w (path self) = Some Dir ->
  locate (cwd w) (path self) <> [] ->
  (forall k, stuck w k = false) ->
  let w1 := snd (clean self w) in
  writeTag self w1
  = (Raise FileNotFoundError,
     mkWorld (files w1) (cwd w1) (stuck w1)
             (COpenWrite (tagFile self) :: trace w1)).
Proof.
  intros Hb Hdir Hroot Hst w1.
  destruct (built_fields host self Hb) as (Htag & _).
  pose proof (clean_removes_child self w ".id" Hdir Hst eq_refl) as Hgone.
  rewrite <- Htag in Hgone. fold w1 in Hgone.
  assert (Hw1 : files w1 = Shutil.after_rmtree w (locate (cwd w) (path self))
                /\ cwd w1 = cwd w).
  { subst w1. now rewrite (clean_real_dir self w Hdir). }
  destruct Hw1 as (Hf1 & Hc1).
  unfold writeTag, Os.write_text, bind, record.
  cbn [fst snd files cwd stuck trace].
  unfold Os.lstat in Hgone.
  destruct (String.eqb (tagFile self) EmptyString) eqn:Hp.
  { reflexivity. }
  rewrite chase_real by (intros t; congruence). rewrite Hgone.
  rewrite Hc1, Htag, locate_join, removelast_last by reflexivity.
  rewrite Hf1, node_at_after_rmtree by exact Hroot.
  rewrite is_prefix_refl, (survives_none w _ Hst). reflexivity.
Qed.

Lemma writeTag_after_clean_witness :
  fst (writeTag Demo.repo (snd (clean Demo.repo Demo.world3)))
  = Raise FileNotFoundError /\
  files (snd (writeTag Demo.repo (snd (clean Demo.repo Demo.world3))))
  = files (snd (clean Demo.repo Demo.world3)).
Proof.
  pose proof (writeTag_after_clean_raises Demo.host Demo.repo Demo.world3
                demo_built) as H.
  cbv zeta in H. rewrite H.
  - split; reflexivity.
  - vm_compute. reflexivity.
  - vm_compute. discriminate.
  - intros k. reflexivity.
Defined.

(** ** [cleanBuilds] *)

Lemma is_prefix_sibling (root : loc) (a b : string) (r : loc) :
  a <> b -> is_prefix (root ++ [a]) (root ++ b :: r) = false.
Proof.
  intros Hab. induction root as [|x root IH]; cbn.
  - apply String.eqb_neq in Hab. now rewrite Hab.
  - now rewrite String.eqb_refl, IH.
Qed.

Lemma cleanBuilds_effect (self : VcpkgRepo) (w : World) :
  fst (cleanBuilds self w) = Ok tt /\
  cwd (snd (cleanBuilds self w)) = cwd w /\
  forall q, is_prefix (locate (cwd w) (path self) ++ ["buildtrees"]) q = false ->
            node_at (files (snd (cleanBuilds self w))) q = node_at (files w) q.
Proof.
  unfold cleanBuilds, bind, ask.
  destruct (Os.isdir (PosixPath.join (path self) "buildtrees") w);
    cbn [when]; [|now cbn].
  destruct (rmtree_inv (PosixPath.join (path self) "buildtrees") w)
    as (Hok & Hc & _ & _ & Hf).
  split; [exact Hok|]. split; [exact Hc|]. intros q Hq. rewrite Hf.
  destruct (Os.lstat w (PosixPath.join (path self) "buildtrees"))
    as [[c| |t]|]; try reflexivity.
  rewrite locate_join by reflexivity.
  destruct q as [|x q]; [reflexivity|].
  rewrite node_at_after_rmtree by discriminate. now rewrite Hq.
Qed.

(** X7: [cleanBuilds] never raises and changes nothing outside the
    buildtrees directory of the root: the entries of the executable and of
    the tag file stay as they are, and when both are regular files the answer
    of [upToDate] is the same before and after. *)
Theorem cleanBuilds_keeps_installation (host : Host) (self : VcpkgRepo)
    (w : World) :
  built host self ->
  let w' := snd (cleanBuilds self w) in
  fst (cleanBuilds self w) = Ok tt /\
  (forall q, is_prefix (locate (cwd w) (path self) ++ ["buildtrees"]) q = false ->
             node_at (files w') q = node_at (files w) q) /\
  Os.lstat w' (exe self) = Os.lstat w (exe self) /\
  Os.lstat w' (tagFile self) = Os.lstat w (tagFile self) /\
  (forall e c, Os.lstat w (exe self) = Some (File e) ->
               Os.lstat w (tagFile self) = Some (File c) ->
               fst (upToDate self w') = fst (upToDate self w)).
Proof.
  intros Hb w'. destruct (cleanBuilds_effect self w) as (Hok & Hc & Hframe).
  fold w' in Hc, Hframe.
  destruct (built_fields host self Hb) as (Htag & _).
  destruct (built_exe_name host self Hb) as (n & He & Hn & _).
  assert (Hchild : forall m, plain m = true -> m <> "buildtrees" ->
            Os.lstat w' (PosixPath.join (path self) m)
            = Os.lstat w (PosixPath.join (path self) m)).
  { intros m Hm Hne. unfold Os.lstat. rewrite Hc.
    destruct (String.eqb _ EmptyString); [reflexivity|].
    rewrite (locate_join _ _ _ Hm). apply Hframe.
    apply is_prefix_sibling. congruence. }
  assert (Hexe : Os.lstat w' (exe self) = Os.lstat w (exe self)).
  { rewrite He. apply Hchild; [exact Hn|].
    destruct (built_fields host self Hb) as (_ & _ & _ & _ & [E | E]);
      rewrite E in He; intros ->.
    - apply (f_equal (fun s => snd (PosixPath.rsplit s))) in He.
      rewrite !basename_join in He by reflexivity. discriminate.
    - apply (f_equal (fun s => snd (PosixPath.rsplit s))) in He.
      rewrite !basename_join in He by reflexivity. discriminate. }
  assert (Htg : Os.lstat w' (tagFile self) = Os.lstat w (tagFile self)).
  { rewrite Htag. apply Hchild; [reflexivity | discriminate]. }
  split; [exact Hok|]. split; [exact Hframe|]. split; [exact Hexe|].
  split; [exact Htg|]. intros e c Hle Hlt.
  destruct (lstat_file w _ _ Hle) as (Hfe & _).
  destruct (lstat_file w _ _ Hlt) as (Hft & Hst).
  rewrite <- Hexe in Hle. rewrite <- Htg in Hlt.
  destruct (lstat_file w' _ _ Hle) as (Hfe' & _).
  destruct (lstat_file w' _ _ Hlt) as (Hft' & Hst').
  destruct (upToDate_iff self w) as (b & v & Hrun & _ & Hiff).
  destruct (upToDate_iff self w') as (b' & v' & Hrun' & _ & Hiff').
  rewrite Hrun, Hrun'. cbn [fst]. f_equal.
  rewrite Hfe, Hft, Hst in Hiff. rewrite Hfe', Hft', Hst' in Hiff'.
  destruct b, b'; try reflexivity.
  - destruct Hiff as (Hiff & _). destruct Hiff' as (_ & Hiff').
    specialize (Hiff' (Hiff eq_refl)). discriminate.
  - destruct Hiff as (_ & Hiff). destruct Hiff' as (Hiff' & _).
    specialize (Hiff (Hiff' eq_refl)). discriminate.
Qed.

Lemma cleanBuilds_witness :
  fst (cleanBuilds Demo.repo Scenario.with_buildtrees) = Ok tt /\
  Os.isdir "/tmp/hifi/vcpkg/abc123de/buildtrees" Scenario.with_buildtrees = true /\
  Os.lstat (snd (cleanBuilds Demo.repo Scenario.with_buildtrees))
           "/tmp/hifi/vcpkg/abc123de/buildtrees" = None /\
  fst (upToDate Demo.repo (snd (cleanBuilds Demo.repo Scenario.with_buildtrees)))
  = Ok true.
Proof.
  destruct (cleanBuilds_keeps_installation Demo.host Demo.repo
              Scenario.with_buildtrees demo_built) as (Hok & _ & _ & _ & Hup).
  split; [exact Hok|]. split; [vm_compute; reflexivity|].
  split; [vm_compute; reflexivity|].
  rewrite (Hup "elf" "abc123de_1"); vm_compute; reflexivity.
Defined.

(** ** [setupDependencies] and what it calls *)

Lemma subprocess_trace (host : Host) (cmd : list string) (folder : string)
    (w : World) :
  trace (snd (subprocess host cmd folder w)) = CRun cmd folder :: trace w.
Proof.
  unfold subprocess, bind, record. cbn [fst snd files cwd stuck trace].
  destruct (executeSubprocess host cmd folder (cwd w) (files w)); reflexivity.
Qed.

Lemma emits_android_packages (P : call -> Prop) (host : Host)
    (pkgPath : string) (ps : list (string * package)) :
  (forall f, P (CDownload f)) ->
  emits P (android_packages host pkgPath ps).
Proof.
  intros HP. induction ps as [|[name pkg] ps IH]; cbn [android_packages];
    [apply emits_ret|].
  apply emits_bind; [apply emits_ask|]. intros d.
  apply emits_bind; [|intros _; exact IH].
  destruct d; [apply emits_ret | apply emits_download, HP].
Qed.

Lemma emits_setupAndroid (P : call -> Prop) (host : Host) (self : VcpkgRepo) :
  (forall f, P (CDownload f)) ->
  emits P (setupAndroidDependencies host self).
Proof.
  intros HP. unfold setupAndroidDependencies.
  apply emits_bind; [apply emits_ask|]. intros d.
  apply emits_bind; [apply emits_when, emits_download, HP|].
  intros _. destruct (androidPackagePath self) as [pkgPath|].
  - now apply emits_android_packages.
  - destruct (getPlatformPackages host); [apply emits_ret | apply emits_raise].
Qed.

Lemma emits_installQt (P : call -> Prop) (host : Host) (self : VcpkgRepo) :
  (forall f, P (CDownload f)) -> emits P (installQt host self).
Proof.
  intros HP. unfold installQt. repeat emits_step; apply HP.
Qed.

Lemma run_trace (host : Host) (self : VcpkgRepo) (commands : list string)
    (w : World) :
  trace (snd (run host self commands w)) = run_call self commands :: trace w.
Proof. unfold run, run_call. apply subprocess_trace. Qed.

(** X8: a [setupDependencies] that returns has run vcpkg exactly for the
    host tools, with the host triplet, and then, unless the build is for
    android, for hifi-client-deps with the target triplet; each command
    starts with the executable and --vcpkg-root and the root, and runs in the
    root.  An android build runs no other vcpkg command. *)
Theorem setupDependencies_runs (host : Host) (self : VcpkgRepo) (w w' : World) :
  setupDependencies host self w = (Ok tt, w') ->
  filter is_run (added w w')
  = if android (args self)
    then [run_call self ["install"; "--triplet"; hostTriplet self; "hifi-host-tools"]]
    else [run_call self ["install"; "--triplet"; triplet self; "hifi-client-deps"];
          run_call self ["install"; "--triplet"; hostTriplet self; "hifi-host-tools"]].
Proof.
  unfold setupDependencies. intros H.
  set (nr := fun c => is_run c = false).
  assert (Hnr : forall l, Forall nr l -> filter is_run l = []).
  { induction 1 as [|c l Hc _ IH]; cbn; [reflexivity|]. now rewrite Hc. }
  peel H as u1 w1 H1. peel H as u2 w2 H2. peel H as u3 w3 H3.
  assert (E1 : exists l1, trace w1 = l1 ++ trace w /\ Forall nr l1).
  { destruct (emits_when nr (android (args self))
                (setupAndroidDependencies host self)
                (emits_setupAndroid nr host self (fun f => eq_refl)) w)
      as (l1 & Ht & Hl & _).
    rewrite H1 in Ht. now exists l1. }
  destruct E1 as (l1 & Ht1 & Hl1).
  pose proof (run_trace host self
                ["install"; "--triplet"; hostTriplet self; "hifi-host-tools"] w1)
    as Ht2.
  rewrite H2 in Ht2. cbn [snd] in Ht2.
  assert (E4 : exists l4, trace w' = l4 ++ trace w3 /\ Forall nr l4).
  { destruct (emits_when nr (negb (android (args self))) (installQt host self)
                (emits_installQt nr host self (fun f => eq_refl)) w3)
      as (l4 & Ht & Hl & _).
    rewrite H in Ht. now exists l4. }
  destruct E4 as (l4 & Ht4 & Hl4).
  destruct (android (args self)); cbn [negb when] in H3.
  - unfold ret in H3. injection H3 as _ <-.
    erewrite added_app.
    2:{ rewrite Ht4, Ht2, Ht1.
        instantiate (1 := l4 ++ [run_call self _] ++ l1).
        now rewrite <- !app_assoc. }
    now rewrite !filter_app, (Hnr _ Hl4), (Hnr _ Hl1).
  - pose proof (run_trace host self
                  ["install"; "--triplet"; triplet self; "hifi-client-deps"] w2)
      as Ht3.
    rewrite H3 in Ht3. cbn [snd] in Ht3.
    erewrite added_app.
    2:{ rewrite Ht4, Ht3, Ht2, Ht1.
        instantiate (1 := l4 ++ [run_call self _; run_call self _] ++ l1).
        now rewrite <- !app_assoc. }
    now rewrite !filter_app, (Hnr _ Hl4), (Hnr _ Hl1).
Qed.

Lemma setupDependencies_runs_witness :
  fst (setupDependencies Scenario.android_host Scenario.repo_android
                         Scenario.android_ready) = Ok tt /\
  filter is_run
    (added Scenario.android_ready
           (snd (setupDependencies Scenario.android_host Scenario.repo_android
                                   Scenario.android_ready)))
  = [CRun ["/tmp/hifi/vcpkg/android/abc123de/vcpkg"; "--vcpkg-root";
           "/tmp/hifi/vcpkg/android/abc123de"; "install"; "--triplet";
           "x64-linux"; "hifi-host-tools"]
          "/tmp/hifi/vcpkg/android/abc123de"].
Proof.
  assert (H : setupDependencies Scenario.android_host Scenario.repo_android
                                Scenario.android_ready
              = (Ok tt, snd (setupDependencies Scenario.android_host
                               Scenario.repo_android Scenario.android_ready)))
    by (vm_compute; reflexivity).
  split; [now rewrite H|].
  exact (setupDependencies_runs Scenario.android_host Scenario.repo_android
           Scenario.android_ready _ H).
Defined.

Lemma installQt_cases_aux (host : Host) (self : VcpkgRepo) (w : World) :
  (Os.isdir (qt_dir self) w = true -> installQt host self w = (Ok tt, w)) /\
  (Os.isdir (qt_dir self) w = false -> system host = OtherSystem ->
   installQt host self w = (Raise UnboundLocalError, w)).
Proof.
  unfold installQt, qt_dir, bind, ask. split.
  - intros ->. reflexivity.
  - intros -> ->. reflexivity.
Qed.

(** X9: [installQt] does nothing when the hifi-qt5 directory is there;
    when it is missing it makes one download, into the installed directory
    and without a hash, on Windows, Darwin and Linux, and on any other system
    it raises UnboundLocalError before downloading anything. *)
Theorem installQt_cases (host : Host) (self : VcpkgRepo) (w : World) :
  (Os.isdir (qt_dir self) w = true -> installQt host self w = (Ok tt, w)) /\
  (Os.isdir (qt_dir self) w = false -> system host = OtherSystem ->
   installQt host self w = (Raise UnboundLocalError, w)) /\
  (Os.isdir (qt_dir self) w = false -> system host <> OtherSystem ->
   exists url,
     added w (snd (installQt host self w))
     = [CDownload (mkFetch url (PosixPath.join (path self) "installed")
                           None false false)]).
Proof.
  unfold installQt, qt_dir, bind, ask. repeat split.
  - intros ->. reflexivity.
  - intros -> ->. reflexivity.
  - intros -> Hs. cbn [negb when].
    destruct (system host); try (now elim Hs);
      eexists; apply added_app; rewrite download_trace; reflexivity.
Qed.

(** X10: on a system that is none of Windows, Darwin and Linux, a
    [setupDependencies] of a build that is not for android returns only if
    the hifi-qt5 directory is there once vcpkg has run: [installQt] cannot
    fetch it. *)
Theorem unknown_system_needs_qt (host : Host) (self : VcpkgRepo) (w w' : World) :
  system host = OtherSystem ->
  android (args self) = false ->
  setupDependencies host self w = (Ok tt, w') ->
  Os.isdir (qt_dir self) w' = true.
Proof.
  intros Hs Ha. unfold setupDependencies. rewrite Ha. cbn [negb when]. intros H.
  peel H as u1 w1 H1. peel H as u2 w2 H2. peel H as u3 w3 H3.
  destruct (installQt_cases_aux host self w3) as (Hyes & Hno).
  destruct (Os.isdir (qt_dir self) w3) eqn:Hd.
  - rewrite (Hyes eq_refl) in H. now injection H as <-.
  - rewrite (Hno eq_refl Hs) in H. discriminate.
Qed.

Lemma unknown_system_needs_qt_witness :
  fst (init Scenario.bsd_host Demo.arguments Demo.world0) = Ok Demo.repo /\
  fst (setupDependencies Scenario.bsd_host Demo.repo Demo.world3)
  = Raise UnboundLocalError /\
  fst (setupDependencies Scenario.bsd_host Demo.repo Scenario.with_qt) = Ok tt /\
  Os.isdir (qt_dir Demo.repo)
           (snd (setupDependencies Scenario.bsd_host Demo.repo Scenario.with_qt))
  = true.
Proof.
  split; [vm_compute; reflexivity|]. split; [vm_compute; reflexivity|].
  assert (H : setupDependencies Scenario.bsd_host Demo.repo Scenario.with_qt
              = (Ok tt, snd (setupDependencies Scenario.bsd_host Demo.repo
                                               Scenario.with_qt)))
    by (vm_compute; reflexivity).
  split; [now rewrite H|].
  exact (unknown_system_needs_qt Scenario.bsd_host Demo.repo Scenario.with_qt _
           eq_refl eq_refl H).
Defined.

(** X11: [setupAndroidDependencies] fetches only what is missing: when the
    arm64-android tree is installed and the directory of every platform
    package is there, it returns without a download and without any change. *)
Theorem setupAndroid_skips_present (host : Host) (self : VcpkgRepo)
    (pkgPath : string) (w : World) :
  androidPackagePath self = Some pkgPath ->
  Os.isdir (PosixPath.joins (path self) ["installed"; "arm64-android"]) w = true ->
  Forall (fun np => Os.isdir (PosixPath.join pkgPath (fst np)) w = true)
         (getPlatformPackages host) ->
  setupAndroidDependencies host self w = (Ok tt, w).
Proof.
  intros Hp Hd Hall. unfold setupAndroidDependencies, bind, ask.
  rewrite Hd, Hp. cbn [negb when ret].
  induction Hall as [|[name pkg] ps Hn _ IH]; cbn [android_packages];
    [reflexivity|].
  cbn [fst] in Hn. unfold bind, ask. rewrite Hn. cbn [ret]. exact IH.
Qed.

Lemma setupAndroid_skips_present_witness :
  fst (init Scenario.android_host Scenario.arguments_android Demo.world0)
  = Ok Scenario.repo_android /\
  setupAndroidDependencies Scenario.android_host Scenario.repo_android
                           Scenario.android_ready
  = (Ok tt, Scenario.android_ready).
Proof.
  split; [vm_compute; reflexivity|].
  apply (setupAndroid_skips_present Scenario.android_host Scenario.repo_android
           "/opt/android"); [reflexivity | vm_compute; reflexivity |].
  repeat constructor.
Defined.

(** ** [writeConfig] for android: the clauses are formatted twice *)

Lemma cmakeConfig_android_twice (self : VcpkgRepo) (w : World) (pkg : string) :
  android (args self) = true ->
  androidPackagePath self = Some pkg ->
  let precompiled := Os.realpath pkg w in
  let qtCmakePrefix := Os.realpath (PosixPath.join precompiled "qt/lib/cmake") w in
  cmakeConfig self w
  = match py_format (android_clauses precompiled qtCmakePrefix) [] with
    | Ok r =>
        (Ok (PyStr.replace_char "\" "/"
               (config_text
                  (PosixPath.join (path self) "scripts/buildsystems/vcpkg.cmake")
                  (PosixPath.joins (path self) ["installed"; triplet self])
                  (PosixPath.joins (path self)
                                   ["installed"; hostTriplet self; "tools"])
                  r)), w)
    | Raise e => (Raise e, w)
    end.
Proof.
  intros Ha Hp pre qt. unfold cmakeConfig. rewrite Ha, Hp. cbn [negb].
  unfold bind, ret, format, ask. fold pre. fold qt.
  assert (H1 : py_format ("set(HIFI_ANDROID_PRECOMPILED " ++ DQ ++ "{}" ++ DQ ++ ")" ++ LF)
                         [pre]
               = Ok ("set(HIFI_ANDROID_PRECOMPILED " ++ DQ ++ pre ++ DQ ++ ")" ++ LF)%string).
  { cbn. reflexivity. }
  assert (H2 : py_format ("set(QT_CMAKE_PREFIX_PATH " ++ DQ ++ "{}" ++ DQ ++ ")" ++ LF)
                         [qt]
               = Ok ("set(QT_CMAKE_PREFIX_PATH " ++ DQ ++ qt ++ DQ ++ ")" ++ LF)%string).
  { cbn. reflexivity. }
  rewrite H1, H2. rewrite py_format_template.
  assert (Hc : (("set(HIFI_ANDROID_PRECOMPILED " ++ DQ ++ pre ++ DQ ++ ")" ++ LF)
                  ++ "set(QT_CMAKE_PREFIX_PATH " ++ DQ ++ qt ++ DQ ++ ")" ++ LF)%string
               = android_clauses pre qt).
  { unfold android_clauses. now rewrite !append_assoc. }
  rewrite Hc. now destruct (py_format (android_clauses pre qt) []).
Qed.

(** What [str.format] returns without arguments is never longer than the
    template, and shorter when the template holds a brace. *)
Lemma py_format_length (n : nat) :
  forall s r, String.length s <= n -> py_format s [] = Ok r ->
    String.length r <= String.length s /\
    (no_brace s = false -> String.length r < String.length s).
Proof.
  induction n as [|n IH]; intros s r Hlen.
  - destruct s; [|cbn in Hlen; lia]. cbn. intros H. injection H as <-.
    split; [reflexivity | discriminate].
  - destruct s as [|c s]; [cbn; intros H; injection H as <-;
                           split; [reflexivity | discriminate]|].
    cbn [py_format]. cbn [String.length] in Hlen.
    destruct (Ascii.eqb c "{") eqn:Eo.
    { destruct s as [|d s]; [discriminate|].
      destruct (Ascii.eqb d "}"); [discriminate|].
      destruct (Ascii.eqb d "{"); [|discriminate].
      destruct (py_format s []) as [r0|] eqn:E0; [|discriminate].
      cbn [prepend]. intros H. injection H as <-.
      destruct (IH s r0) as (Hle & _); [cbn in Hlen; lia | exact E0 |].
      cbn. split; intros; lia. }
    destruct (Ascii.eqb c "}") eqn:Ec.
    { destruct s as [|d s]; [discriminate|].
      destruct (Ascii.eqb d "}"); [|discriminate].
      destruct (py_format s []) as [r0|] eqn:E0; [|discriminate].
      cbn [prepend]. intros H. injection H as <-.
      destruct (IH s r0) as (Hle & _); [cbn in Hlen; lia | exact E0 |].
      cbn. split; intros; lia. }
    destruct (py_format s []) as [r0|] eqn:E0; [|discriminate].
    cbn [prepend]. intros H. injection H as <-.
    destruct (IH s r0) as (Hle & Hlt); [lia | exact E0 |].
    cbn [String.append String.length]. split; [lia|].
    unfold no_brace in *. cbn [PyStr.mem_char]. rewrite Eo, Ec. cbn [orb].
    intros Hb. apply Hlt in Hb. lia.
Qed.

Lemma py_format_verbatim (s : string) :
  py_format s [] = Ok s <-> no_brace s = true.
Proof.
  split.
  - intros H. destruct (no_brace s) eqn:E; [reflexivity|].
    destruct (py_format_length (String.length s) s s (le_n _) H) as (_ & Hlt).
    specialize (Hlt E). lia.
  - apply py_format_plain.
Qed.

Lemma replace_char_length (a b : ascii) (s : string) :
  String.length (PyStr.replace_char a b s) = String.length s.
Proof. induction s as [|c s IH]; cbn; [reflexivity | now rewrite IH]. Qed.

Lemma config_text_length (s i t r : string) :
  String.length (config_text s i t r)
  = String.length (config_text s i t EmptyString) + String.length r.
Proof.
  unfold config_text. rewrite !length_append. cbn [String.length]. lia.
Qed.

Lemma no_brace_android_inv (a b : string) :
  no_brace (android_clauses a b) = true ->
  no_brace a = true /\ no_brace b = true.
Proof.
  unfold android_clauses. rewrite !no_brace_app. intros H.
  repeat (apply andb_true_iff in H; destruct H as (? & H)).
  repeat match goal with
         | H : _ && _ = true |- _ => apply andb_true_iff in H; destruct H
         end.
  now split.
Qed.

(** X12: for an android build the two precompiled-path lines pass through
    [str.format] a second time, with the whole template: the configuration
    holds the two paths as they are exactly when neither has a brace in it,
    and when that second formatting raises, [writeConfig] raises the same
    error and writes nothing. *)
Theorem android_config_formats_twice (self : VcpkgRepo) (w : World)
    (pkg : string) :
  android (args self) = true ->
  androidPackagePath self = Some pkg ->
  let precompiled := Os.realpath pkg w in
  let qtCmakePrefix := Os.realpath (PosixPath.join precompiled "qt/lib/cmake") w in
  (fst (cmakeConfig self w)
   = Ok (PyStr.replace_char "\" "/"
           (config_text
              (PosixPath.join (path self) "scripts/buildsystems/vcpkg.cmake")
              (PosixPath.joins (path self) ["installed"; triplet self])
              (PosixPath.joins (path self) ["installed"; hostTriplet self; "tools"])
              (android_clauses precompiled qtCmakePrefix)))
   <-> no_brace precompiled = true /\ no_brace qtCmakePrefix = true) /\
  (forall e, py_format (android_clauses precompiled qtCmakePrefix) [] = Raise e ->
             writeConfig self w = (Raise e, w)).
Proof.
  intros Ha Hp pre qt.
  pose proof (cmakeConfig_android_twice self w pkg Ha Hp) as Hc.
  cbv zeta in Hc. fold pre qt in Hc. split.
  - rewrite Hc. split.
    + destruct (py_format (android_clauses pre qt) []) as [r|e] eqn:E;
        [|discriminate].
      cbn [fst]. intros H.
      apply (f_equal (fun x => match x with
                               | Ok t => String.length t
                               | Raise _ => 0
                               end)) in H.
      cbv beta iota in H.
      rewrite !replace_char_length in H.
      rewrite (config_text_length _ _ _ r),
        (config_text_length _ _ _ (android_clauses pre qt)) in H.
      apply Nat.add_cancel_l in H.
      apply no_brace_android_inv.
      destruct (no_brace (android_clauses pre qt)) eqn:Eb; [reflexivity|].
      destruct (py_format_length (String.length (android_clauses pre qt))
                  (android_clauses pre qt) r (le_n _) E) as (_ & Hlt).
      specialize (Hlt Eb). rewrite H in Hlt. now apply Nat.lt_irrefl in Hlt.
    + intros (H1 & H2).
      now rewrite (py_format_plain _ [] (no_brace_android_clauses pre qt H1 H2)).
  - intros e He. unfold writeConfig, bind. rewrite Hc, He. reflexivity.
Qed.

Lemma android_config_formats_twice_witness :
  writeConfig Scenario.repo_braces Scenario.android_ready
  = (Raise FormatError, Scenario.android_ready) /\
  no_brace (Os.realpath "/opt/{ndk}/android" Scenario.android_ready) = false.
Proof.
  split.
  - destruct (android_config_formats_twice Scenario.repo_braces
                Scenario.android_ready "/opt/{ndk}/android" eq_refl eq_refl)
      as (_ & H).
    apply H. vm_compute. reflexivity.
  - vm_compute. reflexivity.
Defined.

(** ** The constructor, step by step *)

Lemma make_tag_1 (i : string) : make_tag i 1 = Ok (i ++ "_1")%string.
Proof. rewrite make_tag_eq. reflexivity. Qed.

(** The constructor ensures the base directory (for a managed root), then
    the directory of the lock file, and returns the attributes. *)
Lemma init_spec (host : Host) (a : Args) (w : World) :
  init host a w
  = (let self := attributes host a (hashFolder host (ports_path a) w) in
     match vcpkg_root a with
     | Some _ => ret tt
     | None => ensure (managed_base host a)
     end ;;
     ensure (fst (PosixPath.split (path self))) ;;
     ret self) w.
Proof.
  unfold init, attributes, ensure, managed_base, bind, ask, ret. cbv zeta.
  rewrite make_tag_1.
  destruct (system host); destruct (android a);
    destruct (vcpkg_root a) as [root|];
    cbn [System_eqb path snd fst].
  all: repeat first
    [ progress cbn [negb when fst snd path]
    | progress unfold ret
    | match goal with
      | |- context [let (_, _) := PosixPath.split ?p in _] =>
          destruct (PosixPath.split p)
      | |- context [Os.isdir ?p ?v] => destruct (Os.isdir p v)
      | |- context [Os.makedirs ?p ?v] =>
          destruct (Os.makedirs p v) as [[[]|?] ?]
      end ]; reflexivity.
Qed.

Lemma isdir_shrinks (p : string) (w w' : World) :
  shrinks (files w) (files w') -> cwd w' = cwd w ->
  Os.isdir p w = true -> Os.isdir p w' = true.
Proof.
  intros Hsh Hc. unfold Os.isdir, Os.stat. rewrite Hc.
  destruct (String.eqb p EmptyString); [trivial|].
  destruct (stat_at (files w) (locate (cwd w) p)) as [n|] eqn:E; [|discriminate].
  rewrite (stat_at_shrinks _ _ _ _ Hsh E). trivial.
Qed.

Lemma makedirs_keeps (p : string) (w w' : World) :
  Os.makedirs p w = (Ok tt, w') ->
  shrinks (files w) (files w') /\ cwd w' = cwd w.
Proof.
  unfold Os.makedirs, bind, record. cbn [fst snd]. unfold Os.do_makedirs.
  cbn [files cwd]. destruct (String.eqb p EmptyString); [discriminate|].
  destruct (locate (cwd w) p) as [|x q] eqn:Hq; [discriminate|].
  destruct (Os.mkdirs_from [] (x :: q) (files w)) as [[[]|e] fs'] eqn:Hmk;
    [|discriminate].
  intros H. injection H as <-. cbn [files cwd with_files]. split; [|reflexivity].
  destruct (mkdirs_from_ok (x :: q) [] (files w) fs') as (_ & _ & Hkeep & _);
    [discriminate | exact Hmk | exact Hkeep].
Qed.

Lemma ensure_ok (p : string) (w w' : World) :
  ensure p w = (Ok tt, w') ->
  Os.isdir p w' = true /\ shrinks (files w) (files w') /\ cwd w' = cwd w.
Proof.
  unfold ensure, bind, ask. destruct (Os.isdir p w) eqn:Hd; cbn [negb when].
  - unfold ret. intros H. injection H as <-.
    split; [exact Hd|]. split; [apply shrinks_refl | reflexivity].
  - intros H. split; [now apply (makedirs_isdir p w)|].
    now apply makedirs_keeps in H.
Qed.

Lemma ensure_present (p : string) (w : World) :
  Os.isdir p w = true -> ensure p w = (Ok tt, w).
Proof. intros H. unfold ensure, bind, ask. now rewrite H. Qed.

(** X13: a constructor that returns for a managed root (none given by the
    user) has put the root directly under the base directory, named by the
    first eight characters of the hash, and the base directory is there
    afterwards. *)
Theorem init_managed_root (host : Host) (a : Args) (w w' : World)
    (self : VcpkgRepo) :
  init host a w = (Ok self, w') ->
  vcpkg_root a = None ->
  basePath self = Some (managed_base host a) /\
  path self = PosixPath.join (managed_base host a) (id self) /\
  id self = PyStr.take 8 (hashFolder host (ports_path a) w) /\
  Os.isdir (managed_base host a) w' = true.
Proof.
  rewrite init_spec. cbv zeta. intros H Hroot. rewrite Hroot in H.
  peel H as u1 w1 H1. destruct u1. peel H as u2 w2 H2. destruct u2.
  unfold ret in H. injection H as <- <-.
  unfold attributes. rewrite Hroot. cbn [basePath path id].
  repeat split.
  destruct (ensure_ok _ _ _ H1) as (Hd & _).
  destruct (ensure_ok _ _ _ H2) as (_ & Hsh & Hc).
  now apply (isdir_shrinks _ w1 w2).
Qed.

Lemma init_managed_root_witness :
  init Scenario.android_host Scenario.arguments_android Demo.world0
  = (Ok Scenario.repo_android,
     snd (init Scenario.android_host Scenario.arguments_android Demo.world0)) /\
  path Scenario.repo_android = "/tmp/hifi/vcpkg/android/abc123de" /\
  Os.isdir "/tmp/hifi/vcpkg/android"
           (snd (init Scenario.android_host Scenario.arguments_android
                      Demo.world0)) = true.
Proof.
  assert (H : init Scenario.android_host Scenario.arguments_android Demo.world0
              = (Ok Scenario.repo_android,
                 snd (init Scenario.android_host Scenario.arguments_android
                           Demo.world0))) by (vm_compute; reflexivity).
  split; [exact H|]. split; [reflexivity|].
  exact (proj2 (proj2 (proj2
           (init_managed_root Scenario.android_host Scenario.arguments_android
              Demo.world0 _ Scenario.repo_android H eq_refl)))).
Defined.

(** X14: constructing again changes nothing: in the world a constructor has
    left, with the overlay hashing as before, a second constructor makes no
    directory and returns the same instance. *)
Theorem init_twice (host : Host) (a : Args) (w w' : World) (self : VcpkgRepo) :
  init host a w = (Ok self, w') ->
  hashFolder host (ports_path a) w' = hashFolder host (ports_path a) w ->
  init host a w' = (Ok self, w').
Proof.
  rewrite !init_spec. cbv zeta. intros H Hh. rewrite Hh.
  peel H as u1 w1 H1. destruct u1. peel H as u2 w2 H2. destruct u2.
  unfold ret in H. injection H as <- <-.
  destruct (ensure_ok _ _ _ H2) as (Hd2 & Hsh & Hc).
  unfold bind.
  assert (Hbase : match vcpkg_root a with
                  | Some _ => ret tt
                  | None => ensure (managed_base host a)
                  end w2 = (Ok tt, w2)).
  { destruct (vcpkg_root a); [reflexivity|].
    apply ensure_present. destruct (ensure_ok _ _ _ H1) as (Hd1 & _).
    now apply (isdir_shrinks _ w1 w2). }
  rewrite Hbase, (ensure_present _ _ Hd2). reflexivity.
Qed.

Lemma init_twice_witness :
  init Demo.host Demo.arguments Demo.world0 = (Ok Demo.repo, Demo.world1) /\
  init Demo.host Demo.arguments Demo.world1 = (Ok Demo.repo, Demo.world1).
Proof.
  assert (H : init Demo.host Demo.arguments Demo.world0
              = (Ok Demo.repo, Demo.world1)) by (vm_compute; reflexivity).
  split; [exact H|].
  exact (init_twice Demo.host Demo.arguments Demo.world0 Demo.world1 Demo.repo
           H eq_refl).
Defined.

(** X15: a root given as a bare name, with no directory part, makes the
    constructor raise FileNotFoundError: the directory of the lock file is
    then the empty path, which is no directory and cannot be made. *)
Theorem init_bare_root_raises (host : Host) (a : Args) (w : World)
    (root : string) :
  vcpkg_root a = Some root ->
  PyStr.mem_char PosixPath.sep root = false ->
  init host a w
  = (Raise FileNotFoundError,
     mkWorld (files w) (cwd w) (stuck w) (CMakedirs EmptyString :: trace w)).
Proof.
  intros Hroot Hsep. rewrite init_spec. cbv zeta.
  unfold attributes. rewrite Hroot. cbn [path].
  assert (Hsplit : PosixPath.split root = (EmptyString, root)).
  { unfold PosixPath.split. now rewrite (rsplit_plain root Hsep). }
  rewrite Hsplit. cbn [fst]. reflexivity.
Qed.

Lemma init_bare_root_witness :
  PyStr.mem_char PosixPath.sep "vcpkg" = false /\
  fst (init Demo.host
            (mkArgs "/src/ports" "/build" (Some "vcpkg"%string) false false false)
            Demo.world0)
  = Raise FileNotFoundError.
Proof.
  split; [reflexivity|].
  rewrite (init_bare_root_raises Demo.host
             (mkArgs "/src/ports" "/build" (Some "vcpkg"%string) false false false)
             Demo.world0 "vcpkg" eq_refl eq_refl).
  reflexivity.
Defined.

(** ** A ports directory that cannot be removed *)

(** X16: [bootstrap] never copies the overlay over the remains of an old
    ports directory: when, after the acquisition, the ports path is a real
    directory of which the removal leaves something (an entry in it is held),
    the run raises. *)
Theorem held_ports_block_bootstrap (host : Host) (self : VcpkgRepo) (w : World) :
  fst (upToDate self w) = Ok false ->
  let wa := acquired host self w in
  let portsPath := PosixPath.join (path self) "ports" in
  Os.lstat wa portsPath = Some Dir ->
  Shutil.survives wa (locate (cwd wa) portsPath) = true ->
  exists e, fst (bootstrap host self w) = Raise e.
Proof.
  intros Hup wa pp Hl Hs.
  destruct (upToDate self w) as [r w1] eqn:Hu. cbn in Hup. subst r.
  destruct (bootstrap host self w) as [[[]|e] w'] eqn:Hb; [|now exists e].
  exfalso.
  pose proof (bootstrap_ok_stages host self w w1 w' Hu Hb) as Hrep.
  fold wa pp in Hrep. unfold replace_dir in Hrep.
  assert (Hlink : Os.islink pp wa = false) by (unfold Os.islink; now rewrite Hl).
  unfold bind at 1 in Hrep. unfold ask at 1 in Hrep. rewrite Hlink in Hrep.
  cbn [when] in Hrep. unfold bind at 1 in Hrep. cbn [ret] in Hrep.
  unfold bind at 1 in Hrep. unfold ask at 1 in Hrep.
  rewrite (lstat_dir_isdir _ _ Hl) in Hrep. cbn [when] in Hrep.
  unfold bind at 1 in Hrep.
  destruct (rmtree_inv pp wa) as (_ & Hc & _ & _ & Hf). rewrite Hl in Hf.
  destruct (Shutil.rmtree_ignore_errors pp wa) as [[[]|e] wc];
    [|discriminate]. cbn [snd] in Hc, Hf.
  destruct (copytree_inv _ _ _ _ Hrep)
    as (sq & copied & fsm & _ & _ & _ & _ & Hdq & Hmk & _).
  destruct (mkdirs_from_ok _ [] _ _ Hdq Hmk) as (Hnone & _).
  cbn [app] in Hnone. rewrite Hc in Hnone, Hdq.
  rewrite Hf, node_at_after_rmtree in Hnone by exact Hdq.
  rewrite is_prefix_refl, Hs in Hnone. cbn [negb andb] in Hnone.
  unfold Os.lstat in Hl. destruct (String.eqb pp EmptyString); congruence.
Qed.

Lemma held_ports_witness :
  Shutil.survives (acquired Demo.host Demo.repo Scenario.ports_held)
                  ["tmp"; "hifi"; "vcpkg"; "abc123de"; "ports"] = true /\
  exists e, fst (bootstrap Demo.host Demo.repo Scenario.ports_held) = Raise e.
Proof.
  split; [vm_compute; reflexivity|].
  apply (held_ports_block_bootstrap Demo.host Demo.repo Scenario.ports_held);
    vm_compute; reflexivity.
Defined.

(** ** [writeConfig] and the build directory *)

Lemma tree_none_below (fs : FS) (q : loc) (x : string) :
  tree fs -> node_at fs q = None -> node_at fs (q ++ [x]) = None.
Proof.
  intros Ht Hq. destruct (node_at fs (q ++ [x])) as [n|] eqn:E; [|reflexivity].
  rewrite (Ht q x n E) in Hq. discriminate.
Qed.

(** X17: [writeConfig] does not make the build directory: when its text can
    be formed and nothing stands at the build root, it raises
    FileNotFoundError at the open and changes no file. *)
Theorem writeConfig_needs_build_root (host : Host) (self : VcpkgRepo)
    (w : World) (text : string) :
  built host self ->
  fst (cmakeConfig self w) = Ok text ->
  tree (files w) ->
  build_root (args self) <> EmptyString ->
  Os.lstat w (build_root (args self)) = None ->
  writeConfig self w
  = (Raise FileNotFoundError,
     mkWorld (files w) (cwd w) (stuck w)
             (COpenWrite (configFilePath self) :: trace w)).
Proof.
  intros Hb Hcfg Htree Hne Hl.
  destruct (built_fields host self Hb) as (_ & _ & Hc & _).
  destruct (cmakeConfig self w) as [r w1] eqn:E. cbn [fst] in Hcfg. subst r.
  destruct (cmakeConfig_pure _ _ _ _ E) as (-> & _).
  unfold writeConfig, bind. rewrite E.
  unfold Os.write_text, bind, record. cbn [fst snd files cwd stuck trace].
  rewrite Hc, (join_plain_nonempty _ "vcpkg.cmake" eq_refl).
  rewrite locate_join by reflexivity.
  unfold Os.lstat in Hl. apply String.eqb_neq in Hne. rewrite Hne in Hl.
  pose proof (tree_none_below _ _ "vcpkg.cmake" Htree Hl) as Hchild.
  rewrite chase_real by (intros t; congruence).
  rewrite Hchild, removelast_last, Hl. reflexivity.
Qed.

Lemma writeConfig_needs_build_root_witness :
  Os.lstat (mkWorld [] [] (fun _ => false) []) "/build" = None /\
  fst (writeConfig Demo.repo (mkWorld [] [] (fun _ => false) []))
  = Raise FileNotFoundError.
Proof.
  split; [reflexivity|].
  rewrite (writeConfig_needs_build_root Demo.host Demo.repo
             (mkWorld [] [] (fun _ => false) [])
             (fst (match cmakeConfig Demo.repo (mkWorld [] [] (fun _ => false) [])
                   with (Ok t, _) => (t, tt) | _ => (EmptyString, tt) end))
             demo_built).
  - reflexivity.
  - vm_compute. reflexivity.
  - intros q x n H. destruct q; discriminate H.
  - discriminate.
  - reflexivity.
Defined.

(** ** The constructor and a base path that is no directory *)

Lemma mkdirs_from_exists (rest : list string) :
  forall (done : loc) (fs : FS) (n : node),
    tree fs -> rest <> [] -> node_at fs (done ++ rest) = Some n ->
    Os.mkdirs_from done rest fs = (Raise FileExistsError, fs).
Proof.
  induction rest as [|x rest IH]; intros done fs n Ht Hne H; [contradiction|].
  cbn [Os.mkdirs_from]. destruct rest as [|y rest].
  - rewrite H. now destruct n.
  - assert (Hd : node_at fs (done ++ [x]) = Some Dir).
    { destruct (node_at fs (done ++ [x])) as [[c| |t]|] eqn:E; try reflexivity;
        exfalso;
        assert (Hn : node_at fs ((done ++ [x]) ++ y :: rest) = None)
          by (apply tree_below_absent; [exact Ht | congruence | discriminate]);
        rewrite <- app_assoc in Hn; cbn [app] in Hn; congruence. }
    rewrite Hd. apply (IH (done ++ [x]) fs n Ht); [discriminate|].
    rewrite <- app_assoc. exact H.
Qed.

(** X18: when a regular file stands at the base directory of a managed root,
    the constructor raises FileExistsError from [os.makedirs] and changes no
    file. *)
Theorem init_base_is_file (host : Host) (a : Args) (w : World) (c : string) :
  vcpkg_root a = None ->
  tree (files w) ->
  Os.lstat w (managed_base host a) = Some (File c) ->
  init host a w
  = (Raise FileExistsError,
     mkWorld (files w) (cwd w) (stuck w)
             (CMakedirs (managed_base host a) :: trace w)).
Proof.
  intros Hroot Ht Hl. rewrite init_spec. cbv zeta. rewrite Hroot.
  set (p := managed_base host a) in *.
  assert (Hd : Os.isdir p w = false).
  { unfold Os.isdir, Os.stat, stat_at. unfold Os.lstat in Hl.
    destruct (String.eqb p EmptyString); [reflexivity|].
    rewrite chase_real by (intros t; congruence). now rewrite Hl. }
  assert (He : ensure p w
               = (Raise FileExistsError,
                  mkWorld (files w) (cwd w) (stuck w) (CMakedirs p :: trace w))).
  { unfold ensure, bind, ask. rewrite Hd. cbn [negb when].
    unfold Os.makedirs, bind, record. cbn [fst snd].
    unfold Os.do_makedirs. cbn [files cwd]. unfold Os.lstat in Hl.
    destruct (String.eqb p EmptyString); [discriminate|].
    destruct (locate (cwd w) p) as [|x q] eqn:Hq; [discriminate|].
    rewrite (mkdirs_from_exists (x :: q) [] (files w) (File c) Ht);
      [reflexivity | discriminate | exact Hl]. }
  unfold bind at 1. now rewrite He.
Qed.

Lemma init_base_is_file_witness :
  fst (init Demo.host Demo.arguments Scenario.base_is_file)
  = Raise FileExistsError /\
  files (snd (init Demo.host Demo.arguments Scenario.base_is_file))
  = files Scenario.base_is_file.
Proof.
  rewrite (init_base_is_file Demo.host Demo.arguments Scenario.base_is_file
             "not a directory" eq_refl).
  - split; reflexivity.
  - apply is_tree_sound. vm_compute. reflexivity.
  - vm_compute. reflexivity.
Defined.

(** ** The order of the steps of [bootstrap] *)

Lemma clean_trace (self : VcpkgRepo) (w : World) :
  trace (snd (clean self w))
  = (if Os.isdir (path self) w then [CRmtree (path self)] else []) ++ trace w.
Proof.
  unfold clean, bind, ask. destruct (Os.isdir (path self) w); cbn [when];
    [|reflexivity].
  destruct (rmtree_inv (path self) w) as (_ & _ & _ & H & _). exact H.
Qed.

(** X19: the steps of a [bootstrap] that was not up to date and returns, in
    their order: the removal of the root when it is a directory, then the
    download when the archive is needed, then the unlinking or the removal of
    the old ports, then the copy of the overlay; nothing else is done. *)
Theorem bootstrap_order (host : Host) (self : VcpkgRepo) (w w1 w' : World) :
  upToDate self w = (Ok false, w1) ->
  bootstrap host self w = (Ok tt, w') ->
  let w2 := snd (clean self w1) in
  let wa := acquired host self w in
  let need :=
    force_bootstrap (args self)
    || negb (Os.isfile (exe self) w2)
    || negb (Os.isfile (PosixPath.join (path self) ".vcpkg-root") w2) in
  let portsPath := PosixPath.join (path self) "ports" in
  rev (added w1 w')
  = (if Os.isdir (path self) w1 then [CRmtree (path self)] else [])
      ++ (if need then [CDownload (base_archive self)] else [])
      ++ (if Os.islink portsPath wa then [CUnlink portsPath]
          else if Os.isdir portsPath wa then [CRmtree portsPath] else [])
      ++ [CCopytree (sourcePortsPath self) portsPath].
Proof.
  intros Hu Hb w2 wa need pp.
  pose proof (bootstrap_ok_stages host self w w1 w' Hu Hb) as Hrep.
  fold wa pp in Hrep.
  assert (Hpp : String.eqb pp EmptyString = false)
    by (now apply join_plain_nonempty).
  destruct (before_copy _ pp wa w' Hpp Hrep)
    as (wc & Hcp & _ & _ & _ & _ & _ & Htr).
  destruct (copytree_inv _ _ _ _ Hcp)
    as (sq & copied & fsm & _ & _ & _ & _ & _ & _ & _ & _ & _ & Ht).
  assert (Hwa : trace wa
                = (if need then [CDownload (base_archive self)] else [])
                    ++ trace w2).
  { unfold wa, acquired. rewrite Hu. cbn [snd]. fold w2. fold need.
    destruct need; cbn [when]; [apply download_trace | reflexivity]. }
  set (ports_step := if Os.islink pp wa then [CUnlink pp]
                     else if Os.isdir pp wa then [CRmtree pp] else []) in *.
  set (clean_step := if Os.isdir (path self) w1 then [CRmtree (path self)]
                     else []).
  set (fetch_step := if need then [CDownload (base_archive self)] else []) in *.
  rewrite (added_app w1 w'
             (CCopytree (sourcePortsPath self) pp
                :: ports_step ++ fetch_step ++ clean_step)).
  - cbn [rev]. rewrite !rev_app_distr, <- !app_assoc.
    assert (Hc : rev clean_step = clean_step)
      by (unfold clean_step; destruct (Os.isdir (path self) w1); reflexivity).
    assert (Hf : rev fetch_step = fetch_step)
      by (unfold fetch_step; destruct need; reflexivity).
    assert (Hp : rev ports_step = ports_step)
      by (unfold ports_step; destruct (Os.islink pp wa);
          [|destruct (Os.isdir pp wa)]; reflexivity).
    now rewrite Hc, Hf, Hp.
  - rewrite Ht, Htr, Hwa. unfold w2. rewrite clean_trace. fold clean_step.
    cbn [app]. now rewrite <- !app_assoc.
Qed.

Lemma bootstrap_order_witness :
  rev (added (snd (upToDate Demo.repo Demo.stale))
             (snd (bootstrap Demo.host Demo.repo Demo.stale)))
  = [ CRmtree "/tmp/hifi/vcpkg/abc123de";
      CDownload (base_archive Demo.repo);
      CRmtree "/tmp/hifi/vcpkg/abc123de/ports";
      CCopytree "/src/ports" "/tmp/hifi/vcpkg/abc123de/ports" ].
Proof.
  pose proof (bootstrap_order Demo.host Demo.repo Demo.stale
                (snd (upToDate Demo.repo Demo.stale))
                (snd (bootstrap Demo.host Demo.repo Demo.stale))) as H.
  cbv zeta in H. rewrite H; vm_compute; reflexivity.
Defined.

(** ** The downloads of [setupAndroidDependencies] *)

Lemma emits_android_fetch (host : Host) (self : VcpkgRepo) (pkgPath : string)
    (ps : list (string * package)) :
  incl ps (getPlatformPackages host) ->
  emits (android_fetch host self pkgPath) (android_packages host pkgPath ps).
Proof.
  induction ps as [|[name pkg] ps IH]; intros Hin; cbn [android_packages];
    [apply emits_ret|].
  apply emits_bind; [apply emits_ask|]. intros d.
  apply emits_bind.
  - destruct d; [apply emits_ret|]. apply emits_download. right.
    exists name, pkg. split; [apply Hin; now left | reflexivity].
  - intros _. apply IH. intros np Hnp. apply Hin. now right.
Qed.

(** X20: whatever is there already, [setupAndroidDependencies] does nothing
    but download, and only two kinds of archive: the prebuilt tree into the
    installed directory, without a hash, and a platform package into its own
    directory under the android package path, as a zip exactly when its file
    name ends in .zip, checked against its checksum with MD5. *)
Theorem setupAndroid_fetches (host : Host) (self : VcpkgRepo) (w : World)
    (pkgPath : string) :
  androidPackagePath self = Some pkgPath ->
  Forall (android_fetch host self pkgPath)
         (added w (snd (setupAndroidDependencies host self w))).
Proof.
  intros Hpkg. apply added_emits. unfold setupAndroidDependencies.
  apply emits_bind; [apply emits_ask|]. intros d.
  apply emits_bind.
  - apply emits_when, emits_download. now left.
  - intros _. rewrite Hpkg. apply emits_android_fetch, incl_refl.
Qed.

Lemma setupAndroid_fetches_witness :
  length (added Demo.world0
            (snd (setupAndroidDependencies Scenario.android_host
                    Scenario.repo_android Demo.world0))) = 3 /\
  Forall (android_fetch Scenario.android_host Scenario.repo_android "/opt/android")
         (added Demo.world0
            (snd (setupAndroidDependencies Scenario.android_host
                    Scenario.repo_android Demo.world0))).
Proof.
  split; [vm_compute; reflexivity|].
  exact (setupAndroid_fetches Scenario.android_host Scenario.repo_android
           Demo.world0 "/opt/android" eq_refl).
Defined.
